(** * algr_simple: content classification, rule engine, code analysis

    A shallow embedding of the algorithmic core of the repository
    ([config/models.py], [components/chat_interface.py],
    [services/code_analyzer.py]) together with the properties stated for it.

    Python [str] values are modelled as Rocq strings whose characters are
    8-bit code points (U+0000 .. U+00FF); the character classes of [str]
    methods and of the [re] module are the ones Python uses on that range. *)

From Stdlib Require Import Ascii String NArith ZArith QArith Lia.
From stdpp Require Import base tactics option list strings gmap.

Set Warnings "-clear-no-such-hyp,-register-all".

(** ** Python string primitives *)

Module PyStr.

Local Open Scope N_scope.

Definition ord (c : ascii) : N := N_of_ascii c.

Definition between (lo hi : N) (c : ascii) : bool :=
  (lo <=? ord c) && (ord c <=? hi).

(** [str.isspace] on one character. *)
Definition isspace (c : ascii) : bool :=
  between 9 13 c || between 28 32 c || (ord c =? 133) || (ord c =? 160).

(** [str.isalnum] on one character. *)
Definition isalnum (c : ascii) : bool :=
  between 48 57 c || between 65 90 c || between 97 122 c
  || (ord c =? 170) || (ord c =? 178) || (ord c =? 179) || (ord c =? 181)
  || (ord c =? 185) || (ord c =? 186) || between 188 190 c
  || between 192 214 c || between 216 246 c || between 248 255 c.

Definition isupper_chr (c : ascii) : bool :=
  between 65 90 c || between 192 214 c || between 216 222 c.

Definition lower_chr (c : ascii) : ascii :=
  if isupper_chr c then ascii_of_N (ord c + 32) else c.

(** [s.lower()] *)
Fixpoint lower (s : string) : string :=
  match s with
  | EmptyString => EmptyString
  | String c s' => String (lower_chr c) (lower s')
  end.

(** [len(s)] *)
Definition len (s : string) : nat := String.length s.

(** [s[n:]] *)
Fixpoint slice_from (n : nat) (s : string) : string :=
  match n, s with
  | O, _ => s
  | S n', String _ s' => slice_from n' s'
  | S _, EmptyString => EmptyString
  end.

(** [s[:n]] *)
Fixpoint slice_to (n : nat) (s : string) : string :=
  match n, s with
  | S n', String c s' => String c (slice_to n' s')
  | _, _ => EmptyString
  end.

(** [s.lstrip()], [s.rstrip()], [s.strip()] *)
Fixpoint lstrip (s : string) : string :=
  match s with
  | EmptyString => EmptyString
  | String c s' => if isspace c then lstrip s' else s
  end.

Fixpoint rstrip (s : string) : string :=
  match s with
  | EmptyString => EmptyString
  | String c s' =>
      match rstrip s' with
      | EmptyString => if isspace c then EmptyString else String c EmptyString
      | r => String c r
      end
  end.

Definition strip (s : string) : string := rstrip (lstrip s).

(** [s.lstrip(c)] for a one-character argument *)
Fixpoint lstrip_chr (d : ascii) (s : string) : string :=
  match s with
  | EmptyString => EmptyString
  | String c s' => if Ascii.eqb c d then lstrip_chr d s' else s
  end.

(** [s.startswith(p)] *)
Fixpoint startswith (p s : string) : bool :=
  match p, s with
  | EmptyString, _ => true
  | String a p', String b s' => Ascii.eqb a b && startswith p' s'
  | String _ _, EmptyString => false
  end.

(** [sub in s] *)
Fixpoint contains (sub s : string) : bool :=
  startswith sub s ||
  match s with
  | EmptyString => false
  | String _ s' => contains sub s'
  end.

(** [s.count(sub)]: the number of non-overlapping occurrences, scanning
    from the left.  [skip] is the number of characters still covered by
    the occurrence found last. *)
Fixpoint count_from (skip : nat) (sub s : string) : nat :=
  match s with
  | EmptyString => O
  | String _ s' =>
      match skip with
      | S k => count_from k sub s'
      | O => if startswith sub s
             then S (count_from (String.length sub - 1) sub s')
             else count_from O sub s'
      end
  end.

Definition count (sub s : string) : nat :=
  match sub with
  | EmptyString => S (String.length s)
  | _ => count_from O sub s
  end.

(** [s.split(sep)] for a one-character separator *)
Fixpoint split_chr (sep : ascii) (s : string) : list string :=
  match s with
  | EmptyString => [EmptyString]
  | String c s' =>
      if Ascii.eqb c sep then EmptyString :: split_chr sep s'
      else match split_chr sep s' with
           | l :: ls => String c l :: ls
           | [] => [String c EmptyString]
           end
  end.

(** [s.split()]: maximal runs of non-whitespace characters *)
Fixpoint split (s : string) : list string :=
  match s with
  | EmptyString => []
  | String c s' =>
      if isspace c then split s'
      else match s' with
           | EmptyString => [String c EmptyString]
           | String c' _ =>
               if isspace c' then String c EmptyString :: split s'
               else match split s' with
                    | t :: ts => String c t :: ts
                    | [] => [String c EmptyString]
                    end
           end
  end.

(** The line boundaries of [str.splitlines]. *)
Definition is_linebreak (c : ascii) : bool :=
  between 10 13 c || between 28 30 c || (ord c =? 133).

(** [s.splitlines()] *)
Fixpoint splitlines (s : string) : list string :=
  match s with
  | EmptyString => []
  | String c s' =>
      if is_linebreak c then
        EmptyString ::
        match s' with
        | String c' s'' =>
            if (ord c =? 13) && (ord c' =? 10) then splitlines s''
            else splitlines s'
        | EmptyString => []
        end
      else match splitlines s' with
           | l :: ls =>
               match s' with
               | String c' _ =>
                   if is_linebreak c' then String c EmptyString :: ls
                   else String c l :: ls
               | EmptyString => [String c EmptyString]
               end
           | [] => [String c EmptyString]
           end
  end.

(** [sep.join(parts)] *)
Fixpoint join (sep : string) (parts : list string) : string :=
  match parts with
  | [] => EmptyString
  | [p] => p
  | p :: ps => p +:+ sep +:+ join sep ps
  end.

(** [str(n)] for a non-negative integer *)
Definition digit_chr (n : nat) : ascii := ascii_of_nat (48 + n).

Fixpoint str_of_nat_go (fuel n : nat) (acc : string) : string :=
  match fuel with
  | O => acc
  | S f =>
      let acc' := String (digit_chr (n mod 10)) acc in
      match (n / 10)%nat with
      | O => acc'
      | q => str_of_nat_go f q acc'
      end
  end.

Definition str_of_nat (n : nat) : string := str_of_nat_go (S n) n EmptyString.

(** [str(z)] for an integer *)
Definition str_of_Z (z : Z) : string :=
  match z with
  | Z0 => "0"
  | Zpos p => str_of_nat (Pos.to_nat p)
  | Zneg p => String "-" (str_of_nat (Pos.to_nat p))
  end.


(** [s.rfind(sub)], [None] for the answer -1 *)
Fixpoint rfind (sub s : string) : option nat :=
  match s with
  | EmptyString => if startswith sub EmptyString then Some O else None
  | String _ s' =>
      match rfind sub s' with
      | Some i => Some (S i)
      | None => if startswith sub s then Some O else None
      end
  end.

(** [s.rfind(sub, 0, stop)] for a non-negative [stop] *)
Definition rfind_before (sub s : string) (stop : nat) : option nat :=
  rfind sub (slice_to stop s).

(** [s.replace(old, new)]: the non-overlapping occurrences of [old], from
    the left; [skip] counts the characters of the occurrence found last
    that are still to be passed. *)
Fixpoint replace_from (skip : nat) (old new s : string) : string :=
  match s with
  | EmptyString => EmptyString
  | String c s' =>
      match skip with
      | S k => replace_from k old new s'
      | O => if startswith old s
             then new +:+ replace_from (String.length old - 1) old new s'
             else String c (replace_from O old new s')
      end
  end.

(** With an empty [old], Python puts [new] before every character and at
    the end. *)
Fixpoint intersperse (new s : string) : string :=
  match s with
  | EmptyString => new
  | String c s' => new +:+ String c (intersperse new s')
  end.

Definition replace (old new s : string) : string :=
  match old with
  | EmptyString => intersperse new s
  | _ => replace_from O old new s
  end.

End PyStr.

(** ** The fragment of Python's [re] module used by the repository

    A backtracking matcher in continuation-passing style: alternatives are
    tried left to right, greedy repetitions try one more iteration before
    the continuation and lazy ones the continuation first, which is the
    priority order of Python's engine.  A match state carries the character
    before the current position (for [\b] and [^]), the text still to be
    read and the groups captured so far. *)

Module Re.

Inductive greed := Greedy | Lazy.

Inductive regex :=
  | Eps                                   (* empty pattern *)
  | Chr (c : ascii)                       (* a literal character *)
  | Cls (p : ascii -> bool)               (* \w, \s, [...] *)
  | Dot                                   (* . *)
  | Cat (r1 r2 : regex)                   (* r1 r2 *)
  | Alt (r1 r2 : regex)                   (* r1|r2 *)
  | Star (g : greed) (r : regex)          (* r* and r*? *)
  | Group (n : nat) (r : regex)           (* capturing group number n *)
  | Bol                                   (* ^ *)
  | Eol                                   (* $ *)
  | Wordb                                 (* \b *)
  | NotAhead (r : regex).                 (* (?!r) *)

Record flags := { MULTILINE : bool; DOTALL : bool }.

Definition no_flags : flags := {| MULTILINE := false; DOTALL := false |}.
Definition re_MULTILINE : flags := {| MULTILINE := true; DOTALL := false |}.
Definition re_DOTALL : flags := {| MULTILINE := false; DOTALL := true |}.

Record mstate := {
  prev : option ascii;
  rest : string;
  groups : list (nat * string)
}.

(** \w *)
Definition is_word (c : ascii) : bool := PyStr.isalnum c || Ascii.eqb c "_".
(** \s *)
Definition is_space (c : ascii) : bool := PyStr.isspace c.
(** \d *)
Definition is_digit (c : ascii) : bool := PyStr.between 48 57 c.

Definition is_newline (c : ascii) : bool := Ascii.eqb c "010".

(** The text read between two positions of the same string. *)
Definition consumed (before after : string) : string :=
  PyStr.slice_to (String.length before - String.length after) before.

Definition advance (a : ascii) (s' : string) (st : mstate) : mstate :=
  {| prev := Some a; rest := s'; groups := groups st |}.

Definition set_group (n : nat) (txt : string) (st : mstate) : mstate :=
  {| prev := prev st; rest := rest st;
     groups := (n, txt) :: List.filter (fun g => negb (Nat.eqb (fst g) n)) (groups st) |}.

Definition at_bol (fl : flags) (st : mstate) : bool :=
  match prev st with
  | None => true
  | Some c => MULTILINE fl && is_newline c
  end.

Definition at_eol (fl : flags) (st : mstate) : bool :=
  match rest st with
  | EmptyString => true
  | String c EmptyString => is_newline c
  | String c _ => MULTILINE fl && is_newline c
  end.

Definition at_boundary (st : mstate) : bool :=
  xorb (match prev st with Some c => is_word c | None => false end)
       (match rest st with String c _ => is_word c | EmptyString => false end).

Definition one_char (ok : ascii -> bool) (st : mstate)
    (k : mstate -> option mstate) : option mstate :=
  match rest st with
  | String a s' => if ok a then k (advance a s' st) else None
  | EmptyString => None
  end.

Definition shorter (st' st : mstate) : bool :=
  Nat.ltb (String.length (rest st')) (String.length (rest st)).

(** The iterations of a repetition.  [body] matches the repeated pattern
    once; an iteration that reads nothing is not repeated, so [n], the
    number of characters left, bounds the number of iterations. *)
Fixpoint star_loop (g : greed)
    (body : mstate -> (mstate -> option mstate) -> option mstate)
    (k : mstate -> option mstate) (n : nat) (st : mstate) {struct n}
    : option mstate :=
  match n with
  | O => k st
  | S n' =>
      let again st' := if shorter st' st then star_loop g body k n' st' else None in
      match g with
      | Greedy =>
          match body st again with
          | Some m => Some m
          | None => k st
          end
      | Lazy =>
          match k st with
          | Some m => Some m
          | None => body st again
          end
      end
  end.

Fixpoint rmatch (fl : flags) (r : regex) (st : mstate)
    (k : mstate -> option mstate) {struct r} : option mstate :=
  match r with
  | Eps => k st
  | Chr c => one_char (Ascii.eqb c) st k
  | Cls p => one_char p st k
  | Dot => one_char (fun a => DOTALL fl || negb (is_newline a)) st k
  | Cat r1 r2 => rmatch fl r1 st (fun st' => rmatch fl r2 st' k)
  | Alt r1 r2 =>
      match rmatch fl r1 st k with
      | Some m => Some m
      | None => rmatch fl r2 st k
      end
  | Star g r' => star_loop g (rmatch fl r') k (String.length (rest st)) st
  | Group n r' =>
      rmatch fl r' st (fun st' => k (set_group n (consumed (rest st) (rest st')) st'))
  | Bol => if at_bol fl st then k st else None
  | Eol => if at_eol fl st then k st else None
  | Wordb => if at_boundary st then k st else None
  | NotAhead r' =>
      match rmatch fl r' st Some with
      | Some _ => None
      | None => k st
      end
  end.

(** Derived forms. *)
Fixpoint Str (s : string) : regex :=
  match s with
  | EmptyString => Eps
  | String c EmptyString => Chr c
  | String c s' => Cat (Chr c) (Str s')
  end.

Definition Plus (g : greed) (r : regex) : regex := Cat r (Star g r).   (* r+ *)
Definition Opt (r : regex) : regex := Alt r Eps.                       (* r? *)
Definition AtLeast2 (r : regex) : regex := Cat r (Cat r (Star Greedy r)). (* r{2,} *)

Fixpoint alts (rs : list regex) : regex :=
  match rs with
  | [] => Eps
  | [r] => r
  | r :: rs' => Alt r (alts rs')
  end.

Fixpoint cats (rs : list regex) : regex :=
  match rs with
  | [] => Eps
  | [r] => r
  | r :: rs' => Cat r (cats rs')
  end.

Definition one_of (s : string) (c : ascii) : bool :=
  PyStr.contains (String c EmptyString) s.

(** A match object: [group(0)], the numbered groups that took part in the
    match, and the state at the end of the match. *)
Record match_obj := {
  group0 : string;
  m_groups : list (nat * string);
  m_end : mstate
}.

(** [m.group(n)], [None] when group [n] did not take part. *)
Definition group (m : match_obj) (n : nat) : option string :=
  snd <$> List.find (fun g => Nat.eqb (fst g) n) (m_groups m).

Definition match_here (fl : flags) (r : regex) (p : option ascii) (s : string)
    : option match_obj :=
  match rmatch fl r {| prev := p; rest := s; groups := [] |} Some with
  | Some st => Some {| group0 := consumed s (rest st);
                       m_groups := groups st; m_end := st |}
  | None => None
  end.

Fixpoint search_from (fl : flags) (r : regex) (p : option ascii) (s : string)
    : option match_obj :=
  match match_here fl r p s with
  | Some m => Some m
  | None =>
      match s with
      | EmptyString => None
      | String c s' => search_from fl r (Some c) s'
      end
  end.

(** [re.search(r, s, flags)] *)
Definition search (fl : flags) (r : regex) (s : string) : option match_obj :=
  search_from fl r None s.

(** [re.match(r, s, flags)] *)
Definition match_ (fl : flags) (r : regex) (s : string) : option match_obj :=
  match_here fl r None s.

(** [re.finditer(r, s, flags)]: the successive non-overlapping matches from
    the left; after an empty match the scan moves on by one character. *)
Fixpoint finditer_from (fuel : nat) (fl : flags) (r : regex)
    (p : option ascii) (s : string) : list match_obj :=
  match fuel with
  | O => []
  | S f =>
      match search_from fl r p s with
      | None => []
      | Some m =>
          m ::
          match group0 m, rest (m_end m) with
          | EmptyString, EmptyString => []
          | EmptyString, String c s' => finditer_from f fl r (Some c) s'
          | _, s' => finditer_from f fl r (prev (m_end m)) s'
          end
      end
  end.

Definition finditer (fl : flags) (r : regex) (s : string) : list match_obj :=
  finditer_from (S (String.length s)) fl r None s.

Definition isSome {A} (o : option A) : bool :=
  match o with Some _ => true | None => false end.

(** [bool(re.search(r, s, flags))] *)
Definition found (fl : flags) (r : regex) (s : string) : bool :=
  match search fl r s with Some _ => true | None => false end.

End Re.

(** ** [pathlib]: the suffix of a path (POSIX flavour) *)

Module PyPath.

(** [Path(s).name]: the last path component that is neither empty nor a
    single dot. *)
Definition name (s : string) : string :=
  List.last (List.filter (fun p => negb (String.eqb p EmptyString || String.eqb p "."))
                    (PyStr.split_chr "/" s))
            EmptyString.

(** [s.rfind(c)] as an option. *)
Fixpoint rfind_chr (c : ascii) (s : string) : option nat :=
  match s with
  | EmptyString => None
  | String a s' =>
      match rfind_chr c s' with
      | Some i => Some (S i)
      | None => if Ascii.eqb a c then Some O else None
      end
  end.

(** [Path(s).suffix] *)
Definition suffix (s : string) : string :=
  let n := name s in
  match rfind_chr "." n with
  | Some i =>
      if Nat.ltb 0 i && Nat.ltb i (String.length n - 1)
      then PyStr.slice_from i n else EmptyString
  | None => EmptyString
  end.

End PyPath.

(** ** [config/models.py] *)

Module Models.
Import Re.

Record rule_entry := {
  default : list string;
  description : list (string * string);
  mandatory : list string
}.

Definition ANALYSIS_RULES : gmap string rule_entry :=
  list_to_map [
    ("code",
     {| default := ["no_omissions"; "no_overengineering"; "maintain_style";
                    "practical_improvements"; "actual_code_focus"];
        description := [
          ("no_omissions", "Non omettere parti di codice usando (...)");
          ("no_overengineering", "No sovra-ingegnerizzazione non richiesta");
          ("maintain_style", "Mantieni lo stile e l'approccio esistente");
          ("practical_improvements", "Solo miglioramenti pratici e concreti");
          ("actual_code_focus", "Focus sul codice effettivo, no speculazioni")];
        mandatory := ["no_omissions"; "maintain_style"] |});
    ("conversation",
     {| default := ["natural_flow"; "context_awareness"; "appropriate_tone"];
        description := [
          ("natural_flow", "Mantieni un flusso naturale della conversazione");
          ("context_awareness", "Considera il contesto della discussione");
          ("appropriate_tone", "Usa un tono appropriato al contesto")];
        mandatory := ["natural_flow"; "context_awareness"] |});
    ("data",
     {| default := ["complete_analysis"; "show_insights"; "statistical_relevance";
                    "practical_visualization"];
        description := [
          ("complete_analysis", "Mostra tutti gli step dell'analisi");
          ("show_insights", "Evidenzia pattern e insights significativi");
          ("statistical_relevance", "Includi rilevanza statistica");
          ("practical_visualization", "Suggerisci visualizzazioni utili")];
        mandatory := ["complete_analysis"; "show_insights"] |});
    ("json",
     {| default := ["complete_processing"; "show_transformations"; "structural_focus";
                    "optimization_suggestions"];
        description := [
          ("complete_processing", "Processing completo dei dati");
          ("show_transformations", "Mostra trasformazioni dati");
          ("structural_focus", "Focus sulla struttura dati");
          ("optimization_suggestions", "Suggerimenti di ottimizzazione")];
        mandatory := ["complete_processing"; "structural_focus"] |})
  ].

Record preset_entry := {
  preset_name : string;
  preset_description : string;
  enabled_rules : list (string * list string)
}.

Definition RULE_PRESETS : gmap string preset_entry :=
  list_to_map [
    ("conversational",
     {| preset_name := "Conversational Mode";
        preset_description := "Ottimizzato per conversazioni naturali";
        enabled_rules :=
          [("conversation", ["natural_flow"; "context_awareness"; "appropriate_tone"])] |});
    ("technical",
     {| preset_name := "Technical Analysis";
        preset_description := "Analisi tecnica approfondita";
        enabled_rules :=
          [("code", ["no_omissions"; "maintain_style"; "practical_improvements"]);
           ("data", ["complete_analysis"; "show_insights"])] |});
    ("full_stack",
     {| preset_name := "Full Stack Analysis";
        preset_description := "Analisi completa per applicazioni full stack";
        enabled_rules :=
          [("code", ["no_omissions"; "maintain_style"; "practical_improvements"]);
           ("data", ["complete_analysis"; "show_insights"]);
           ("api", ["security_check"; "performance_check"])] |});
    ("data_pipeline",
     {| preset_name := "Data Pipeline";
        preset_description := "Analisi focalizzata sul processing dati";
        enabled_rules :=
          [("data", ["complete_analysis"; "show_insights"; "statistical_relevance"]);
           ("json", ["complete_processing"; "show_transformations"]);
           ("config", ["validation_check"; "security_check"])] |})
  ].

(** Character classes of the patterns below. *)
Definition w : regex := Cls is_word.                       (* \w *)
Definition s : regex := Cls is_space.                      (* \s *)
Definition any : regex := Cls (fun _ => true).             (* [\s\S] *)
Definition nl : regex := Chr "010".                        (* \n *)
Definition dquote : ascii := "034".
Definition squote : ascii := "039".

Definition word_of (ws : list string) : regex := Group 1 (alts (Str <$> ws)).

(** A character of a pattern that lies outside the alphabet of the texts
    (U+0000 to U+00FF): no character of a text is equal to it. *)
Definition beyond_latin1 : regex := Cls (fun _ => false).

(** The pattern tables of [_is_conversational]. *)
Definition conversation_patterns : list regex := [
  (* \b(ciao|salve|hey|hi)\b *)
  cats [Wordb; word_of ["ciao"; "salve"; "hey"; "hi"]; Wordb];
  (* \?$ *)
  Cat (Chr "?") Eol;
  (* \b(grazie|prego|per favore)\b *)
  cats [Wordb; word_of ["grazie"; "prego"; "per favore"]; Wordb];
  (* ^(come|cosa|quando|dove|perch..|chi)\b: in the file the fifth word
     ends, after perch, in the two characters U+221A and U+00A9 (the bytes
     e2 88 9a c2 a9), not in an accented e *)
  cats [Bol;
        Group 1 (alts [Str "come"; Str "cosa"; Str "quando"; Str "dove";
                       cats [Str "perch"; beyond_latin1; Chr "169"];
                       Str "chi"]);
        Wordb]
].

Definition technical_indicators : list regex := [
  (* \b(function|class|def|var|let|const)\b *)
  cats [Wordb; word_of ["function"; "class"; "def"; "var"; "let"; "const"]; Wordb];
  (* ``` *)
  Str "```";
  (* \b(analizza|ottimizza|debug)\b *)
  cats [Wordb; word_of ["analizza"; "ottimizza"; "debug"]; Wordb]
].

Definition _is_conversational (content : string) : bool :=
  let content_lower := PyStr.lower content in
  if Nat.ltb (length (PyStr.split content)) 15
     && existsb (fun pattern => found no_flags pattern content_lower)
                conversation_patterns
  then true
  else if existsb (fun indicator => found no_flags indicator content_lower)
                  technical_indicators
  then false
  else true.

Definition code_patterns : list regex := [
  (* ```[\w]*\n[\s\S]*?\n``` *)
  cats [Str "```"; Star Greedy w; nl; Star Lazy any; nl; Str "```"];
  (* \b(function|class|def|var|let|const)\b\s+\w+ *)
  cats [Wordb; word_of ["function"; "class"; "def"; "var"; "let"; "const"]; Wordb;
        Plus Greedy s; Plus Greedy w];
  (* \b(import|require|from)\b\s+[\w\s,{}]+ *)
  cats [Wordb; word_of ["import"; "require"; "from"]; Wordb; Plus Greedy s;
        Plus Greedy (Cls (fun c => is_word c || is_space c || one_of ",{}" c))];
  (* [\w\s]*\([^\)]*\)\s*{ *)
  cats [Star Greedy (Cls (fun c => is_word c || is_space c)); Chr "(";
        Star Greedy (Cls (fun c => negb (Ascii.eqb c ")"))); Chr ")";
        Star Greedy s; Chr "{"];
  (* => *)
  Str "=>";
  (* \b(if|for|while|switch)\b\s*\( *)
  cats [Wordb; word_of ["if"; "for"; "while"; "switch"]; Wordb; Star Greedy s; Chr "("];
  (* <[\w\s= dquote squote]*>.*?</[\w\s]*> *)
  cats [Chr "<";
        Star Greedy (Cls (fun c => is_word c || is_space c || Ascii.eqb c "="
                                   || Ascii.eqb c dquote || Ascii.eqb c squote));
        Chr ">"; Star Lazy Dot; Str "</";
        Star Greedy (Cls (fun c => is_word c || is_space c)); Chr ">"];
  (* ^\s{2,}[\w]+ *)
  cats [Bol; AtLeast2 s; Plus Greedy w]
].

Definition contains_code (content : string) : bool :=
  existsb (fun pattern => found re_MULTILINE pattern content) code_patterns.

Definition data_patterns : list regex := [
  (* {[\s\S]*dquote.*?dquote[\s\S]*} *)
  cats [Chr "{"; Star Greedy any; Chr dquote; Star Lazy Dot; Chr dquote;
        Star Greedy any; Chr "}"];
  (* \[[\s\S]*{.*?}[\s\S]*\] *)
  cats [Chr "["; Star Greedy any; Chr "{"; Star Lazy Dot; Chr "}";
        Star Greedy any; Chr "]"];
  (* (?:\w+,){2,}\w+(?:\n|$) *)
  cats [AtLeast2 (Cat (Plus Greedy w) (Chr ",")); Plus Greedy w; Alt nl Eol];
  (* ^\w+:\s*\n(?:\s{2,}-\s+.*\n)+ *)
  cats [Bol; Plus Greedy w; Chr ":"; Star Greedy s; nl;
        Plus Greedy (cats [AtLeast2 s; Chr "-"; Plus Greedy s; Star Greedy Dot; nl])];
  (* \|\s*[\w\s]+\s*\|.*\| *)
  cats [Chr "|"; Star Greedy s; Plus Greedy (Cls (fun c => is_word c || is_space c));
        Star Greedy s; Chr "|"; Star Greedy Dot; Chr "|"]
].

Definition _contains_structured_data (content : string) : bool :=
  existsb (fun pattern => found re_MULTILINE pattern content) data_patterns.

Definition _map_file_type_to_content_type (file_type : string) : string :=
  let mappings : gmap string string :=
    list_to_map [("py", "code"); ("js", "code"); ("ts", "code"); ("java", "code");
                 ("cpp", "code"); ("json", "data"); ("csv", "data"); ("yaml", "data");
                 ("yml", "data"); ("xml", "data")] in
  from_option id "general" (mappings !! PyStr.lower file_type).

(** A file is a dictionary of string fields. *)
Fixpoint _determine_type_from_files (files : list (gmap string string)) : string :=
  match files with
  | [] => "general"
  | file :: files' =>
      let ext := PyStr.lstrip_chr "."
                   (PyStr.lower (PyPath.suffix (from_option id EmptyString (file !! "name")))) in
      let content_type := _map_file_type_to_content_type ext in
      if negb (String.eqb content_type "general") then content_type
      else _determine_type_from_files files'
  end.

(** The two keys of the context dictionary that the classifier reads. *)
Record context := {
  file_type : option string;
  available_files : option (list (gmap string string))
}.

Definition determine_content_type (content : string) (ctx : option context) : string :=
  if _is_conversational content then "conversation"
  else if contains_code content then "code"
  else if _contains_structured_data content then "data"
  else match ctx with
       | Some c =>
           match file_type c with
           | Some ft => _map_file_type_to_content_type ft
           | None =>
               match available_files c with
               | Some files => _determine_type_from_files files
               | None => "general"
               end
           end
       | None => "general"
       end.

Definition rules_of (field : rule_entry -> list string) (content_type : string)
    : list string :=
  match ANALYSIS_RULES !! content_type with
  | Some e => field e
  | None => []
  end.

Definition get_active_rules (content_type : string) (preset : option string)
    : gset string :=
  let mandatory_rules : gset string := list_to_set (rules_of mandatory content_type) in
  match preset with
  | Some p =>
      match (if String.eqb p EmptyString then None else RULE_PRESETS !! p) with
      | Some pr =>
          let preset_rules : gset string :=
            fold_left (fun acc '(rule_type, rules) =>
                         if String.eqb rule_type content_type
                         then acc ∪ list_to_set rules else acc)
                      (enabled_rules pr) ∅ in
          mandatory_rules ∪ preset_rules
      | None =>
          mandatory_rules ∪ list_to_set (rules_of default content_type)
      end
  | None => mandatory_rules ∪ list_to_set (rules_of default content_type)
  end.

Definition merge_rule_sets (rule_sets : list string) : gset string :=
  fold_left (fun merged_rules rule_set =>
               match ANALYSIS_RULES !! rule_set with
               | Some e =>
                   merged_rules ∪ list_to_set (mandatory e) ∪ list_to_set (default e)
               | None => merged_rules
               end)
            rule_sets ∅.

(** The keys of the context dictionary that [suggest_rules] and the
    classifier it calls read. *)
Record rules_context := {
  user_input : option string;
  rc_file_type : option string;
  rc_available_files : option (list (gmap string string))
}.

Definition classifier_context (c : rules_context) : context :=
  {| file_type := rc_file_type c; available_files := rc_available_files c |}.

(** [[Path(f["name"]).suffix.lower() for f in files]]; [None] stands for
    the KeyError of a file without a name. *)
Fixpoint extensions_of (files : list (gmap string string)) : option (list string) :=
  match files with
  | [] => Some []
  | f :: files' =>
      match f !! "name" with
      | Some name =>
          match extensions_of files' with
          | Some exts => Some (PyStr.lower (PyPath.suffix name) :: exts)
          | None => None
          end
      | None => None
      end
  end.

(** [any(ext in table for ext in extensions)] *)
Definition any_in (table extensions : list string) : bool :=
  existsb (fun ext => existsb (String.eqb ext) table) extensions.

Definition code_extensions : list string := [".py"; ".js"; ".html"; ".css"; ".cpp"; ".java"].
Definition data_extensions : list string := [".json"; ".csv"; ".yaml"; ".yml"].
Definition config_extensions : list string := [".yml"; ".yaml"; ".conf"; ".ini"; ".env"].

(** [x in suggested_rules] *)
Definition listed (x : string) (l : list string) : bool := existsb (String.eqb x) l.

Definition suggest_rules (c : rules_context) : option (list string) :=
  let suggested_rules :=
    match user_input c with
    | Some input =>
        let content_type := determine_content_type input (Some (classifier_context c)) in
        if String.eqb content_type "conversation" then ["conversation"]
        else if String.eqb content_type "code" then ["code"]
        else if String.eqb content_type "data" then ["data"]
        else []
    | None => []
    end in
  match rc_available_files c with
  | Some files =>
      match extensions_of files with
      | Some extensions =>
          let suggested_rules :=
            if any_in code_extensions extensions && negb (listed "code" suggested_rules)
            then suggested_rules ++ ["code"] else suggested_rules in
          let suggested_rules :=
            if any_in data_extensions extensions && negb (listed "data" suggested_rules)
            then suggested_rules ++ ["data"] else suggested_rules in
          let suggested_rules :=
            if any_in config_extensions extensions
            then suggested_rules ++ ["config"] else suggested_rules in
          Some suggested_rules
      | None => None
      end
  | None => Some suggested_rules
  end.


Definition truncation_marker : string :=
  String "010" "[Testo troncato per lunghezza]".

(** [truncate_prompt], for a non-negative [max_length] *)
Definition truncate_prompt (prompt : string) (max_length : nat) : string :=
  if Nat.leb (String.length prompt) max_length then prompt
  else
    let safe_end :=
      match PyStr.rfind_before (String "010" EmptyString) prompt max_length with
      | Some i => i
      | None =>
          match PyStr.rfind_before ". " prompt max_length with
          | Some i => i
          | None =>
              match PyStr.rfind_before " " prompt max_length with
              | Some i => i
              | None => max_length
              end
          end
      end in
    PyStr.slice_to safe_end prompt +:+ truncation_marker.

(** One iteration of the loop of [format_code_prompt]; the state is
    [(in_code_block, formatted_lines)]. *)
Definition format_line (st : bool * list string) (line : string) : bool * list string :=
  let '(in_code_block, formatted_lines) := st in
  if PyStr.startswith "```" (PyStr.strip line)
  then (negb in_code_block, formatted_lines ++ [line])
  else if in_code_block then (in_code_block, formatted_lines ++ [line])
  else (in_code_block, formatted_lines ++ [PyStr.strip line]).

Definition format_code_prompt (prompt : string) : string :=
  if negb (contains_code prompt) then prompt
  else
    let lines := PyStr.split_chr "010" prompt in
    PyStr.join (String "010" EmptyString) (snd (fold_left format_line lines (false, []))).

End Models.

(** ** The diff summariser, defined twice in the repository with the same
    text ([CodeAnalyzer._generate_diff_summary] and
    [ChatInterface._generate_diff_summary]) *)

Module DiffSummary.
Import Re.

(** The ordered pattern table of [_summarize_change_block]. *)
Definition patterns : list (regex * string) := [
  (* def\s+(\w+) *)
  (cats [Str "def"; Plus Greedy (Cls is_space); Group 1 (Plus Greedy (Cls is_word))],
   "funzione");
  (* class\s+(\w+) *)
  (cats [Str "class"; Plus Greedy (Cls is_space); Group 1 (Plus Greedy (Cls is_word))],
   "classe");
  (* import\s+(\w+) *)
  (cats [Str "import"; Plus Greedy (Cls is_space); Group 1 (Plus Greedy (Cls is_word))],
   "import");
  (* return\s+ *)
  (Cat (Str "return") (Plus Greedy (Cls is_space)), "return statement");
  (* if\s+ *)
  (Cat (Str "if") (Plus Greedy (Cls is_space)), "condizione");
  (* for\s+ *)
  (Cat (Str "for") (Plus Greedy (Cls is_space)), "loop");
  (* while\s+ *)
  (Cat (Str "while") (Plus Greedy (Cls is_space)), "loop");
  (* try: *)
  (Str "try:", "gestione errori")
].

(** The first line of [lines] on which [pattern] is found, with its match. *)
Fixpoint first_match (pattern : regex) (lines : list string) : option match_obj :=
  match lines with
  | [] => None
  | line :: lines' =>
      match search no_flags pattern line with
      | Some m => Some m
      | None => first_match pattern lines'
      end
  end.

Definition describe (verb description : string) (m : match_obj) : string :=
  match m_groups m with
  | [] => verb +:+ " " +:+ description
  | _ => verb +:+ " " +:+ description +:+ " '"
         +:+ from_option id EmptyString (group m 1) +:+ "'"
  end.

Fixpoint scan_patterns (pats : list (regex * string))
    (additions deletions : list string) : option string :=
  match pats with
  | [] => None
  | (pattern, description) :: pats' =>
      match first_match pattern additions with
      | Some m => Some (describe "Aggiunto" description m)
      | None =>
          match first_match pattern deletions with
          | Some m => Some (describe "Rimosso" description m)
          | None => scan_patterns pats' additions deletions
          end
      end
  end.

Definition _summarize_change_block (block : list string) : option string :=
  match block with
  | [] => None
  | _ =>
      let additions :=
        PyStr.slice_from 2 <$> List.filter (fun l => PyStr.startswith "+ " l) block in
      let deletions :=
        PyStr.slice_from 2 <$> List.filter (fun l => PyStr.startswith "- " l) block in
      match scan_patterns patterns additions deletions with
      | Some summary => Some summary
      | None =>
          if Nat.eqb (length block) 1 then Some "Modificata una linea"
          else Some ("Modificate " +:+ PyStr.str_of_nat (length block) +:+ " linee")
      end
  end.

(** [summary.append(block_summary)] guarded by [if block_summary]. *)
Definition append_summary (summary : list string) (block : list string) : list string :=
  match _summarize_change_block block with
  | Some block_summary =>
      if String.eqb block_summary EmptyString then summary
      else summary ++ [block_summary]
  | None => summary
  end.

(** One iteration of the loop over the diff lines; the state is
    [(summary, current_block)]. *)
Definition diff_step (st : list string * list string) (line : string)
    : list string * list string :=
  let '(summary, current_block) := st in
  if PyStr.startswith "? " line then st
  else if PyStr.startswith "+ " line || PyStr.startswith "- " line
  then (summary, current_block ++ [line])
  else match current_block with
       | [] => st
       | _ => (append_summary summary current_block, [])
       end.

Definition _generate_diff_summary (diff : list string) : list string :=
  let '(summary, current_block) := fold_left diff_step diff ([], []) in
  match current_block with
  | [] => summary
  | _ => append_summary summary current_block
  end.

End DiffSummary.

(** ** [components/chat_interface.py] *)

Module ChatInterface.
Import Re.

Definition _generate_diff_summary := DiffSummary._generate_diff_summary.
Definition _summarize_change_block := DiffSummary._summarize_change_block.

(** The python entry of the indicator table of [_guess_language]. *)
Definition python_indicators : list (string * nat) := [
  ("def ", 3); ("class ", 3); ("import ", 2); ("from ", 2); ("@", 1);
  ("if __name__", 3); (".py", 2); ("print(", 1); ("return ", 1); ("#", 1);
  ("self.", 2); ("elif ", 2); ("None", 1); ("True", 1); ("False", 1);
  ("try:", 2); ("except:", 2); ("with ", 2)
]%nat.

(** The indicator table, in the order of the dictionary literal. *)
Definition indicators_with (python : list (string * nat))
    : list (string * list (string * nat)) := [
  ("python", python);
  ("javascript",
   [("function ", 3); ("const ", 2); ("let ", 2); ("var ", 2); ("=>", 3);
    ("document.", 3); ("window.", 3); (".js", 2); ("console.log(", 2);
    ("===", 2); ("!==", 2); ("undefined", 2)]);
  ("html",
   [("<html", 3); ("<body", 2); ("<div", 2); ("<p>", 1); ("<script", 2);
    ("<head", 2); ("<style", 2); ("<link", 1); ("<meta", 1); ("</div>", 2)]);
  ("css",
   [("{", 1); ("margin:", 2); ("padding:", 2); ("color:", 2); ("background:", 2);
    ("font-", 2); ("border:", 2); ("@media", 3); ("#", 1); (".class", 1);
    ("px;", 2); ("em;", 2); ("rem;", 2)]);
  ("sql",
   [("select ", 3); ("from ", 2); ("where ", 2); ("insert into", 3);
    ("update ", 2); ("delete from", 3); ("create table", 3); ("join ", 2);
    ("group by", 2); ("order by", 2)])
]%nat.

(** The inner loop of the score computation for one language. *)
Definition score_of (code : string) (indicators_list : list (string * nat)) : nat :=
  fold_left (fun score '(indicator, weight) =>
               (score + PyStr.count indicator code * weight)%nat)
            indicators_list O.

(** [max(scores.values())] *)
Definition max_value (scores : list (string * nat)) : nat :=
  fold_left (fun m '(_, v) => Nat.max m v) scores O.

(** [max(scores.items(), key=lambda x: x[1])[0]]: the first item of maximal
    value in dictionary order. *)
Definition argmax (scores : list (string * nat)) : string :=
  fst (fold_left (fun best item =>
                    if Nat.ltb (snd best) (snd item) then item else best)
                 (tl scores) (hd (EmptyString, O) scores)).

(** [scores[lang] += delta] *)
Definition add_score (lang : string) (delta : nat) (scores : list (string * nat))
    : list (string * nat) :=
  (fun '(l, v) => if String.eqb l lang then (l, (v + delta)%nat) else (l, v)) <$> scores.

Definition score_at (lang : string) (scores : list (string * nat)) : nat :=
  from_option snd O (List.find (fun item => String.eqb (fst item) lang) scores).

(** [_guess_language] over a given python indicator list. *)
Definition guess_language_with (python : list (string * nat)) (code : string) : string :=
  let code := PyStr.lower (PyStr.strip code) in
  let indicators := indicators_with python in
  let scores := (fun '(lang, indicators_list) => (lang, score_of code indicators_list))
                  <$> indicators in
  let scores :=
    if Nat.ltb 0 (score_at "python" scores) && PyStr.contains "{" code then
      let python_indicators :=
        length (List.filter (fun '(ind, _) => PyStr.contains ind code) python) in
      if Nat.leb 3 python_indicators then add_score "python" 2 scores else scores
    else scores in
  let max_score := max_value scores in
  if Nat.eqb max_score 0
     && (PyStr.contains "    " code || PyStr.contains (String "009" EmptyString) code)
     && (PyStr.contains ":" code || PyStr.contains "def" code
         || PyStr.contains "class" code)
  then "python"
  else if Nat.ltb 0 max_score then
    let candidates := fst <$> List.filter (fun '(_, score) => Nat.eqb score max_score) scores in
    if Nat.ltb 1 (length candidates)
       && existsb (String.eqb "python") candidates
       && existsb (fun '(ind, _) => PyStr.contains ind code) python
    then "python"
    else argmax scores
  else "text".

Definition _guess_language (code : string) : string :=
  guess_language_with python_indicators code.

Record code_block := {
  language : string;
  code : string;
  original : string
}.

(** ```(\w+)?\n(.*?)\n``` *)
Definition pattern_with_lang : regex :=
  cats [Str "```"; Opt (Group 1 (Plus Greedy (Cls is_word))); Chr "010";
        Group 2 (Star Lazy Dot); Chr "010"; Str "```"].

(** ```\n?(.*?)\n?``` *)
Definition pattern_without_lang : regex :=
  cats [Str "```"; Opt (Chr "010"); Group 1 (Star Lazy Dot); Opt (Chr "010");
        Str "```"].

(** [match.group(1) or 'text'] *)
Definition or_text (g : option string) : string :=
  match g with
  | Some l => if String.eqb l EmptyString then "text" else l
  | None => "text"
  end.

Definition _detect_code_blocks (text : string) : list code_block :=
  let code_blocks :=
    (fun m => {| language := or_text (group m 1);
                 code := PyStr.strip (from_option id EmptyString (group m 2));
                 original := group0 m |})
      <$> finditer re_DOTALL pattern_with_lang text in
  fold_left
    (fun code_blocks m =>
       if existsb (fun block => String.eqb (original block) (group0 m)) code_blocks
       then code_blocks
       else
         let code := PyStr.strip (from_option id EmptyString (group m 1)) in
         code_blocks ++ [{| language := _guess_language code;
                            code := code;
                            original := group0 m |}])
    (finditer re_DOTALL pattern_without_lang text)
    code_blocks.

(** [_update_conversation_memory] on the memory dictionary
    [{'messages': ..., 'max_length': ...}] of the session. *)
Record memory {A : Type} := {
  messages : list A;
  max_length : option Z
}.
Arguments memory : clear implicits.

(** [l[-m:]] for an integer [m]: the last [m] elements for a positive [m],
    the whole list for zero, the list without its first [-m] elements for a
    negative [m]. *)
Definition last_slice {A} (m : Z) (l : list A) : list A :=
  if (0 <? m)%Z then drop (length l - Z.to_nat m) l
  else drop (Z.to_nat (- m)) l.

Definition _update_conversation_memory {A} (mem : memory A) (message : A) : memory A :=
  let appended := messages mem ++ [message] in
  let limit := from_option id 3%Z (max_length mem) in
  {| messages := if (limit <? Z.of_nat (length appended))%Z
                 then last_slice limit appended else appended;
     max_length := max_length mem |}.

(** The indicators of [_looks_like_code]. *)
Definition code_indicators : list string := [
  "    "; String "009" EmptyString; "()"; "{"; ";"; "function"; "class"; "def ";
  "return"; "import"; "var "; "let "; "const "
].

Definition _looks_like_code (text : string) : bool :=
  let lines := PyStr.split_chr "010" text in
  if Nat.ltb (length lines) 2 then false
  else
    let score :=
      length (List.filter (fun indicator => PyStr.contains indicator text)
                          code_indicators) in
    Nat.leb 2 score.

(** The dictionary that [format_message_with_code] returns; the key
    [code_blocks] is absent for a plain message. *)
Record formatted_message := {
  content : string;
  code_blocks : option (list code_block)
}.

(** The loop that replaces the blocks by their place holders; the state is
    [(i, formatted_message)]. *)
Definition replace_block (st : nat * string) (block : code_block) : nat * string :=
  let '(i, formatted) := st in
  (S i,
   PyStr.replace (original block)
     (String "010" ("[Codice Blocco " +:+ PyStr.str_of_nat (i + 1) +:+ "]"
                    +:+ String "010" EmptyString))
     formatted).

Definition format_message_with_code (message : string) : formatted_message :=
  match _detect_code_blocks message with
  | block :: blocks =>
      {| content := PyStr.strip (snd (fold_left replace_block (block :: blocks)
                                                 (O, message)));
         code_blocks := Some (block :: blocks) |}
  | [] =>
      if Nat.ltb 1 (length (PyStr.split_chr "010" message)) && _looks_like_code message
      then
        let language := _guess_language message in
        {| content := "[Codice " +:+ language +:+ "]";
           code_blocks := Some [{| language := language; code := message;
                                   original := message |}] |}
      else {| content := message; code_blocks := None |}
  end.

(** The fields of [MessageContext] that [_prepare_context] computes. *)
Record MessageContext := {
  content_type : string;
  active_rules : gset string;
  mc_available_files : list (gmap string string);
  current_file : option (gmap string string)
}.

(** The files as they are passed to the model: those with a content, cut
    at 100000 characters, with the defaults of the missing fields. *)
Definition format_file (file : gmap string string) (file_content : string)
    : gmap string string :=
  let limit := N.to_nat 100000 in
  let cut := if Nat.ltb limit (String.length file_content)
             then PyStr.slice_to limit file_content else file_content in
  <["path" := from_option id EmptyString (file !! "path")]>
  (<["language" := from_option id "text" (file !! "language")]>
  (<["content" := cut]>
  (<["name" := from_option id "unknown" (file !! "name")]> ∅))).

Definition formatted_files (files : option (list (gmap string string)))
    : list (gmap string string) :=
  match files with
  | Some files =>
      flat_map (fun file =>
                  match file !! "content" with
                  | Some file_content => [format_file file file_content]
                  | None => []
                  end)
               files
  | None => []
  end.

(** [_prepare_context]; [None] stands for an exception of [suggest_rules]. *)
Definition _prepare_context (prompt : string)
    (files : option (list (gmap string string)))
    (current : option (gmap string string)) : option MessageContext :=
  let content_type := Models.determine_content_type prompt None in
  let formatted := formatted_files files in
  match Models.suggest_rules
          {| Models.user_input := None; Models.rc_file_type := None;
             Models.rc_available_files := Some formatted |} with
  | Some suggested_rules =>
      Some {| content_type := content_type;
              active_rules := Models.merge_rule_sets suggested_rules;
              mc_available_files := formatted;
              current_file := current |}
  | None => None
  end.

(** [_get_file_preview], for a non-negative [max_lines] *)
Definition _get_file_preview (file : gmap string string) (max_lines : nat) : string :=
  match file !! "content" with
  | None => EmptyString
  | Some file_content =>
      if String.eqb file_content EmptyString then EmptyString
      else
        let lines := PyStr.split_chr "010" file_content in
        if Nat.leb (length lines) max_lines then file_content
        else
          PyStr.join (String "010" EmptyString) (take max_lines lines)
          +:+ String "010" ("... [altri "
                            +:+ PyStr.str_of_nat (length lines - max_lines)
                            +:+ " linee]")
  end.

End ChatInterface.

(** ** [services/code_analyzer.py] *)

Module CodeAnalyzer.
Import Re.

Local Open Scope Z_scope.

Definition _generate_diff_summary := DiffSummary._generate_diff_summary.
Definition _summarize_change_block := DiffSummary._summarize_change_block.

(** *** Statistics *)

Record Stats := {
  total_lines : nat;
  empty_lines : nat;
  code_lines : nat;
  comment_lines : nat;
  docstring_lines : nat;
  avg_line_length : Q;
  max_line_length : nat;
  imports_count : nat;
  classes_count : nat;
  functions_count : nat
}.

(** The local variables of the loop of [_get_code_stats]. *)
Record stats_loop := {
  stats : Stats;
  total_length : nat;
  in_docstring : bool;
  docstring_quotes : nat
}.

Definition triple_dquote : string :=
  String Models.dquote (String Models.dquote (String Models.dquote EmptyString)).
Definition triple_squote : string := "'''".

Definition with_counts (s : Stats) (empty code comment docstring : nat)
    (imports classes functions : nat) : Stats :=
  {| total_lines := total_lines s;
     empty_lines := empty; code_lines := code; comment_lines := comment;
     docstring_lines := docstring;
     avg_line_length := avg_line_length s;
     max_line_length := max_line_length s;
     imports_count := imports; classes_count := classes;
     functions_count := functions |}.

Definition with_max_line_length (s : Stats) (m : nat) : Stats :=
  {| total_lines := total_lines s;
     empty_lines := empty_lines s; code_lines := code_lines s;
     comment_lines := comment_lines s; docstring_lines := docstring_lines s;
     avg_line_length := avg_line_length s;
     max_line_length := m;
     imports_count := imports_count s; classes_count := classes_count s;
     functions_count := functions_count s |}.

Definition with_avg_line_length (s : Stats) (a : Q) : Stats :=
  {| total_lines := total_lines s;
     empty_lines := empty_lines s; code_lines := code_lines s;
     comment_lines := comment_lines s; docstring_lines := docstring_lines s;
     avg_line_length := a;
     max_line_length := max_line_length s;
     imports_count := imports_count s; classes_count := classes_count s;
     functions_count := functions_count s |}.

(** The classification of one line (the part of the loop body after the
    docstring bookkeeping). *)
Definition classify_line (stripped : string) (in_doc : bool) (s : Stats) : Stats :=
  if String.eqb stripped EmptyString then
    with_counts s (S (empty_lines s)) (code_lines s) (comment_lines s)
      (docstring_lines s) (imports_count s) (classes_count s) (functions_count s)
  else if in_doc then
    with_counts s (empty_lines s) (code_lines s) (comment_lines s)
      (S (docstring_lines s)) (imports_count s) (classes_count s) (functions_count s)
  else if PyStr.startswith "#" stripped then
    with_counts s (empty_lines s) (code_lines s) (S (comment_lines s))
      (docstring_lines s) (imports_count s) (classes_count s) (functions_count s)
  else if PyStr.startswith "import " stripped || PyStr.startswith "from " stripped then
    with_counts s (empty_lines s) (S (code_lines s)) (comment_lines s)
      (docstring_lines s) (S (imports_count s)) (classes_count s) (functions_count s)
  else if PyStr.startswith "class " stripped then
    with_counts s (empty_lines s) (S (code_lines s)) (comment_lines s)
      (docstring_lines s) (imports_count s) (S (classes_count s)) (functions_count s)
  else if PyStr.startswith "def " stripped then
    with_counts s (empty_lines s) (S (code_lines s)) (comment_lines s)
      (docstring_lines s) (imports_count s) (classes_count s) (S (functions_count s))
  else
    with_counts s (empty_lines s) (S (code_lines s)) (comment_lines s)
      (docstring_lines s) (imports_count s) (classes_count s) (functions_count s).

(** One iteration of [for line in lines]. *)
Definition stats_step (acc : stats_loop) (line : string) : stats_loop :=
  let stripped := PyStr.strip line in
  let length := String.length line in
  let total_length' :=
    if Nat.ltb 0 length then (total_length acc + length)%nat else total_length acc in
  let st :=
    if Nat.ltb 0 length
    then with_max_line_length (stats acc) (Nat.max (max_line_length (stats acc)) length)
    else stats acc in
  if PyStr.contains triple_dquote line || PyStr.contains triple_squote line then
    let quotes := (docstring_quotes acc + PyStr.count triple_dquote line
                   + PyStr.count triple_squote line)%nat in
    let in_doc := negb (Nat.eqb (quotes mod 2) 0) in
    if String.eqb (PyStr.strip (PyStr.slice_from 3 stripped)) EmptyString then
      (* only the quotes: continue *)
      {| stats := st; total_length := total_length';
         in_docstring := in_doc; docstring_quotes := quotes |}
    else
      {| stats := classify_line stripped in_doc st; total_length := total_length';
         in_docstring := in_doc; docstring_quotes := quotes |}
  else
    {| stats := classify_line stripped (in_docstring acc) st;
       total_length := total_length';
       in_docstring := in_docstring acc;
       docstring_quotes := docstring_quotes acc |}.

Definition initial_stats (lines : list string) : stats_loop :=
  {| stats := {| total_lines := length lines; empty_lines := 0; code_lines := 0;
                 comment_lines := 0; docstring_lines := 0; avg_line_length := 0%Q;
                 max_line_length := 0; imports_count := 0; classes_count := 0;
                 functions_count := 0 |};
     total_length := 0; in_docstring := false; docstring_quotes := 0 |}.

(** The average is a true division in Python; it is kept as a rational. *)
Definition _get_code_stats (code : string) : Stats :=
  let lines := PyStr.split_chr "010" code in
  let acc := fold_left stats_step lines (initial_stats lines) in
  let non_empty_lines := (total_lines (stats acc) - empty_lines (stats acc))%nat in
  if Nat.ltb 0 non_empty_lines
  then with_avg_line_length (stats acc)
         (Z.of_nat (total_length acc) # Pos.of_nat non_empty_lines)
  else stats acc.

(** *** Syntax trees

    A node of Python's [ast] is represented by its class, the attributes of
    it that the analyzer reads, and its child nodes in the order of
    [ast.iter_child_nodes]. *)

Inductive node_class :=
  | FunctionDef (name : string) (nargs : nat)  (* node.name, len(node.args.args) *)
  | ClassDef
  | If
  | For
  | While
  | Try (handlers : nat)                       (* len(node.handlers) *)
  | OtherNode.

Inductive ast := Node (cls : node_class) (children : list ast).

Definition cls_of (t : ast) : node_class := match t with Node c _ => c end.
Definition children_of (t : ast) : list ast := match t with Node _ cs => cs end.

(** The outcome of [ast.parse]: a tree, a [SyntaxError], or another
    exception, each error with its message. *)
Inductive parse_result :=
  | Parsed (tree : ast)
  | SyntaxError (msg : string)
  | OtherError (msg : string).

(** *** Complexity *)

Record ComplexityVisitor := {
  current_depth : Z;
  max_depth : Z;
  branches : Z;
  cognitive_load : Z
}.

Definition new_visitor : ComplexityVisitor :=
  {| current_depth := 0; max_depth := 0; branches := 0; cognitive_load := 0 |}.

(** The common entry of [visit_If], [visit_For], [visit_While], [visit_Try]. *)
Definition enter (db dl : Z) (v : ComplexityVisitor) : ComplexityVisitor :=
  {| current_depth := current_depth v + 1;
     max_depth := Z.max (max_depth v) (current_depth v + 1);
     branches := branches v + db;
     cognitive_load := cognitive_load v + dl |}.

Definition leave (v : ComplexityVisitor) : ComplexityVisitor :=
  {| current_depth := current_depth v - 1; max_depth := max_depth v;
     branches := branches v; cognitive_load := cognitive_load v |}.

Definition load (v : ComplexityVisitor) : ComplexityVisitor :=
  {| current_depth := current_depth v; max_depth := max_depth v;
     branches := branches v; cognitive_load := cognitive_load v + 1 |}.

(** The visitor is recursive: [NodeVisitor.visit] calls the method of the
    class of the node ([visit_If] and the like, or [generic_visit] for a
    class without a method), that method calls [generic_visit], and
    [generic_visit] calls [visit] on every child.  [frames] is the number
    of frames of these three kinds that the call stack still takes; a call
    that finds none raises [RecursionError], for which [None] stands (the
    visitor object is dropped with the exception). *)
Fixpoint visit (node : ast) (frames : nat) (v : ComplexityVisitor) {struct node}
    : option ComplexityVisitor :=
  match node with
  | Node cls children =>
      let generic_visit (frames : nat) (v : ComplexityVisitor) :=
        match frames with
        | O => None
        | S frames' =>
            (fix go (cs : list ast) (v : ComplexityVisitor) {struct cs} :=
               match cs with
               | [] => Some v
               | c :: cs' =>
                   match visit c frames' v with
                   | Some v' => go cs' v'
                   | None => None
                   end
               end) children v
        end in
      (* the frame of a method [visit_X], then its call of [generic_visit] *)
      let method (frames : nat) (before : ComplexityVisitor)
                 (after : ComplexityVisitor -> ComplexityVisitor) :=
        match frames with
        | O => None
        | S frames' => after <$> generic_visit frames' before
        end in
      match frames with
      | O => None
      | S frames' =>
          match cls with
          | FunctionDef _ _ => method frames' (load v) id
          | ClassDef => method frames' (load v) id
          | If => method frames' (enter 1 1 v) leave
          | For => method frames' (enter 1 2 v) leave
          | While => method frames' (enter 1 2 v) leave
          | Try handlers => method frames' (enter (Z.of_nat handlers + 1) 1 v) leave
          | OtherNode => generic_visit frames' v
          end
      end
  end.

(** *** Ordered dictionaries (insertion order, in-place replacement) *)

Fixpoint dict_set {A} (k : string) (v : A) (d : list (string * A)) : list (string * A) :=
  match d with
  | [] => [(k, v)]
  | (k', v') :: d' =>
      if String.eqb k' k then (k, v) :: d' else (k', v') :: dict_set k v d'
  end.

Fixpoint dict_get {A} (k : string) (d : list (string * A)) : option A :=
  match d with
  | [] => None
  | (k', v') :: d' => if String.eqb k' k then Some v' else dict_get k d'
  end.

(** *** [ast.walk]: breadth-first order *)

Fixpoint nodes_at (depth : nat) (t : ast) : list ast :=
  match depth with
  | O => [t]
  | S d => flat_map (nodes_at d) (children_of t)
  end.

Fixpoint height (t : ast) : nat :=
  match t with
  | Node _ children =>
      S ((fix go (cs : list ast) : nat :=
            match cs with
            | [] => O
            | c :: cs' => Nat.max (height c) (go cs')
            end) children)
  end.

Definition walk (t : ast) : list ast :=
  flat_map (fun d => nodes_at d t) (seq 0 (height t)).

(** [{node.name: node for node in ast.walk(tree)
      if isinstance(node, ast.FunctionDef)}] *)
Definition function_defs (tree : ast) : list (string * ast) :=
  fold_left (fun d node =>
               match cls_of node with
               | FunctionDef name _ => dict_set name node d
               | _ => d
               end)
            (walk tree) [].

(** [len(node.args.args)] *)
Definition args_count (node : ast) : nat :=
  match cls_of node with
  | FunctionDef _ n => n
  | _ => O
  end.

(** *** Results *)

Record VersionChanges := {
  lines_added : nat;
  lines_removed : nat;
  lines_modified : nat;
  complexity_delta : Z;
  significant_changes : list string;
  breaking_changes : list string;
  diff_summary : list string
}.

(** The field [stats] is a dictionary: the one of [_get_code_stats], or the
    empty one, for which [None] stands. *)
Record AnalysisResult {FunctionInfo ClassInfo : Type} := {
  r_stats : option Stats;
  complexity : gmap string Z;
  issues : list string;
  suggestions : list string;
  functions : list FunctionInfo;
  classes : list ClassInfo;
  imports : list string;
  dependencies : list string;
  version_changes : option VersionChanges
}.
Arguments AnalysisResult : clear implicits.

(** What the tree walk of [_analyze_ast] collects. *)
Record ASTAnalysis {FunctionInfo ClassInfo : Type} := {
  a_functions : list FunctionInfo;
  a_classes : list ClassInfo;
  a_imports : list string;
  a_dependencies : list string;
  a_issues : list string;
  a_suggestions : list string
}.
Arguments ASTAnalysis : clear implicits.

(** An entry of [self.previous_analyses]. *)
Record Snapshot {FunctionInfo ClassInfo : Type} := {
  snap_code : string;
  snap_analysis : AnalysisResult FunctionInfo ClassInfo
}.
Arguments Snapshot : clear implicits.

(** Accented letters of the messages. *)
Definition a_grave : string := String "224" EmptyString.
Definition o_grave : string := String "242" EmptyString.
Definition u_grave : string := String "249" EmptyString.

(** *** Dependencies *)

Definition standard_lib : list string :=
  ["os"; "sys"; "re"; "math"; "datetime"; "collections"; "json";
   "random"; "time"; "pathlib"; "typing"; "abc"; "logging"].

Definition _analyze_dependencies (imports : list string) : list string :=
  List.filter (fun imp =>
            let base_module := hd EmptyString (PyStr.split_chr "." imp) in
            negb (existsb (String.eqb base_module) standard_lib))
         imports.

(** *** Style *)

(** [s.endswith(p)] *)
Definition endswith (p s : string) : bool :=
  Nat.leb (String.length p) (String.length s)
  && String.eqb (PyStr.slice_from (String.length s - String.length p) s) p.

(** [enumerate(lines, 1)] *)
Definition enumerate1 {A} (l : list A) : list (nat * A) :=
  zip (seq 1 (length l)) l.

(** [re.findall] for a pattern with one group. *)
Definition findall1 (fl : flags) (r : regex) (text : string) : list string :=
  (fun m => from_option id EmptyString (group m 1)) <$> finditer fl r text.

(** \b(?:def|class)\s+(\w+) *)
Definition definition_name : regex :=
  cats [Wordb; Alt (Str "def") (Str "class"); Plus Greedy (Cls is_space);
        Group 1 (Plus Greedy (Cls is_word))].

Definition lower_az (c : ascii) : bool := PyStr.between 97 122 c.
Definition upper_az (c : ascii) : bool := PyStr.between 65 90 c.

(** ^[a-z_][a-z0-9_]*$ *)
Definition snake_case_name : regex :=
  cats [Bol; Cls (fun c => lower_az c || Ascii.eqb c "_");
        Star Greedy (Cls (fun c => lower_az c || is_digit c || Ascii.eqb c "_")); Eol].

(** ^[A-Z][a-zA-Z0-9]*$ *)
Definition camel_case_name : regex :=
  cats [Bol; Cls upper_az;
        Star Greedy (Cls (fun c => lower_az c || upper_az c || is_digit c)); Eol].

(** [^=!<>]=[^=]|[+\-*/<>]=? *)
Definition operator_regex : regex :=
  Alt (cats [Cls (fun c => negb (one_of "=!<>" c)); Chr "=";
             Cls (fun c => negb (Ascii.eqb c "="))])
      (Cat (Cls (one_of "+-*/<>")) (Opt (Chr "="))).

Section Style.

(** The text Python prints for a set of integers (its order is the one of
    the hash table). *)
Variable repr_set : gset nat -> string.

Definition _analyze_style (code : string) : list string :=
  let lines := PyStr.split_chr "010" code in
  let indent_sizes : gset nat :=
    fold_left (fun sizes line =>
                 if String.eqb (PyStr.strip line) EmptyString then sizes
                 else
                   let indent := (String.length line
                                  - String.length (PyStr.lstrip line))%nat in
                   if Nat.ltb 0 indent then sizes ∪ {[indent]} else sizes)
              lines ∅ in
  let issues :=
    if Nat.ltb 1 (size indent_sizes)
    then ["Indentazione inconsistente: trovate dimensioni " +:+ repr_set indent_sizes]
    else [] in
  let issues :=
    issues ++
    flat_map (fun '(i, line) =>
                if Nat.ltb 79 (String.length line)
                then ["Linea " +:+ PyStr.str_of_nat i +:+ " troppo lunga ("
                      +:+ PyStr.str_of_nat (String.length line) +:+ " caratteri)"]
                else [])
             (enumerate1 lines) in
  let names := findall1 no_flags definition_name code in
  let snake_case :=
    length (List.filter (fun n => isSome (match_ no_flags snake_case_name n))
                   names) in
  let camel_case :=
    length (List.filter (fun n => isSome (match_ no_flags camel_case_name n))
                   names) in
  let issues :=
    if Nat.ltb 0 snake_case && Nat.ltb 0 camel_case
    then issues ++ ["Mixing di convenzioni di naming (snake_case e CamelCase)"]
    else issues in
  issues ++
  flat_map (fun '(i, line) =>
              flat_map (fun m =>
                          let op := group0 m in
                          if PyStr.startswith " " op && endswith " " op then []
                          else ["Linea " +:+ PyStr.str_of_nat i
                                +:+ ": spazi mancanti attorno all'operatore '"
                                +:+ PyStr.strip op +:+ "'"])
                       (finditer no_flags operator_regex line))
           (enumerate1 lines).

End Style.

(** *** Patterns and anti-patterns *)

Definition s_star : regex := Star Greedy (Cls is_space).
Definition s_plus : regex := Plus Greedy (Cls is_space).
Definition w_plus : regex := Plus Greedy (Cls is_word).
Definition dot_star : regex := Star Greedy Dot.

Inductive category := Issues | Suggestions.

Definition patterns : list (regex * (category * string)) := [
  (* except:\s*pass *)
  (cats [Str "except:"; s_star; Str "pass"],
   (Issues, "Bare except clause con pass trovata - gestire le eccezioni specifiche"));
  (* except Exception as e:\s*pass *)
  (cats [Str "except Exception as e:"; s_star; Str "pass"],
   (Issues, "Eccezione generale catturata e ignorata"));
  (* while True:.*break *)
  (cats [Str "while True:"; dot_star; Str "break"],
   (Suggestions, "Consider replacing 'while True' with a more explicit condition"));
  (* global\s+\w+ *)
  (cats [Str "global"; s_plus; w_plus],
   (Suggestions,
    "Uso di variabili globali - considerare refactoring per miglior design"));
  (* print\s*\( *)
  (cats [Str "print"; s_star; Chr "("],
   (Suggestions,
    "Uso di print statements - considerare logging per codice di produzione"));
  (* \[i\s+for\s+i\s+in *)
  (cats [Str "[i"; s_plus; Str "for"; s_plus; Chr "i"; s_plus; Str "in"],
   (Suggestions,
    "List comprehension poco chiara - considerare nomi pi" +:+ u_grave
    +:+ " descrittivi"));
  (* \.sort\(.*lambda *)
  (cats [Str ".sort("; dot_star; Str "lambda"],
   (Suggestions,
    "Uso di lambda in sort - considerare operator.itemgetter o methodcaller"))
].

Definition performance_patterns : list (regex * string) := [
  (* \+\s*str\( *)
  (cats [Chr "+"; s_star; Str "str("],
   "String concatenation inefficiente - usare join() o f-strings");
  (* range\(len\( *)
  (Str "range(len(", "Uso di range(len()) - considerare enumerate()");
  (* \[.*\]\s*\*\s*\d+ *)
  (cats [Chr "["; dot_star; Chr "]"; s_star; Chr "*"; s_star;
         Plus Greedy (Cls is_digit)],
   "List multiplication pu" +:+ o_grave +:+ " essere inefficiente per grandi liste");
  (* dict\(\[\(.*\)\]\) *)
  (cats [Str "dict([("; dot_star; Str ")])"],
   "Creazione dict inefficiente - usare dict comprehension")
].

Record PatternAnalysis := {
  p_issues : list string;
  p_suggestions : list string
}.

Definition _analyze_patterns (code : string) : PatternAnalysis :=
  let analysis :=
    fold_left (fun a '(pattern, (cat, message)) =>
                 if found no_flags pattern code then
                   match cat with
                   | Issues => {| p_issues := p_issues a ++ [message];
                                  p_suggestions := p_suggestions a |}
                   | Suggestions => {| p_issues := p_issues a;
                                       p_suggestions := p_suggestions a ++ [message] |}
                   end
                 else a)
              patterns {| p_issues := []; p_suggestions := [] |} in
  fold_left (fun a '(pattern, message) =>
               if found no_flags pattern code
               then {| p_issues := p_issues a;
                       p_suggestions := p_suggestions a ++ [message] |}
               else a)
            performance_patterns analysis.

(** *** Security *)

Definition security_patterns : list (string * list (regex * string)) := [
  ("python", [
    (cats [Str "eval"; s_star; Chr "("], "Uso di eval() - rischio di code injection");
    (cats [Str "exec"; s_star; Chr "("], "Uso di exec() - rischio di code injection");
    (Str "subprocess.", "Uso di subprocess - verificare input sanitization");
    (cats [Str "input"; s_star; Chr "("], "Uso di input() - verificare input validation");
    (cats [Str "os.system"; s_star; Chr "("],
     "Uso di os.system() - rischio di command injection");
    (Str "pickle.", "Uso di pickle - rischio deserializzazione non sicura");
    (cats [Str "yaml.load"; s_star; Chr "("],
     "Uso di yaml.load() - usare yaml.safe_load()");
    (cats [Str ".raw_input"; s_star; Chr "("],
     "Uso di raw_input() - verificare input validation")]);
  ("javascript", [
    (cats [Str "eval"; s_star; Chr "("], "Uso di eval() - rischio di code injection");
    (Str "innerHTML", "Uso di innerHTML - rischio XSS");
    (cats [Str "document.write"; s_star; Chr "("], "Uso di document.write() - rischio XSS");
    (Str "localStorage.", "Uso di localStorage - verificare dati sensibili");
    (cats [Str "new"; s_plus; Str "Function"; s_star; Chr "("],
     "Uso di new Function() - rischio code injection")]);
  ("html", [
    (cats [Str "on"; w_plus; s_star; Chr "="], "Event handler inline - rischio XSS");
    (Str "javascript:", "JavaScript URI - rischio XSS");
    (* <script\s+src=(['dquote])(?!https:) *)
    (cats [Str "<script"; s_plus; Str "src=";
           Group 1 (Cls (fun c => Ascii.eqb c Models.squote || Ascii.eqb c Models.dquote));
           NotAhead (Str "https:")],
     "Script non HTTPS - rischio MITM")])
].

Definition generic_patterns : list (regex * string) := [
  (cats [Str "password"; s_star; Chr "="], "Password in chiaro nel codice");
  (cats [Str "api_key"; s_star; Chr "="], "API key in chiaro nel codice");
  (cats [Str "secret"; s_star; Chr "="], "Secret in chiaro nel codice");
  (cats [Str "token"; s_star; Chr "="], "Token in chiaro nel codice")
].

Definition matching_messages (code : string) (table : list (regex * string))
    : list string :=
  snd <$> List.filter (fun '(pattern, _) => found no_flags pattern code) table.

(** [file_info['name']] when [file_info and 'name' in file_info]. *)
Definition name_of (file_info : option (gmap string string)) : option string :=
  match file_info with
  | Some fi => fi !! "name"
  | None => None
  end.

Definition _analyze_security (code : string) (file_info : option (gmap string string))
    : list string :=
  let file_type :=
    match name_of file_info with
    | Some name =>
        let ext := PyStr.lower (PyPath.suffix name) in
        if String.eqb ext ".py" then "python"
        else if String.eqb ext ".js" || String.eqb ext ".ts" then "javascript"
        else if String.eqb ext ".html" then "html"
        else "unknown"
    | None => "unknown"
    end in
  let issues :=
    match dict_get file_type security_patterns with
    | Some table => matching_messages code table
    | None => []
    end in
  issues ++ matching_messages code generic_patterns.

(** *** The analyzer

    What the repository takes from outside is a parameter of the section:
    the parser of the [ast] module, [difflib.Differ().compare], the text
    of a set of integers, the tree walk of the [ASTAnalyzer] visitor, whose
    output the results below only carry along, and the room on the call
    stack.  A call that can raise returns a sum: [inl] holds the message of
    the exception, [inr] the value. *)

Section Analyzer.

Variables FunctionInfo ClassInfo : Type.

(** [ast.parse] *)
Variable ast_parse : string -> parse_result.

(** [list(difflib.Differ().compare(a, b))]; the comparison is recursive and
    can exceed the recursion limit. *)
Variable differ_compare : list string -> list string -> string + list string.

Variable repr_set : gset nat -> string.

(** The run of [ASTAnalyzer(analysis, active_rules).visit(tree)]: the
    message of the exception it raised, or what it collected (its
    dependencies field still empty). *)
Variable ASTAnalyzer_visit :
  ast -> option (gset string) -> string + ASTAnalysis FunctionInfo ClassInfo.

(** The frames that the call stack takes when [_analyze_complexity],
    called by [analyze_code], calls [visitor.visit(tree)], and the message
    of the [RecursionError] raised when they do not suffice. *)
Variable frames : nat.
Variable recursion_error : string.

(** [_analyze_complexity], run with [room] frames for the visitor.  The
    parser is under a handler that catches everything; the visitor is
    not. *)
Definition _analyze_complexity (room : nat) (code : string) : string + gmap string Z :=
  match ast_parse code with
  | Parsed tree =>
      match visit tree room new_visitor with
      | Some visitor =>
          inr (<["total_complexity" :=
                   cognitive_load visitor + max_depth visitor * 2 + branches visitor]>
               (<["branches" := branches visitor]>
               (<["nesting_depth" := max_depth visitor]>
               (<["cognitive_load" := cognitive_load visitor]>
                (list_to_map [("cognitive_load", 0); ("nesting_depth", 0);
                              ("branches", 0); ("max_method_complexity", 0);
                              ("total_complexity", 0)])))))
      | None => inl recursion_error
      end
  | SyntaxError _ | OtherError _ =>
      inr (list_to_map [("cognitive_load", 0); ("nesting_depth", 0); ("branches", 0)])
  end.

Definition _analyze_ast (tree : ast) (active_rules : option (gset string))
    : string + ASTAnalysis FunctionInfo ClassInfo :=
  match ASTAnalyzer_visit tree active_rules with
  | inl e => inl e
  | inr analysis =>
      inr {| a_functions := a_functions analysis;
             a_classes := a_classes analysis;
             a_imports := a_imports analysis;
             a_dependencies := _analyze_dependencies (a_imports analysis);
             a_issues := a_issues analysis;
             a_suggestions := a_suggestions analysis |}
  end.

(** The message of an exception raised by [ast.parse]. *)
Definition parse_error (r : parse_result) : option string :=
  match r with
  | Parsed _ => None
  | SyntaxError msg | OtherError msg => Some msg
  end.

(** The loop over the functions of the previous version. *)
Definition removed_or_changed (previous_funcs current_funcs : list (string * ast))
    : list string :=
  flat_map (fun '(name, node) =>
              match dict_get name current_funcs with
              | None => ["Funzione rimossa: " +:+ name]
              | Some current =>
                  let prev_args := args_count node in
                  let curr_args := args_count current in
                  if negb (Nat.eqb prev_args curr_args)
                  then ["Signature cambiata per " +:+ name +:+ ": da "
                        +:+ PyStr.str_of_nat prev_args +:+ " a "
                        +:+ PyStr.str_of_nat curr_args +:+ " argomenti"]
                  else []
              end)
           previous_funcs.

(** The loop over the functions of the current version. *)
Definition new_functions (previous_funcs current_funcs : list (string * ast))
    : list string :=
  flat_map (fun '(name, _) =>
              match dict_get name previous_funcs with
              | None => ["Nuova funzione: " +:+ name]
              | Some _ => []
              end)
           current_funcs.

(** The loop that counts the marked lines of the diff; the state is
    [(lines_added, lines_removed, lines_modified)]. *)
Definition count_step (n : nat * nat * nat) (line : string) : nat * nat * nat :=
  let '(added, removed, modified) := n in
  if PyStr.startswith "+ " line then (S added, removed, modified)
  else if PyStr.startswith "- " line then (added, S removed, modified)
  else if PyStr.startswith "? " line then (added, removed, S modified)
  else n.

(** What [_analyze_changes] does once it has the diff.  Its two try
    statements catch every exception of their bodies; the call of
    [_analyze_complexity] is one frame deeper here than in
    [analyze_code]. *)
Definition changes_of_diff (current_code : string)
    (previous : Snapshot FunctionInfo ClassInfo) (diff : list string)
    : VersionChanges :=
  let '(added, removed, modified) := fold_left count_step diff (O, O, O) in
  (* complexity *)
  let '(delta, significant) :=
    match _analyze_complexity (Nat.pred frames) current_code with
    | inr current_complexity =>
        let previous_complexity := complexity (snap_analysis previous) in
        match current_complexity !! "cognitive_load",
              previous_complexity !! "cognitive_load" with
        | Some c, Some p =>
            let complexity_delta := c - p in
            (complexity_delta,
             if 5 <? Z.abs complexity_delta
             then ["Significativo cambio di complessit" +:+ a_grave +:+ ": "
                   +:+ PyStr.str_of_Z complexity_delta]
             else [])
        | _, _ =>
            (0, ["Errore nell'analisi della complessit" +:+ a_grave
                 +:+ ": 'cognitive_load'"])
        end
    | inl e =>
        (0, ["Errore nell'analisi della complessit" +:+ a_grave +:+ ": " +:+ e])
    end in
  (* functions *)
  let '(breaking, significant) :=
    match ast_parse current_code, ast_parse (snap_code previous) with
    | Parsed current_tree, Parsed previous_tree =>
        let current_funcs := function_defs current_tree in
        let previous_funcs := function_defs previous_tree in
        (removed_or_changed previous_funcs current_funcs,
         significant ++ new_functions previous_funcs current_funcs)
    | Parsed _, bad =>
        ([], significant ++ ["Errore nell'analisi delle funzioni: "
                             +:+ from_option id EmptyString (parse_error bad)])
    | bad, _ =>
        ([], significant ++ ["Errore nell'analisi delle funzioni: "
                             +:+ from_option id EmptyString (parse_error bad)])
    end in
  {| lines_added := added;
     lines_removed := removed;
     lines_modified := modified;
     complexity_delta := delta;
     significant_changes := significant;
     breaking_changes := breaking;
     diff_summary := _generate_diff_summary diff |}.

(** [_analyze_changes]: the comparison of the lines is under no handler. *)
Definition _analyze_changes (current_code : string)
    (previous : Snapshot FunctionInfo ClassInfo) (file_info : gmap string string)
    : string + VersionChanges :=
  let current_lines := PyStr.splitlines current_code in
  let previous_lines := PyStr.splitlines (snap_code previous) in
  match differ_compare previous_lines current_lines with
  | inl e => inl e
  | inr diff => inr (changes_of_diff current_code previous diff)
  end.

(** The body of the try statement of [analyze_code]: the analyzer object
    is the dictionary [self.previous_analyses], passed in and returned.
    The parser and the tree walk of the second step are under the handlers
    of the inner try statement; [_analyze_complexity] and
    [_analyze_changes] are not, and their exception ends the body before
    the dictionary is written. *)
Definition analyze_code_body (code : string) (file_info : option (gmap string string))
    (active_rules : option (gset string))
    (previous_analyses : gmap string (Snapshot FunctionInfo ClassInfo))
    : string + (AnalysisResult FunctionInfo ClassInfo
                * gmap string (Snapshot FunctionInfo ClassInfo)) :=
  let stats := _get_code_stats code in
  match _analyze_complexity frames code with
  | inl e => inl e
  | inr complexity =>
      (* syntax tree: what the result holds after the inner try statement *)
      let parsed : ASTAnalysis FunctionInfo ClassInfo :=
        let failed (issue : string) :=
          {| a_functions := []; a_classes := []; a_imports := [];
             a_dependencies := []; a_issues := [issue]; a_suggestions := [] |} in
        match ast_parse code with
        | Parsed tree =>
            match _analyze_ast tree active_rules with
            | inr ast_analysis => ast_analysis
            | inl e => failed ("Errore nell'analisi AST: " +:+ e)
            end
        | SyntaxError _ => failed "Il codice contiene errori di sintassi"
        | OtherError e => failed ("Errore nell'analisi AST: " +:+ e)
        end in
      (* style and patterns *)
      let issues := a_issues parsed ++ _analyze_style repr_set code in
      let pattern_analysis := _analyze_patterns code in
      let issues := issues ++ p_issues pattern_analysis in
      let suggestions := a_suggestions parsed ++ p_suggestions pattern_analysis in
      (* security *)
      let issues := issues ++ _analyze_security code file_info in
      (* incremental analysis against the previous version *)
      let changes : string + option VersionChanges :=
        match file_info with
        | Some fi =>
            match fi !! "name" with
            | Some name =>
                match previous_analyses !! name with
                | Some prev_analysis =>
                    match _analyze_changes code prev_analysis fi with
                    | inr version_changes => inr (Some version_changes)
                    | inl e => inl e
                    end
                | None => inr None
                end
            | None => inr None
            end
        | None => inr None
        end in
      match changes with
      | inl e => inl e
      | inr changes =>
          let result : AnalysisResult FunctionInfo ClassInfo :=
            {| r_stats := Some stats; complexity := complexity; issues := issues;
               suggestions := suggestions;
               functions := a_functions parsed; classes := a_classes parsed;
               imports := a_imports parsed; dependencies := a_dependencies parsed;
               version_changes := changes |} in
          inr (result,
               match name_of file_info with
               | Some name =>
                   <[name := {| snap_code := code; snap_analysis := result |}]>
                     previous_analyses
               | None => previous_analyses
               end)
      end
  end.

(** The result that the handler of the outer try statement returns. *)
Definition error_result : AnalysisResult FunctionInfo ClassInfo :=
  {| r_stats := None;
     complexity := list_to_map [("cognitive_load", 0); ("nesting_depth", 0)];
     issues := ["Errore durante l'analisi"];
     suggestions := []; functions := []; classes := []; imports := [];
     dependencies := []; version_changes := None |}.

(** [analyze_code]: the body, and on any exception of it the result of the
    handler (which also shows the message with [st.error]); the dictionary
    of the previous analyses is then as it was. *)
Definition analyze_code (code : string) (file_info : option (gmap string string))
    (active_rules : option (gset string))
    (previous_analyses : gmap string (Snapshot FunctionInfo ClassInfo))
    : AnalysisResult FunctionInfo ClassInfo
      * gmap string (Snapshot FunctionInfo ClassInfo) :=
  match analyze_code_body code file_info active_rules previous_analyses with
  | inr returned => returned
  | inl _ => (error_result, previous_analyses)
  end.

End Analyzer.

End CodeAnalyzer.

(** * Vocabulary of the properties *)

Section RuleVocabulary.
Import Models.

(** What one category contributes to a merge. *)
Definition contribution (rule_set : string) : gset string :=
  list_to_set (rules_of mandatory rule_set) ∪ list_to_set (rules_of default rule_set).

End RuleVocabulary.

Section ClassifierVocabulary.
Import Models.

(** The text [{"a": 1, "b": [1,2,3]}]. *)
Definition json_example : string :=
  let q := String dquote EmptyString in
  "{" +:+ q +:+ "a" +:+ q +:+ ": 1, " +:+ q +:+ "b" +:+ q +:+ ": [1,2,3]}".

(** The conditions of the conversational test. *)
Definition short_message (content : string) : bool :=
  Nat.ltb (length (PyStr.split content)) 15.

Definition conversational_match (content : string) : bool :=
  existsb (fun pattern => Re.found Re.no_flags pattern (PyStr.lower content))
          conversation_patterns.

Definition technical_match (content : string) : bool :=
  existsb (fun indicator => Re.found Re.no_flags indicator (PyStr.lower content))
          technical_indicators.

End ClassifierVocabulary.

Section DiffVocabulary.
Import DiffSummary.

(** A line of a change block, and a context line. *)
Definition is_change (line : string) : bool :=
  PyStr.startswith "+ " line || PyStr.startswith "- " line.

Definition is_context (line : string) : bool :=
  negb (PyStr.startswith "? " line) && negb (is_change line).

(** What flushing a block adds to the summary. *)
Definition flush (block : list string) : list string := append_summary [] block.

End DiffVocabulary.

Section StatsVocabulary.
Import CodeAnalyzer.

(** The four line counters. *)
Definition counters (s : Stats) : nat * nat * nat * nat :=
  (empty_lines s, code_lines s, comment_lines s, docstring_lines s).

Definition classified (s : Stats) : nat :=
  empty_lines s + code_lines s + comment_lines s + docstring_lines s.

(** The outcomes of one iteration on the counters: none is touched, or
    exactly one of them grows by one. *)
Definition one_more (before after : nat * nat * nat * nat) : Prop :=
  let '(e, c, m, d) := before in
  after = (e, c, m, d) ∨ after = (S e, c, m, d) ∨ after = (e, S c, m, d)
  ∨ after = (e, c, S m, d) ∨ after = (e, c, m, S d).

End StatsVocabulary.

Section GuesserVocabulary.
Import ChatInterface.

(** The python indicators without the entries [None], [True], [False]. *)
Definition python_indicators_lowercase : list (string * nat) := [
  ("def ", 3); ("class ", 3); ("import ", 2); ("from ", 2); ("@", 1);
  ("if __name__", 3); (".py", 2); ("print(", 1); ("return ", 1); ("#", 1);
  ("self.", 2); ("elif ", 2);
  ("try:", 2); ("except:", 2); ("with ", 2)
].

(** [_guess_language] with those three entries removed from the table. *)
Definition _guess_language_lowercase_table (code : string) : string :=
  guess_language_with python_indicators_lowercase code.

(** Does the text hold one of the letters A to Z? *)
Fixpoint has_capital (s : string) : bool :=
  match s with
  | EmptyString => false
  | String c s' => PyStr.between 65 90 c || has_capital s'
  end.

End GuesserVocabulary.

Section MatchingVocabulary.
Import Re.

(** The character before the position reached after reading [s]. *)
Fixpoint last_chr (before : option ascii) (s : string) : option ascii :=
  match s with
  | EmptyString => before
  | String c s' => last_chr (Some c) s'
  end.

(** All characters of [s] are in the class [p]. *)
Fixpoint all_chars (p : ascii -> bool) (s : string) : bool :=
  match s with
  | EmptyString => true
  | String c s' => p c && all_chars p s'
  end.

(** The text does not start with a character of the class [p]. *)
Definition starts_outside (p : ascii -> bool) (s : string) : bool :=
  match s with
  | EmptyString => true
  | String c _ => negb (p c)
  end.

(** The end of both patterns: a newline and the closing fence. *)
Definition closing : regex := Cat (Chr "010") (Str "```").

(** The snippet that consists of one fenced block: the opening fence, the
    language tag, a newline, the code, a newline, the closing fence. *)
Definition fenced (lang code : string) : string :=
  "```" +:+ lang +:+ String "010" (code +:+ String "010" "```").

(** A language tag: a non-empty run of word characters. *)
Definition is_tag (lang : string) : bool :=
  negb (String.eqb lang EmptyString) && all_chars is_word lang.

End MatchingVocabulary.

(** An instance of the parameters of the analyzer. *)

Section AnalyzerInstance.
Import CodeAnalyzer.

(** A parser that rejects one text. *)
Definition sample_parse (code : string) : parse_result :=
  if String.eqb code "def f(:" then SyntaxError "invalid syntax"
  else Parsed (Node OtherNode [Node (FunctionDef "f" 1) [Node If []]]).

(** A line diff that keeps equal sequences and replaces different ones. *)
Definition sample_differ (a b : list string) : string + list string :=
  inr (if decide (a = b) then (fun line => "  " +:+ line) <$> a
       else ((fun line => "- " +:+ line) <$> a) ++ ((fun line => "+ " +:+ line) <$> b)).

Definition sample_repr (sizes : gset nat) : string :=
  "{" +:+ PyStr.join ", " (PyStr.str_of_nat <$> elements sizes) +:+ "}".

Definition sample_visit (tree : ast) (active_rules : option (gset string))
    : string + ASTAnalysis unit unit :=
  inr {| a_functions := [tt]; a_classes := []; a_imports := ["os"; "numpy"];
         a_dependencies := []; a_issues := []; a_suggestions := [] |}.

(** The room on the call stack, and the message of Python for its end. *)
Definition sample_frames : nat := 900.
Definition sample_recursion_error : string := "maximum recursion depth exceeded".

(** A parser that refuses a text with a NUL character as Python 3.11
    does, with a [ValueError]. *)
Definition nul_text : string := String "000" EmptyString.

Definition nul_parse (code : string) : parse_result :=
  if PyStr.contains nul_text code
  then OtherError "source code string cannot contain null bytes"
  else Parsed (Node OtherNode []).

(** The text [1+1+...+1] with [n] additions, and its tree: a module, an
    expression statement, and binary operations nested on the left, each
    with its operator and its right operand. *)
Fixpoint sum_text (n : nat) : string :=
  match n with
  | O => "1"
  | S n' => sum_text n' +:+ "+1"
  end.

Fixpoint sum_expr (n : nat) : ast :=
  match n with
  | O => Node OtherNode []
  | S n' => Node OtherNode [sum_expr n'; Node OtherNode []; Node OtherNode []]
  end.

Definition sum_parse (code : string) : parse_result :=
  Parsed (Node OtherNode [Node OtherNode [sum_expr (PyStr.count "+" code)]]).

End AnalyzerInstance.

(** Vocabulary of the further properties. *)

Section MoreRuleVocabulary.
Import Models.

(** The rule table keeps the mandatory rules of a category among its
    default rules. *)
Definition mandatory_within_default (e : rule_entry) : bool :=
  forallb (fun r => existsb (String.eqb r) (default e)) (mandatory e).

(** A preset enables, for a category of the rule table, default rules of
    that category only. *)
Definition preset_within_default (pr : preset_entry) : bool :=
  forallb (fun '(rule_type, rules) =>
             match ANALYSIS_RULES !! rule_type with
             | Some e => forallb (fun r => existsb (String.eqb r) (default e)) rules
             | None => true
             end)
          (enabled_rules pr).

(** The four categories that [suggest_rules] can name. *)
Definition rule_categories : list string := ["conversation"; "code"; "data"; "config"].

End MoreRuleVocabulary.

Section PromptVocabulary.





End PromptVocabulary.

Section FormatVocabulary.
Import Models.

Definition other_than (sep c : ascii) : bool := negb (Ascii.eqb c sep).

(** What one iteration of the loop of [format_code_prompt] does with a
    line: the new value of [in_code_block] and the line appended. *)
Definition format_one (in_code_block : bool) (line : string) : bool * string :=
  if PyStr.startswith "```" (PyStr.strip line) then (negb in_code_block, line)
  else if in_code_block then (in_code_block, line)
  else (in_code_block, PyStr.strip line).

(** The loop, as a recursion on the lines. *)
Fixpoint format_lines (in_code_block : bool) (lines : list string)
    : bool * list string :=
  match lines with
  | [] => (in_code_block, [])
  | line :: lines' =>
      let '(b, x) := format_one in_code_block line in
      let '(b', out) := format_lines b lines' in
      (b', x :: out)
  end.

End FormatVocabulary.

Section ComplexityVocabulary.
Import CodeAnalyzer.
Local Open Scope Z_scope.

(** The statements that open a nesting level. *)
Definition is_control (cls : node_class) : bool :=
  match cls with
  | If | For | While | Try _ => true
  | _ => false
  end.

(** The deepest nesting of control statements in a tree. *)
Fixpoint nesting (t : ast) : Z :=
  match t with
  | Node cls children =>
      let inner := fold_right Z.max 0 (List.map nesting children) in
      if is_control cls then 1 + inner else inner
  end.

(** The sum of a weight over the nodes of a tree. *)
Fixpoint total (weight : node_class -> Z) (t : ast) : Z :=
  match t with
  | Node cls children =>
      weight cls + fold_right Z.add 0 (List.map (total weight) children)
  end.

(** The classes for which the visitor has a method of its own. *)
Definition has_method (cls : node_class) : bool :=
  match cls with
  | OtherNode => false
  | _ => true
  end.

(** The frames that the walk of a tree takes: at every node the one of
    [visit], the one of the method of its class if there is one, and the
    one of [generic_visit]. *)
Fixpoint stack_depth (t : ast) : nat :=
  match t with
  | Node cls children =>
      ((if has_method cls then 3 else 2)
       + fold_right Nat.max 0 (List.map stack_depth children))%nat
  end.

(** The visit of the children of a node, one after the other, as long as
    no exception is raised. *)
Definition visit_children (children : list ast) (room : nat) (v : ComplexityVisitor)
    : option ComplexityVisitor :=
  fold_left (fun acc c => acc ≫= visit c room) children (Some v).

Definition branches_of (cls : node_class) : Z :=
  match cls with
  | If | For | While => 1
  | Try handlers => Z.of_nat handlers + 1
  | _ => 0
  end.

Definition load_of (cls : node_class) : Z :=
  match cls with
  | FunctionDef _ _ | ClassDef | If | Try _ => 1
  | For | While => 2
  | OtherNode => 0
  end.

(** What the visitor holds after the walk of a tree, from what it held
    before. *)
Definition visited (t : ast) (v : ComplexityVisitor) : ComplexityVisitor :=
  {| current_depth := current_depth v;
     max_depth := Z.max (max_depth v) (current_depth v + nesting t);
     branches := branches v + total branches_of t;
     cognitive_load := cognitive_load v + total load_of t |}.

End ComplexityVocabulary.

Section DefinitionsVocabulary.
Import CodeAnalyzer.

(** The lines counted as the start of an import, a class or a function. *)
Definition definitions (s : Stats) : nat :=
  imports_count s + classes_count s + functions_count s.

End DefinitionsVocabulary.

Section SecurityVocabulary.

(** The words of the generic security patterns, each with its message. *)
Definition credential_messages : list (string * string) := [
  ("password", "Password in chiaro nel codice");
  ("api_key", "API key in chiaro nel codice");
  ("secret", "Secret in chiaro nel codice");
  ("token", "Token in chiaro nel codice")
].

End SecurityVocabulary.

Section VersionVocabulary.
Import CodeAnalyzer.

(** The tree has a function definition of that name, at any depth. *)
Definition defines (tree : ast) (name : string) : Prop :=
  ∃ node nargs, node ∈ walk tree ∧ cls_of node = FunctionDef name nargs.


End VersionVocabulary.

Section StyleVocabulary.
Import Re.

(** The characters that the second alternative of the operator regex
    starts with. *)
Definition is_operator (c : ascii) : bool := one_of "+-*/<>" c.

(** Neither an operator character nor an equals sign. *)
Definition plain (c : ascii) : bool := negb (is_operator c || Ascii.eqb c "=").

End StyleVocabulary.

(** * Properties *)

(** ** Rule engine *)

Section RuleEngine.
Import Models.

Lemma fold_union_acc {A} (f : A -> gset string) (l : list A) (acc : gset string) :
  fold_left (fun m x => m ∪ f x) l acc = acc ∪ fold_left (fun m x => m ∪ f x) l ∅.
Proof.
  revert acc. induction l as [|x l IH]; intros acc; simpl.
  - set_solver.
  - rewrite (IH (acc ∪ f x)), (IH (∅ ∪ f x)). set_solver.
Qed.


Lemma merge_rule_sets_fold (rule_sets : list string) :
  merge_rule_sets rule_sets = fold_left (fun m x => m ∪ contribution x) rule_sets ∅.
Proof.
  unfold merge_rule_sets. generalize (∅ : gset string).
  induction rule_sets as [|x l IH]; intros acc; simpl; [done|].
  rewrite IH. f_equal. unfold contribution, rules_of.
  destruct (ANALYSIS_RULES !! x); set_solver.
Qed.

Lemma merge_rule_sets_app (l1 l2 : list string) :
  merge_rule_sets (l1 ++ l2) = merge_rule_sets l1 ∪ merge_rule_sets l2.
Proof.
  rewrite !merge_rule_sets_fold, fold_left_app. apply fold_union_acc.
Qed.

Lemma merge_rule_sets_singleton (c : string) :
  merge_rule_sets [c] = contribution c.
Proof. rewrite merge_rule_sets_fold. simpl. set_solver. Qed.

(** C5. For every preset argument (any string or none),
    [get_active_rules "code" preset] contains both [no_omissions] and
    [maintain_style]; and for every content type of the rule table and
    every preset the result includes the mandatory rules of that type. *)
Theorem get_active_rules_includes_mandatory (preset : option string) :
  ({["no_omissions"; "maintain_style"]} : gset string)
    ⊆ get_active_rules "code" preset
  ∧ ∀ (content_type : string) (e : rule_entry),
      ANALYSIS_RULES !! content_type = Some e →
      (list_to_set (mandatory e) : gset string)
        ⊆ get_active_rules content_type preset.
Proof.
  assert (General : ∀ (content_type : string) (e : rule_entry),
             ANALYSIS_RULES !! content_type = Some e →
             (list_to_set (mandatory e) : gset string)
               ⊆ get_active_rules content_type preset).
  { intros content_type e He. unfold get_active_rules, rules_of. rewrite He.
    destruct preset as [p|]; [|set_solver].
    destruct (if String.eqb p EmptyString then None else RULE_PRESETS !! p);
      set_solver. }
  split; [|exact General].
  specialize (General "code" _ eq_refl). simpl in General. set_solver.
Qed.

Lemma get_active_rules_includes_mandatory_witness :
  (list_to_set ["complete_analysis"; "show_insights"] : gset string)
    ⊆ Models.get_active_rules "data" (Some "technical").
Proof.
  exact (proj2 (get_active_rules_includes_mandatory (Some "technical"))
               "data" _ eq_refl).
Defined.

(** C6. [merge_rule_sets ["code"; "data"]] includes
    [merge_rule_sets ["code"]] united with the mandatory rules of [data];
    the same holds for any list of categories and any category added to it. *)
Theorem merge_rule_sets_monotonic :
  merge_rule_sets ["code"] ∪ list_to_set (rules_of mandatory "data")
    ⊆ merge_rule_sets ["code"; "data"]
  ∧ ∀ (rule_sets : list string) (added : string),
      merge_rule_sets rule_sets ∪ list_to_set (rules_of mandatory added)
        ⊆ merge_rule_sets (rule_sets ++ [added]).
Proof.
  assert (General : ∀ (rule_sets : list string) (added : string),
      merge_rule_sets rule_sets ∪ list_to_set (rules_of mandatory added)
        ⊆ merge_rule_sets (rule_sets ++ [added])).
  { intros rule_sets added.
    rewrite merge_rule_sets_app, merge_rule_sets_singleton.
    unfold contribution. set_solver. }
  split; [|exact General].
  exact (General ["code"] "data").
Qed.

End RuleEngine.

(** ** Content classifier *)

Section Classifier.
Import Models.


(** Without a technical indicator the answer is [conversation], whatever
    the text. *)
Lemma no_technical_indicator_is_conversation (content : string)
    (ctx : option context) :
  technical_match content = false →
  determine_content_type content ctx = "conversation".
Proof.
  unfold technical_match, determine_content_type, _is_conversational. intros H.
  rewrite H. by match goal with |- context [if ?b then true else _] => destruct b end.
Qed.

Lemma _is_conversational_eq (content : string) :
  _is_conversational content
  = (short_message content && conversational_match content)
    || negb (technical_match content).
Proof.
  unfold _is_conversational, short_message, conversational_match, technical_match.
  match goal with |- context [if ?b then true else _] => destruct b end; [done|].
  simpl.
  match goal with |- context [if ?b then false else _] => by destruct b end.
Qed.

Lemma _map_file_type_to_content_type_cases (file_type : string) :
  _map_file_type_to_content_type file_type ∈ ["code"; "data"; "general"].
Proof.
  unfold _map_file_type_to_content_type.
  destruct (_ !! PyStr.lower file_type) as [v|] eqn:E; simpl; [|set_solver].
  apply elem_of_list_to_map_2 in E.
  repeat (apply elem_of_cons in E as [E|E]; [inversion E; set_solver|]).
  by apply elem_of_nil in E.
Qed.

Lemma _determine_type_from_files_cases (files : list (gmap string string)) :
  _determine_type_from_files files ∈ ["code"; "data"; "general"].
Proof.
  induction files as [|file files IH]; simpl; [set_solver|].
  destruct (negb _); [apply _map_file_type_to_content_type_cases | exact IH].
Qed.

(** Past the conversational test no branch answers [conversation]. *)
Lemma determine_content_type_not_conversational (content : string)
    (ctx : option context) :
  _is_conversational content = false →
  determine_content_type content ctx ∈ ["code"; "data"; "general"].
Proof.
  intros H. unfold determine_content_type. rewrite H.
  destruct (contains_code content); [set_solver|].
  destruct (_contains_structured_data content); [set_solver|].
  destruct ctx as [[[ft|] [files|]]|]; simpl;
    first [ apply _map_file_type_to_content_type_cases
          | apply _determine_type_from_files_cases
          | set_solver ].
Qed.

(** C1, as stated, fails: the classifier does not answer [data] on
    [{"a": 1, "b": [1,2,3]}] without context. *)
Lemma classify_json_example_is_not_data :
  determine_content_type json_example None ≠ "data".
Proof. vm_compute. discriminate. Qed.

(** C1, amended. On [{"a": 1, "b": [1,2,3]}] without context the
    classifier answers [conversation]: the text has fewer than 15 tokens,
    matches no technical indicator, and so passes the conversational test,
    which comes first; the code test does not match the text and the
    structured-data test does, but neither is reached. *)
Theorem classify_json_example :
  determine_content_type json_example None = "conversation"
  ∧ _is_conversational json_example = true
  ∧ technical_match json_example = false
  ∧ contains_code json_example = false
  ∧ _contains_structured_data json_example = true.
Proof. vm_compute. done. Qed.

(** C2, as stated, fails at the text [hi, debug this?]: it has three
    tokens, matches a greeting regex and the technical-indicator regex of
    the analysis verbs, and is classified as a conversation all the same. *)
Lemma short_greeting_with_technical_word :
  short_message "hi, debug this?" = true
  ∧ conversational_match "hi, debug this?" = true
  ∧ technical_match "hi, debug this?" = true
  ∧ _is_conversational "hi, debug this?" = true
  ∧ determine_content_type "hi, debug this?" None = "conversation".
Proof. vm_compute. done. Qed.

(** The question word with an accented e is not among the conversational
    patterns: the pattern of the file holds other characters in its
    place. *)
Lemma accented_question_word_not_conversational :
  conversational_match ("perch" +:+ String "233" " debug") = false
  ∧ _is_conversational ("perch" +:+ String "233" " debug") = false.
Proof. vm_compute. done. Qed.

(** C2, amended. For every text that matches a technical-indicator regex,
    the conversational test succeeds, and the classifier answers
    [conversation], exactly when the text has fewer than 15
    whitespace-separated tokens and matches one of the conversational
    regexes; otherwise the technical signal makes the conversational test
    fail and classification continues with the code test. *)
Theorem technical_indicator_overrides_only_default (content : string)
    (ctx : option context) :
  technical_match content = true →
  _is_conversational content
  = short_message content && conversational_match content
  ∧ (determine_content_type content ctx = "conversation"
     ↔ short_message content = true ∧ conversational_match content = true)
  ∧ (short_message content && conversational_match content = false →
     determine_content_type content ctx ∈ ["code"; "data"; "general"]
     ∧ (contains_code content = true →
        determine_content_type content ctx = "code")).
Proof.
  intros Htech.
  pose proof (_is_conversational_eq content) as E. rewrite Htech in E. simpl in E.
  rewrite orb_false_r in E.
  split; [exact E|]. split.
  - split.
    + intros Hc. apply andb_prop. rewrite <- E.
      destruct (_is_conversational content) eqn:Hconv; [done|].
      pose proof (determine_content_type_not_conversational content ctx Hconv) as Hin.
      rewrite Hc in Hin. set_solver.
    + intros [Hs Hm]. unfold determine_content_type.
      by rewrite E, Hs, Hm.
  - intros Hno. rewrite Hno in E. split.
    + by apply determine_content_type_not_conversational.
    + intros Hcode. unfold determine_content_type. by rewrite E, Hcode.
Qed.

Lemma technical_indicator_overrides_only_default_witness :
  determine_content_type "hi, debug this?" None = "conversation"
  ↔ short_message "hi, debug this?" = true
    ∧ conversational_match "hi, debug this?" = true.
Proof.
  exact (proj1 (proj2 (technical_indicator_overrides_only_default
                         "hi, debug this?" None eq_refl))).
Defined.

End Classifier.

(** ** Diff summariser *)

Section DiffSummariser.
Import DiffSummary.


Lemma append_summary_flush (summary block : list string) :
  append_summary summary block = summary ++ flush block.
Proof.
  unfold flush, append_summary.
  destruct (_summarize_change_block block) as [b|]; [|by rewrite app_nil_r].
  destruct (String.eqb b EmptyString); [by rewrite app_nil_r | done].
Qed.

Lemma flush_nil : flush [] = [].
Proof. reflexivity. Qed.

Lemma diff_step_acc (summary block : list string) (line : string) :
  diff_step (summary, block) line
  = (summary ++ fst (diff_step ([], block) line), snd (diff_step ([], block) line)).
Proof.
  unfold diff_step.
  destruct (PyStr.startswith "? " line); simpl; [by rewrite app_nil_r|].
  destruct (_ || _); simpl; [by rewrite app_nil_r|].
  destruct block; simpl; [by rewrite app_nil_r|].
  by rewrite append_summary_flush.
Qed.

Lemma fold_diff_step_acc (diff summary block : list string) :
  fold_left diff_step diff (summary, block)
  = (summary ++ fst (fold_left diff_step diff ([], block)),
     snd (fold_left diff_step diff ([], block))).
Proof.
  revert summary block. induction diff as [|line diff IH]; intros summary block.
  - simpl. by rewrite app_nil_r.
  - cbn [fold_left]. rewrite diff_step_acc.
    destruct (diff_step ([], block) line) as [s1 b1] eqn:E1. cbn [fst snd].
    rewrite (IH (summary ++ s1)), (IH s1). simpl. by rewrite app_assoc.
Qed.

Lemma _generate_diff_summary_eq (diff : list string) :
  _generate_diff_summary diff
  = fst (fold_left diff_step diff ([], []))
    ++ flush (snd (fold_left diff_step diff ([], []))).
Proof.
  unfold _generate_diff_summary.
  destruct (fold_left diff_step diff ([], [])) as [summary block]. simpl.
  destruct block; [by rewrite flush_nil, app_nil_r | apply append_summary_flush].
Qed.

Lemma diff_step_marker (st : list string * list string) (line : string) :
  PyStr.startswith "? " line = true → diff_step st line = st.
Proof. intros H. destruct st. unfold diff_step. by rewrite H. Qed.

Lemma diff_step_context (summary block : list string) (line : string) :
  is_context line = true →
  diff_step (summary, block) line = (summary ++ flush block, []).
Proof.
  unfold is_context, is_change, diff_step. intros [H1 H2]%andb_prop.
  apply negb_true_iff in H1, H2. rewrite H1, H2.
  destruct block; [by rewrite flush_nil, app_nil_r | by rewrite append_summary_flush].
Qed.

Lemma startswith_marker_not_change (line : string) :
  is_change line = true → PyStr.startswith "? " line = false.
Proof.
  unfold is_change. destruct line as [|c line]; [done|].
  cbn [PyStr.startswith]. destruct (Ascii.eqb "+" c) eqn:E1.
  - apply Ascii.eqb_eq in E1. subst c. intros _. reflexivity.
  - destruct (Ascii.eqb "-" c) eqn:E2; [|done].
    apply Ascii.eqb_eq in E2. subst c. intros _. reflexivity.
Qed.

Lemma fold_diff_step_changes (block summary current : list string) :
  Forall (fun line => is_change line = true) block →
  fold_left diff_step block (summary, current) = (summary, current ++ block).
Proof.
  revert current. induction block as [|line block IH]; intros current Hall.
  - simpl. by rewrite app_nil_r.
  - inversion Hall as [|? ? Hline Hrest]; subst. cbn [fold_left].
    unfold diff_step at 2.
    rewrite (startswith_marker_not_change _ Hline).
    unfold is_change in Hline. rewrite Hline.
    rewrite (IH _ Hrest). by rewrite <- app_assoc.
Qed.

Lemma append_nonempty (s t : string) : s ≠ EmptyString → s +:+ t ≠ EmptyString.
Proof. by destruct s. Qed.

Lemma describe_nonempty (verb description : string) (m : Re.match_obj) :
  verb ≠ EmptyString → describe verb description m ≠ EmptyString.
Proof.
  intros H. unfold describe. destruct (Re.m_groups m); by apply append_nonempty.
Qed.

Lemma scan_patterns_nonempty pats additions deletions summary :
  scan_patterns pats additions deletions = Some summary → summary ≠ EmptyString.
Proof.
  induction pats as [|[pattern description] pats IH]; simpl; [done|].
  destruct (first_match pattern additions).
  { intros [= <-]. by apply describe_nonempty. }
  destruct (first_match pattern deletions).
  { intros [= <-]. by apply describe_nonempty. }
  exact IH.
Qed.

(** A block that is not empty always has a summary, and the summary is
    not the empty text. *)
Lemma _summarize_change_block_some (block : list string) :
  block ≠ [] →
  ∃ summary, _summarize_change_block block = Some summary
             ∧ summary ≠ EmptyString.
Proof.
  intros Hne. destruct block as [|line block]; [done|].
  unfold _summarize_change_block.
  destruct (scan_patterns _ _ _) as [summary|] eqn:E.
  - exists summary. split; [done|]. by eapply scan_patterns_nonempty.
  - destruct (Nat.eqb _ 1); eexists; (split; [done|]); [done|].
    by apply append_nonempty.
Qed.

Lemma flush_block (block : list string) (summary : string) :
  _summarize_change_block block = Some summary → summary ≠ EmptyString →
  flush block = [summary].
Proof.
  intros H Hne. unfold flush, append_summary. rewrite H.
  destruct (String.eqb summary EmptyString) eqn:E; [|done].
  by apply String.eqb_eq in E.
Qed.

(** C3, as stated, fails at the diff of the line [x = 1] against the line
    [x = 2], as [difflib] prints it: the [?] lines do not flush the block,
    so the removed and the added line, which only a [?] line separates, are
    summarised as one block of two lines and not as two blocks of one
    line. *)
Lemma marker_line_does_not_flush :
  _generate_diff_summary ["- x = 1"; "?     ^
"; "+ x = 2"; "?     ^
"]
  = ["Modificate 2 linee"]
  ∧ _generate_diff_summary ["- x = 1"] ++ _generate_diff_summary ["+ x = 2"]
    = ["Modificata una linea"; "Modificata una linea"].
Proof. vm_compute. done. Qed.

(** C3, amended. For every list of diff lines the summariser gathers the
    consecutive [+]/[-] lines into a change block; a [?] line is skipped
    and leaves the current block open (the summary is the one of the diff
    without that line); a context line flushes the current block (the
    summary is the one of the lines before it followed by the one of the
    lines after it); and at the end of the input the last block is flushed:
    a block of [+]/[-] lines alone gets exactly one summary line. *)
Theorem diff_summary_blocks :
  (∀ (before : list string) (marker : string) (after : list string),
     PyStr.startswith "? " marker = true →
     _generate_diff_summary (before ++ marker :: after)
     = _generate_diff_summary (before ++ after))
  ∧ (∀ (before : list string) (context : string) (after : list string),
       is_context context = true →
       _generate_diff_summary (before ++ context :: after)
       = _generate_diff_summary before ++ _generate_diff_summary after)
  ∧ (∀ (block : list string),
       block ≠ [] →
       Forall (fun line => is_change line = true) block →
       ∃ summary, _summarize_change_block block = Some summary
                  ∧ _generate_diff_summary block = [summary]).
Proof.
  split; [|split].
  - intros before marker after H.
    rewrite !_generate_diff_summary_eq, !fold_left_app. cbn [fold_left].
    by rewrite diff_step_marker.
  - intros before context after H.
    rewrite !_generate_diff_summary_eq, fold_left_app. cbn [fold_left].
    destruct (fold_left diff_step before ([], [])) as [s1 b1]. cbn [fst snd].
    rewrite diff_step_context by done.
    rewrite fold_diff_step_acc. cbn [fst snd]. by rewrite <- !app_assoc.
  - intros block Hne Hall.
    destruct (_summarize_change_block_some block Hne) as (summary & Hs & Hnonempty).
    exists summary. split; [done|].
    rewrite _generate_diff_summary_eq, fold_diff_step_changes by done. simpl.
    by apply flush_block.
Qed.

Lemma diff_summary_blocks_witness :
  _generate_diff_summary (["- x = 1"] ++ "?     ^" :: ["+ x = 2"])
  = _generate_diff_summary (["- x = 1"] ++ ["+ x = 2"])
  ∧ _generate_diff_summary (["- x = 1"] ++ "  y = 0" :: ["+ x = 2"])
    = _generate_diff_summary ["- x = 1"] ++ _generate_diff_summary ["+ x = 2"]
  ∧ ∃ summary, _summarize_change_block ["- x = 1"; "+ x = 2"] = Some summary
               ∧ _generate_diff_summary ["- x = 1"; "+ x = 2"] = [summary].
Proof.
  split; [|split].
  - apply (proj1 diff_summary_blocks). reflexivity.
  - apply (proj1 (proj2 diff_summary_blocks)). reflexivity.
  - apply (proj2 (proj2 diff_summary_blocks)).
    + discriminate.
    + repeat constructor.
Defined.

End DiffSummariser.

(** ** Code statistics *)

Section CodeStats.
Import CodeAnalyzer.

Local Open Scope nat_scope.


Lemma classify_line_counters (stripped : string) (in_doc : bool) (s : Stats) :
  one_more (counters s) (counters (classify_line stripped in_doc s))
  ∧ total_lines (classify_line stripped in_doc s) = total_lines s.
Proof.
  unfold classify_line, one_more, counters.
  repeat match goal with
         | |- context [if ?b then _ else _] => destruct b
         end; simpl; auto 10.
Qed.

Lemma stats_step_counters (acc : stats_loop) (line : string) :
  one_more (counters (stats acc)) (counters (stats (stats_step acc line)))
  ∧ total_lines (stats (stats_step acc line)) = total_lines (stats acc).
Proof.
  unfold stats_step.
  set (st := if Nat.ltb 0 (String.length line) then _ else _).
  assert (Hst : counters st = counters (stats acc)
                ∧ total_lines st = total_lines (stats acc)).
  { subst st. by destruct (Nat.ltb 0 (String.length line)). }
  destruct Hst as [Hc Ht]. rewrite <- Hc, <- Ht.
  destruct (_ || _).
  - destruct (String.eqb _ EmptyString); cbn [stats].
    + split; [|done]. unfold one_more. destruct (counters st) as [[[e c] m] d]. auto.
    + apply classify_line_counters.
  - cbn [stats]. apply classify_line_counters.
Qed.

Lemma one_more_classified (s s' : Stats) :
  one_more (counters s) (counters s') → classified s' ≤ S (classified s).
Proof.
  unfold one_more, counters, classified.
  intros [H|[H|[H|[H|H]]]]; inversion H; lia.
Qed.

Lemma fold_stats_step_classified (lines : list string) (acc : stats_loop) :
  classified (stats (fold_left stats_step lines acc))
    ≤ classified (stats acc) + length lines
  ∧ total_lines (stats (fold_left stats_step lines acc)) = total_lines (stats acc).
Proof.
  revert acc. induction lines as [|line lines IH]; intros acc; cbn [fold_left length].
  - split; [lia | done].
  - destruct (IH (stats_step acc line)) as [IH1 IH2].
    destruct (stats_step_counters acc line) as [H1 H2].
    apply one_more_classified in H1. split; [lia | congruence].
Qed.

Lemma startswith_rstrip (x : string) : PyStr.startswith (PyStr.rstrip x) x = true.
Proof.
  induction x as [|c x IH]; [done|]. cbn [PyStr.rstrip].
  destruct (PyStr.rstrip x) as [|c' r] eqn:E.
  - destruct (PyStr.isspace c); [done|]. cbn [PyStr.startswith].
    by rewrite Ascii.eqb_refl.
  - change (PyStr.startswith (String c (String c' r)) (String c x))
      with (Ascii.eqb c c && PyStr.startswith (String c' r) x).
    by rewrite Ascii.eqb_refl, IH.
Qed.

Lemma contains_startswith (p x : string) :
  PyStr.startswith p x = true → PyStr.contains p x = true.
Proof. intros H. destruct x; cbn [PyStr.contains]; by rewrite H. Qed.

Lemma contains_lstrip (p x : string) :
  PyStr.contains p (PyStr.lstrip x) = true → PyStr.contains p x = true.
Proof.
  induction x as [|c x IH]; [done|]. cbn [PyStr.lstrip].
  destruct (PyStr.isspace c); [|done].
  intros H. cbn [PyStr.contains]. rewrite (IH H). apply orb_true_r.
Qed.

Lemma contains_strip (line : string) :
  PyStr.contains (PyStr.strip line) line = true.
Proof.
  apply contains_lstrip, contains_startswith, startswith_rstrip.
Qed.

(** C10. For every input the statistics of [_get_code_stats] satisfy
    [empty_lines + code_lines + comment_lines + docstring_lines <=
    total_lines]: an iteration of the loop leaves the four counters alone
    or adds one to exactly one of them.  A line that consists of a
    triple-quote delimiter only (surrounded by white space at most) changes
    none of the four, so the inequality can be strict. *)
Theorem code_stats_partition :
  (∀ code : string,
     classified (_get_code_stats code) ≤ total_lines (_get_code_stats code))
  ∧ (∀ (acc : stats_loop) (line : string),
       one_more (counters (stats acc)) (counters (stats (stats_step acc line))))
  ∧ (∀ (acc : stats_loop) (line : string),
       PyStr.strip line = triple_dquote ∨ PyStr.strip line = triple_squote →
       counters (stats (stats_step acc line)) = counters (stats acc))
  ∧ (∃ code : string,
       classified (_get_code_stats code) < total_lines (_get_code_stats code)).
Proof.
  split; [|split; [|split]].
  - intros code. unfold _get_code_stats.
    set (lines := PyStr.split_chr "010" code).
    destruct (fold_stats_step_classified lines (initial_stats lines)) as [H1 H2].
    change (classified (stats (initial_stats lines))) with 0 in H1.
    change (total_lines (stats (initial_stats lines))) with (length lines) in H2.
    destruct (Nat.ltb 0 _); unfold classified in *; simpl; lia.
  - intros acc line. apply stats_step_counters.
  - intros acc line Hq. unfold stats_step.
    assert (Hin : PyStr.contains triple_dquote line
                  || PyStr.contains triple_squote line = true).
    { pose proof (contains_strip line) as Hc.
      destruct Hq as [Hq|Hq]; rewrite Hq in Hc; rewrite Hc;
        [done | apply orb_true_r]. }
    rewrite Hin.
    assert (Hrest : String.eqb (PyStr.strip (PyStr.slice_from 3 (PyStr.strip line)))
                               EmptyString = true).
    { by destruct Hq as [-> | ->]. }
    rewrite Hrest. cbn [stats]. by destruct (Nat.ltb 0 (String.length line)).
  - exists "'''". vm_compute. lia.
Qed.

Lemma code_stats_partition_witness :
  counters (stats (stats_step (initial_stats ["  '''  "]) "  '''  "))
  = counters (stats (initial_stats ["  '''  "])).
Proof.
  apply (proj1 (proj2 (proj2 code_stats_partition))). right. reflexivity.
Defined.

End CodeStats.

(** ** Language guesser *)

Section LanguageGuesser.
Import ChatInterface.

Local Open Scope nat_scope.


Lemma python_indicators_lowercase_eq :
  python_indicators_lowercase
  = List.filter (fun e => negb (has_capital (fst e))) python_indicators.
Proof. reflexivity. Qed.

Lemma lower_chr_not_capital (c : ascii) :
  PyStr.between 65 90 (PyStr.lower_chr c) = false.
Proof. destruct c as [[] [] [] [] [] [] [] []]; reflexivity. Qed.

Lemma lower_no_capital (s : string) : has_capital (PyStr.lower s) = false.
Proof.
  induction s as [|c s IH]; [done|]. cbn [PyStr.lower has_capital].
  by rewrite lower_chr_not_capital, IH.
Qed.

Lemma startswith_capital (p t : string) :
  PyStr.startswith p t = true → has_capital p = true → has_capital t = true.
Proof.
  revert t. induction p as [|a p IH]; intros t; [done|].
  destruct t as [|b t]; [done|]. cbn [PyStr.startswith has_capital].
  intros [Hab Hp]%andb_prop. apply Ascii.eqb_eq in Hab. subst b.
  destruct (PyStr.between 65 90 a); [done|]. simpl. by apply IH.
Qed.

Lemma startswith_no_capital (p t : string) :
  has_capital p = true → has_capital t = false → PyStr.startswith p t = false.
Proof.
  intros Hp Ht. destruct (PyStr.startswith p t) eqn:E; [|done].
  by rewrite (startswith_capital p t E Hp) in Ht.
Qed.

Lemma count_from_no_capital (p t : string) (skip : nat) :
  has_capital p = true → has_capital t = false → PyStr.count_from skip p t = 0.
Proof.
  intros Hp. revert skip. induction t as [|c t IH]; intros skip Ht; [done|].
  cbn [PyStr.count_from].
  pose proof Ht as Ht'. cbn [has_capital] in Ht'.
  apply orb_false_elim in Ht' as [_ Ht'].
  destruct skip; [|by apply IH].
  rewrite (startswith_no_capital p _ Hp Ht). by apply IH.
Qed.

Lemma count_no_capital (p t : string) :
  has_capital p = true → has_capital t = false → PyStr.count p t = 0.
Proof.
  intros Hp Ht. unfold PyStr.count. destruct p; [done|].
  by apply count_from_no_capital.
Qed.

Lemma contains_no_capital (p t : string) :
  has_capital p = true → has_capital t = false → PyStr.contains p t = false.
Proof.
  intros Hp. induction t as [|c t IH]; intros Ht.
  - cbn [PyStr.contains]. by rewrite (startswith_no_capital p _ Hp Ht).
  - cbn [PyStr.contains]. rewrite (startswith_no_capital p _ Hp Ht).
    cbn [has_capital] in Ht. apply orb_false_elim in Ht as [_ Ht]. by apply IH.
Qed.

(** Entries with a capital letter add nothing to a score, are never
    counted as present, and never make the tie-break succeed. *)
Lemma score_of_no_capital (code : string) (l : list (string * nat)) :
  has_capital code = false →
  score_of code l
  = score_of code (List.filter (fun e => negb (has_capital (fst e))) l).
Proof.
  intros Hc. unfold score_of. generalize 0.
  induction l as [|[ind weight] l IH]; intros acc; [done|].
  cbn [fold_left List.filter fst].
  destruct (has_capital ind) eqn:E; cbn [negb fold_left].
  - rewrite (count_no_capital ind code E Hc), Nat.mul_0_l, Nat.add_0_r. apply IH.
  - apply IH.
Qed.

Lemma present_no_capital (code : string) (l : list (string * nat)) :
  has_capital code = false →
  List.filter (fun '(ind, _) => PyStr.contains ind code) l
  = List.filter (fun '(ind, _) => PyStr.contains ind code)
      (List.filter (fun e => negb (has_capital (fst e))) l).
Proof.
  intros Hc. induction l as [|[ind weight] l IH]; [done|].
  cbn [List.filter fst].
  destruct (has_capital ind) eqn:E; cbn [negb List.filter].
  - by rewrite (contains_no_capital ind code E Hc).
  - by rewrite IH.
Qed.

Lemma any_present_no_capital (code : string) (l : list (string * nat)) :
  has_capital code = false →
  existsb (fun '(ind, _) => PyStr.contains ind code) l
  = existsb (fun '(ind, _) => PyStr.contains ind code)
      (List.filter (fun e => negb (has_capital (fst e))) l).
Proof.
  intros Hc. induction l as [|[ind weight] l IH]; [done|].
  cbn [List.filter existsb fst].
  destruct (has_capital ind) eqn:E; cbn [negb existsb].
  - by rewrite (contains_no_capital ind code E Hc).
  - by rewrite IH.
Qed.

(** The guess only depends on the python list through the python score,
    the indicators present in the text, and whether any is present. *)
Lemma guess_language_with_ext (python1 python2 : list (string * nat)) (code : string) :
  let code' := PyStr.lower (PyStr.strip code) in
  score_of code' python1 = score_of code' python2 →
  length (List.filter (fun '(ind, _) => PyStr.contains ind code') python1)
  = length (List.filter (fun '(ind, _) => PyStr.contains ind code') python2) →
  existsb (fun '(ind, _) => PyStr.contains ind code') python1
  = existsb (fun '(ind, _) => PyStr.contains ind code') python2 →
  guess_language_with python1 code = guess_language_with python2 code.
Proof.
  intros code' H1 H2 H3. unfold guess_language_with, indicators_with.
  fold code'. cbn [fmap list_fmap]. by rewrite H1, H2, H3.
Qed.

(** C9. The snippet is lowercased before the indicators are counted, so the
    indicators [None], [True] and [False] never occur in the searched text
    and add zero to every score: for every input [_guess_language] answers
    what the function with these three entries removed answers. *)
Theorem guess_language_capitalised_indicators_dead :
  (∀ code ind : string,
     ind ∈ ["None"; "True"; "False"] →
     PyStr.count ind (PyStr.lower (PyStr.strip code)) = 0
     ∧ PyStr.contains ind (PyStr.lower (PyStr.strip code)) = false)
  ∧ ∀ code : string,
      _guess_language code = _guess_language_lowercase_table code.
Proof.
  split.
  - intros code ind Hin.
    assert (Hcap : has_capital ind = true).
    { repeat (apply elem_of_cons in Hin as [->|Hin]; [done|]).
      by apply elem_of_nil in Hin. }
    split.
    + apply count_no_capital; [done | apply lower_no_capital].
    + apply contains_no_capital; [done | apply lower_no_capital].
  - intros code. unfold _guess_language, _guess_language_lowercase_table.
    rewrite python_indicators_lowercase_eq.
    pose proof (lower_no_capital (PyStr.strip code)) as Hc.
    apply guess_language_with_ext.
    + by apply score_of_no_capital.
    + f_equal. by apply present_no_capital.
    + by apply any_present_no_capital.
Qed.

Lemma guess_language_capitalised_indicators_dead_witness :
  PyStr.count "None" (PyStr.lower (PyStr.strip "x = None if True else False")) = 0
  ∧ PyStr.contains "None" (PyStr.lower (PyStr.strip "x = None if True else False"))
    = false.
Proof.
  apply (proj1 guess_language_capitalised_indicators_dead).
  apply list_elem_of_here.
Defined.

End LanguageGuesser.

(** ** Code analyzer *)

Section AnalyzerProperties.
Import CodeAnalyzer.

Context {FunctionInfo ClassInfo : Type}.
Variable ast_parse : string -> parse_result.
Variable differ_compare : list string -> list string -> string + list string.
Variable repr_set : gset nat -> string.
Variable ASTAnalyzer_visit :
  ast -> option (gset string) -> string + ASTAnalysis FunctionInfo ClassInfo.
Variable frames : nat.
Variable recursion_error : string.

Local Abbreviation analyze :=
  (analyze_code FunctionInfo ClassInfo ast_parse differ_compare repr_set
     ASTAnalyzer_visit frames recursion_error).
Local Abbreviation body :=
  (analyze_code_body FunctionInfo ClassInfo ast_parse differ_compare repr_set
     ASTAnalyzer_visit frames recursion_error).
Local Abbreviation changes_of :=
  (changes_of_diff FunctionInfo ClassInfo ast_parse frames recursion_error).

(** *** The two ways out of [analyze_code] *)

Lemma analyze_code_returned (code : string) (file_info : option (gmap string string))
    (active_rules : option (gset string))
    (cache : gmap string (Snapshot FunctionInfo ClassInfo))
    (returned : AnalysisResult FunctionInfo ClassInfo
                * gmap string (Snapshot FunctionInfo ClassInfo)) :
  body code file_info active_rules cache = inr returned →
  analyze code file_info active_rules cache = returned.
Proof. intros H. unfold analyze_code. by rewrite H. Qed.

Lemma analyze_code_raised (code : string) (file_info : option (gmap string string))
    (active_rules : option (gset string))
    (cache : gmap string (Snapshot FunctionInfo ClassInfo)) (e : string) :
  body code file_info active_rules cache = inl e →
  analyze code file_info active_rules cache
  = (error_result FunctionInfo ClassInfo, cache).
Proof. intros H. unfold analyze_code. by rewrite H. Qed.

(** *** Parse failure *)

Lemma _analyze_complexity_parse_failure (room : nat) (code msg : string) :
  parse_error (ast_parse code) = Some msg →
  _analyze_complexity ast_parse recursion_error room code
  = inr (list_to_map [("cognitive_load", 0%Z); ("nesting_depth", 0%Z);
                      ("branches", 0%Z)]).
Proof.
  unfold _analyze_complexity. by destruct (ast_parse code).
Qed.

(** With a text that does not parse the body ends in an exception only
    when the comparison with the version remembered under the name of the
    file raises one. *)
Lemma analyze_code_body_parse_failure (code : string)
    (file_info : option (gmap string string)) (active_rules : option (gset string))
    (cache : gmap string (Snapshot FunctionInfo ClassInfo)) (msg e : string) :
  parse_error (ast_parse code) = Some msg →
  body code file_info active_rules cache = inl e
  ↔ ∃ fi name previous,
      file_info = Some fi ∧ fi !! "name" = Some name ∧ cache !! name = Some previous
      ∧ differ_compare (PyStr.splitlines (snap_code previous)) (PyStr.splitlines code)
        = inl e.
Proof.
  intros Hparse. unfold analyze_code_body.
  rewrite (_analyze_complexity_parse_failure _ _ _ Hparse).
  destruct file_info as [fi|]; [|split; [done | by intros (? & ? & ? & ? & _)]].
  destruct (fi !! "name") as [name|] eqn:Ename;
    [|split; [done | intros (? & ? & ? & [= <-] & ? & _); congruence]].
  destruct (cache !! name) as [previous|] eqn:Ecache;
    [|split; [done | intros (? & ? & ? & [= <-] & ? & ? & _); congruence]].
  unfold _analyze_changes.
  destruct (differ_compare _ _) as [e'|diff] eqn:Ediff.
  - split.
    + intros [= <-]. by exists fi, name, previous.
    + intros (fi' & name' & previous' & [= <-] & Hn & Hc & Hd).
      rewrite Ename in Hn. injection Hn as <-. rewrite Ecache in Hc.
      injection Hc as <-. congruence.
  - split; [done|].
    intros (fi' & name' & previous' & [= <-] & Hn & Hc & Hd).
    rewrite Ename in Hn. injection Hn as <-. rewrite Ecache in Hc.
    injection Hc as <-. congruence.
Qed.

Lemma analyze_code_issues_prefix (code : string)
    (file_info : option (gmap string string)) (active_rules : option (gset string))
    (cache : gmap string (Snapshot FunctionInfo ClassInfo)) (msg : string)
    (returned : AnalysisResult FunctionInfo ClassInfo
                * gmap string (Snapshot FunctionInfo ClassInfo)) :
  parse_error (ast_parse code) = Some msg →
  body code file_info active_rules cache = inr returned →
  issues (fst returned)
  = [match ast_parse code with
     | SyntaxError _ => "Il codice contiene errori di sintassi"
     | _ => "Errore nell'analisi AST: " +:+ msg
     end]
    ++ _analyze_style repr_set code
    ++ p_issues (_analyze_patterns code)
    ++ _analyze_security code file_info
  ∧ complexity (fst returned)
    = list_to_map [("cognitive_load", 0%Z); ("nesting_depth", 0%Z); ("branches", 0%Z)]
  ∧ functions (fst returned) = [] ∧ classes (fst returned) = []
  ∧ imports (fst returned) = [] ∧ dependencies (fst returned) = [].
Proof.
  intros Hparse. unfold analyze_code_body.
  rewrite (_analyze_complexity_parse_failure _ _ _ Hparse).
  match goal with
  | |- match ?compared with inl _ => _ | inr _ => _ end = _ → _ =>
      destruct compared as [e|changes]; [done|]
  end.
  intros [= <-]. cbn [fst issues complexity functions classes imports dependencies].
  destruct (ast_parse code) as [tree|msg'|msg']; [done|..];
    cbn in Hparse; injection Hparse as ->;
    cbn [a_issues a_functions a_classes a_imports a_dependencies];
    by rewrite <- !app_assoc.
Qed.

(** C7, amended.  For every input on which [ast.parse] raises an
    exception, [analyze_code] returns a result (an exception of its body
    is caught by its outer handler) whose complexity counters are all
    zero and whose functions, classes, imports and dependencies are
    empty.  When the body returns, the issues hold the syntax-error
    message if the exception is a [SyntaxError], and the message of the
    general handler with the text of the exception otherwise.  The body
    ends in an exception only when the comparison with the version
    remembered under the name of the file raises one; the issues are then
    those of the outer handler. *)
Theorem analyze_code_parse_failure (code : string)
    (file_info : option (gmap string string)) (active_rules : option (gset string))
    (cache : gmap string (Snapshot FunctionInfo ClassInfo)) (msg : string) :
  parse_error (ast_parse code) = Some msg →
  let result := fst (analyze code file_info active_rules cache) in
  map_Forall (fun _ v => v = 0%Z) (complexity result)
  ∧ complexity result !! "cognitive_load" = Some 0%Z
  ∧ complexity result !! "nesting_depth" = Some 0%Z
  ∧ functions result = []
  ∧ classes result = []
  ∧ imports result = []
  ∧ dependencies result = []
  ∧ match body code file_info active_rules cache with
    | inr _ =>
        complexity result !! "branches" = Some 0%Z
        ∧ match ast_parse code with
          | SyntaxError _ => "Il codice contiene errori di sintassi" ∈ issues result
          | _ => "Errore nell'analisi AST: " +:+ msg ∈ issues result
          end
    | inl e =>
        issues result = ["Errore durante l'analisi"]
        ∧ ∃ fi name previous,
            file_info = Some fi ∧ fi !! "name" = Some name
            ∧ cache !! name = Some previous
            ∧ differ_compare (PyStr.splitlines (snap_code previous))
                (PyStr.splitlines code) = inl e
    end.
Proof.
  intros Hparse result. subst result.
  destruct (body code file_info active_rules cache) as [e|returned] eqn:Ebody.
  - rewrite (analyze_code_raised _ _ _ _ _ Ebody). cbn [fst].
    apply (analyze_code_body_parse_failure _ _ _ _ _ _ Hparse) in Ebody.
    repeat split; try done.
    intros k v Hk. apply elem_of_list_to_map_2 in Hk.
    repeat (apply elem_of_cons in Hk as [Hk|Hk]; [by inversion Hk|]).
    by apply elem_of_nil in Hk.
  - rewrite (analyze_code_returned _ _ _ _ _ Ebody).
    destruct (analyze_code_issues_prefix _ _ _ _ _ _ Hparse Ebody)
      as (Hi & -> & -> & -> & -> & ->).
    rewrite Hi. repeat split; try done.
    + intros k v Hk. apply elem_of_list_to_map_2 in Hk.
      repeat (apply elem_of_cons in Hk as [Hk|Hk]; [by inversion Hk|]).
      by apply elem_of_nil in Hk.
    + destruct (ast_parse code); apply elem_of_app; left; apply list_elem_of_here.
Qed.

(** *** Version changes of an unchanged file *)

Lemma dict_set_keys {A} (k k0 : string) (v : A) (d : list (string * A)) :
  k0 ∈ (dict_set k v d).*1 ↔ k0 = k ∨ k0 ∈ d.*1.
Proof.
  induction d as [|[k' v'] d IH]; cbn [dict_set fmap list_fmap fst].
  - rewrite elem_of_cons. cbn [fst]. rewrite elem_of_nil. tauto.
  - destruct (String.eqb k' k) eqn:E; cbn [fmap list_fmap fst].
    + apply String.eqb_eq in E. subst k'. rewrite !elem_of_cons. tauto.
    + rewrite !elem_of_cons. cbn [fmap] in IH. rewrite IH. tauto.
Qed.

Lemma dict_set_NoDup {A} (k : string) (v : A) (d : list (string * A)) :
  NoDup d.*1 → NoDup (dict_set k v d).*1.
Proof.
  induction d as [|[k' v'] d IH]; cbn [dict_set fmap list_fmap fst].
  - intros _. apply NoDup_singleton.
  - intros [Hk' Hd]%NoDup_cons.
    destruct (String.eqb k' k) eqn:E; cbn [fmap list_fmap fst].
    + apply String.eqb_eq in E. subst k'. apply NoDup_cons. by split.
    + apply NoDup_cons. split; [|by apply IH].
      intros Hin. apply (dict_set_keys k k' v d) in Hin as [->|Hin]; [|done].
      by rewrite String.eqb_refl in E.
Qed.

Lemma dict_get_elem {A} (k : string) (v : A) (d : list (string * A)) :
  NoDup d.*1 → (k, v) ∈ d → dict_get k d = Some v.
Proof.
  induction d as [|[k' v'] d IH]; cbn [fmap list_fmap fst].
  - intros _ Hin. by apply elem_of_nil in Hin.
  - intros [Hk' Hd]%NoDup_cons Hin. cbn [dict_get].
    apply elem_of_cons in Hin as [Hin|Hin].
    + inversion Hin. subst. by rewrite String.eqb_refl.
    + destruct (String.eqb k' k) eqn:E; [|by apply IH].
      apply String.eqb_eq in E. subst k'. exfalso. apply Hk'.
      apply list_elem_of_fmap. by exists (k, v).
Qed.

Lemma function_defs_NoDup (tree : ast) : NoDup (function_defs tree).*1.
Proof.
  unfold function_defs.
  assert (Hnil : NoDup ([] : list (string * ast)).*1) by apply NoDup_nil_2.
  revert Hnil. generalize ([] : list (string * ast)).
  induction (walk tree) as [|node nodes IH]; intros d Hd; [done|].
  cbn [fold_left]. apply IH. destruct (cls_of node); auto using dict_set_NoDup.
Qed.

(** Between a version and itself no function is removed or has its number
    of arguments changed. *)
Lemma removed_or_changed_same (d : list (string * ast)) :
  NoDup d.*1 → removed_or_changed d d = [].
Proof.
  intros Hd. unfold removed_or_changed.
  assert (H : ∀ l, (∀ e, e ∈ l → e ∈ d) →
            flat_map (fun '(name, node) =>
              match dict_get name d with
              | None => ["Funzione rimossa: " +:+ name]
              | Some current =>
                  if negb (Nat.eqb (args_count node) (args_count current))
                  then ["Signature cambiata per " +:+ name +:+ ": da "
                        +:+ PyStr.str_of_nat (args_count node) +:+ " a "
                        +:+ PyStr.str_of_nat (args_count current) +:+ " argomenti"]
                  else []
              end) l = []).
  { induction l as [|[name node] l IH]; intros Hl; [done|].
    cbn [flat_map].
    rewrite (dict_get_elem name node d Hd) by (apply Hl, list_elem_of_here).
    rewrite Nat.eqb_refl. cbn [negb app]. apply IH.
    intros e He. apply Hl. by apply elem_of_cons; right. }
  by apply H.
Qed.

Lemma unchanged_line_not_marked (line : string) :
  PyStr.startswith "  " line = true →
  PyStr.startswith "+ " line = false ∧ PyStr.startswith "- " line = false
  ∧ PyStr.startswith "? " line = false.
Proof.
  destruct line as [|c line]; [done|]. cbn [PyStr.startswith].
  intros [Hc _]%andb_prop. apply Ascii.eqb_eq in Hc. by subst c.
Qed.

Lemma count_step_unchanged (diff : list string) (n : nat * nat * nat) :
  Forall (fun line => PyStr.startswith "  " line = true) diff →
  fold_left count_step diff n = n.
Proof.
  intros H. revert n. induction H as [|line diff Hline _ IH]; intros n; [done|].
  cbn [fold_left]. rewrite <- (IH n) at 2. f_equal.
  destruct (unchanged_line_not_marked line Hline) as (H1 & H2 & H3).
  unfold count_step. destruct n as [[a r] m]. by rewrite H1, H2, H3.
Qed.

(** What [_analyze_changes] reports for a snapshot of the same code. *)
Lemma changes_of_diff_same (code : string)
    (previous : Snapshot FunctionInfo ClassInfo) (diff : list string) :
  Forall (fun line => PyStr.startswith "  " line = true) diff →
  snap_code previous = code →
  let changes := changes_of code previous diff in
  lines_added changes = 0%nat ∧ lines_removed changes = 0%nat
  ∧ lines_modified changes = 0%nat ∧ breaking_changes changes = [].
Proof.
  intros Hdiff Hcode. unfold changes_of_diff. rewrite Hcode.
  rewrite (count_step_unchanged _ _ Hdiff).
  destruct (_analyze_complexity _ _ _ _) as [e|current];
    [|destruct (_ !! "cognitive_load") as [c|];
      [destruct (_ !! "cognitive_load") as [p|]|]];
    (destruct (ast_parse code) as [tree|msg|msg];
     [|done..]; cbn; repeat split;
     apply removed_or_changed_same, function_defs_NoDup).
Qed.

(** The body returns once the complexity is computed and the comparison
    with the remembered version, if there is one, returns. *)
Lemma analyze_code_body_complexity (code : string)
    (file_info : option (gmap string string)) (active_rules : option (gset string))
    (cache : gmap string (Snapshot FunctionInfo ClassInfo))
    (returned : AnalysisResult FunctionInfo ClassInfo
                * gmap string (Snapshot FunctionInfo ClassInfo)) :
  body code file_info active_rules cache = inr returned →
  _analyze_complexity ast_parse recursion_error frames code
  = inr (complexity (fst returned))
  ∧ snd returned
    = match name_of file_info with
      | Some name =>
          <[name := {| snap_code := code; snap_analysis := fst returned |}]> cache
      | None => cache
      end.
Proof.
  unfold analyze_code_body.
  destruct (_analyze_complexity _ _ _ _) as [e|c]; [done|].
  match goal with
  | |- match ?compared with inl _ => _ | inr _ => _ end = _ → _ =>
      destruct compared as [e|changes]; [done|]
  end.
  by intros [= <-].
Qed.

(** C8, amended.  When the first of two calls of [analyze_code] under the
    same file name with the same code returns from its body, the second
    result has version changes, and they report no added line, no removed
    line and no breaking change.  The line diff is the one of [difflib],
    of which the proof uses that comparing a sequence with itself returns
    unchanged lines only (lines that start with two blanks).  When the
    first call ends in the outer handler, it remembers nothing. *)
Theorem analyze_code_twice_no_changes (code name : string)
    (file_info1 file_info2 : gmap string string)
    (active_rules1 active_rules2 : option (gset string))
    (cache : gmap string (Snapshot FunctionInfo ClassInfo))
    (first : AnalysisResult FunctionInfo ClassInfo
             * gmap string (Snapshot FunctionInfo ClassInfo)) :
  (∀ a, ∃ diff, differ_compare a a = inr diff
                ∧ Forall (fun line => PyStr.startswith "  " line = true) diff) →
  file_info1 !! "name" = Some name →
  file_info2 !! "name" = Some name →
  body code (Some file_info1) active_rules1 cache = inr first →
  analyze code (Some file_info1) active_rules1 cache = first
  ∧ ∃ changes : VersionChanges,
      version_changes (fst (analyze code (Some file_info2) active_rules2 (snd first)))
      = Some changes
      ∧ lines_added changes = 0%nat
      ∧ lines_removed changes = 0%nat
      ∧ breaking_changes changes = [].
Proof.
  intros Hdiff Hn1 Hn2 Hfirst.
  split; [by apply analyze_code_returned|].
  destruct (analyze_code_body_complexity _ _ _ _ _ Hfirst) as [Hc Hcache].
  cbn [name_of] in Hcache. rewrite Hn1 in Hcache.
  destruct (Hdiff (PyStr.splitlines code)) as (diff & Ediff & Hlines).
  exists (changes_of code {| snap_code := code; snap_analysis := fst first |} diff).
  split.
  - unfold analyze_code, analyze_code_body. rewrite Hc, Hn2, Hcache, lookup_insert_eq.
    unfold _analyze_changes. cbn [snap_code]. by rewrite Ediff.
  - pose proof (changes_of_diff_same code
                  {| snap_code := code; snap_analysis := fst first |} diff
                  Hlines eq_refl) as H.
    cbn zeta in H. tauto.
Qed.

End AnalyzerProperties.

(** *** The analyzer at an instance of its parameters *)

Section AnalyzerInstances.
Import CodeAnalyzer.

Lemma sample_differ_same (a : list string) :
  ∃ diff, sample_differ a a = inr diff
          ∧ Forall (fun line => PyStr.startswith "  " line = true) diff.
Proof.
  unfold sample_differ. rewrite decide_True by done. eexists. split; [done|].
  apply Forall_fmap, Forall_true. intros line. reflexivity.
Qed.

(** C7, as stated, fails when the parser raises another exception than a
    syntax error, as on a text with a NUL character: the issues then hold
    the message of the general handler and no syntax-error message. *)
Lemma analyze_code_parser_exception :
  parse_error (nul_parse nul_text) ≠ None
  ∧ issues (fst (analyze_code unit unit nul_parse sample_differ sample_repr
                   sample_visit sample_frames sample_recursion_error
                   nul_text None None ∅))
    = ["Errore nell'analisi AST: source code string cannot contain null bytes"]
  ∧ "Il codice contiene errori di sintassi"
    ∉ issues (fst (analyze_code unit unit nul_parse sample_differ sample_repr
                     sample_visit sample_frames sample_recursion_error
                     nul_text None None ∅)).
Proof.
  split; [done|].
  assert (E : issues (fst (analyze_code unit unit nul_parse sample_differ sample_repr
                             sample_visit sample_frames sample_recursion_error
                             nul_text None None ∅))
              = ["Errore nell'analisi AST: source code string cannot contain null bytes"])
    by (vm_compute; reflexivity).
  split; [exact E|]. rewrite E. intros H.
  apply list_elem_of_singleton in H. discriminate H.
Qed.

Lemma analyze_code_parse_failure_witness :
  "Il codice contiene errori di sintassi"
    ∈ issues (fst (analyze_code unit unit sample_parse sample_differ sample_repr
                     sample_visit sample_frames sample_recursion_error
                     "def f(:" None None ∅)).
Proof.
  pose proof (analyze_code_parse_failure sample_parse sample_differ sample_repr
                sample_visit sample_frames sample_recursion_error
                "def f(:" None None ∅ "invalid syntax" eq_refl) as H.
  cbv zeta in H. exact (proj2 (proj2 (proj2 (proj2 (proj2 (proj2 (proj2 (proj2 H)))))))).
Defined.

(** C8, as stated, fails on a text whose tree is too deep for the
    complexity visitor, as the sum [1+1+...+1] of 1000 additions: the
    visitor raises a [RecursionError] outside every inner handler, the
    first call ends in the outer handler and remembers nothing, and so
    does the second, whose result has no version changes. *)
Lemma analyze_code_twice_deep_tree :
  let analyze :=
    analyze_code unit unit sum_parse sample_differ sample_repr sample_visit
      sample_frames sample_recursion_error in
  let first := analyze (sum_text 1000) (Some {["name" := "a.py"]}) None ∅ in
  let second := analyze (sum_text 1000) (Some {["name" := "a.py"]}) None (snd first) in
  sum_parse (sum_text 1000)
  = Parsed (Node OtherNode [Node OtherNode [sum_expr 1000]])
  ∧ snd first = ∅
  ∧ version_changes (fst second) = None
  ∧ issues (fst second) = ["Errore durante l'analisi"].
Proof.
  cbv zeta.
  assert (Hraise : ∀ cache,
    analyze_code_body unit unit sum_parse sample_differ sample_repr sample_visit
      sample_frames sample_recursion_error (sum_text 1000)
      (Some {["name" := "a.py"]}) None cache
    = inl sample_recursion_error).
  { intros cache. unfold analyze_code_body.
    assert (E : _analyze_complexity sum_parse sample_recursion_error sample_frames
                  (sum_text 1000) = inl sample_recursion_error)
      by (vm_compute; reflexivity).
    by rewrite E. }
  split; [vm_compute; reflexivity|].
  unfold analyze_code. rewrite !Hraise. cbn [fst snd]. rewrite ?Hraise. done.
Qed.

Lemma analyze_code_twice_no_changes_witness :
  ∃ changes : VersionChanges,
    version_changes
      (fst (analyze_code unit unit sample_parse sample_differ sample_repr sample_visit
              sample_frames sample_recursion_error
              "def f(x): pass" (Some {["name" := "a.py"]}) None
              (snd (analyze_code unit unit sample_parse sample_differ sample_repr
                      sample_visit sample_frames sample_recursion_error
                      "def f(x): pass" (Some {["name" := "a.py"]}) None ∅))))
    = Some changes
    ∧ lines_added changes = 0%nat
    ∧ lines_removed changes = 0%nat
    ∧ breaking_changes changes = [].
Proof.
  refine (proj2 (analyze_code_twice_no_changes sample_parse sample_differ sample_repr
                   sample_visit sample_frames sample_recursion_error
                   "def f(x): pass" "a.py" {["name" := "a.py"]}
                   {["name" := "a.py"]} None None ∅ _ sample_differ_same _ _ _)).
  - vm_compute. reflexivity.
  - vm_compute. reflexivity.
  - unfold analyze_code.
    destruct (analyze_code_body _ _ _ _ _ _ _ _ _ _ _ _) as [e|returned] eqn:E;
      [|reflexivity].
    exfalso. revert E. vm_compute. discriminate.
Defined.

End AnalyzerInstances.

(** ** Matching lemmas for the regular expressions of the code-block
    detector *)

Section Matching.
Import Re.


Lemma append_cons (c : ascii) (s t : string) :
  String c s +:+ t = String c (s +:+ t).
Proof. reflexivity. Qed.

Lemma append_empty_l (t : string) : EmptyString +:+ t = t.
Proof. reflexivity. Qed.

Lemma append_empty_r (s : string) : s +:+ EmptyString = s.
Proof. induction s as [|c s IH]; [done|]. by rewrite append_cons, IH. Qed.

Lemma append_assoc (s t u : string) : (s +:+ t) +:+ u = s +:+ (t +:+ u).
Proof. induction s as [|c s IH]; [done|]. by rewrite !append_cons, IH. Qed.

Lemma length_append (s t : string) :
  String.length (s +:+ t) = (String.length s + String.length t)%nat.
Proof. induction s as [|c s IH]; [done|]. rewrite append_cons. simpl. by rewrite IH. Qed.

Lemma slice_to_append (s t : string) :
  PyStr.slice_to (String.length s) (s +:+ t) = s.
Proof.
  induction s as [|c s IH]; [by destruct t|]. rewrite append_cons. simpl. by rewrite IH.
Qed.

Lemma slice_from_append (s t : string) :
  PyStr.slice_from (String.length s) (s +:+ t) = t.
Proof. induction s as [|c s IH]; [done|]. rewrite append_cons. simpl. by rewrite IH. Qed.

Lemma consumed_append (s t : string) : consumed (s +:+ t) t = s.
Proof.
  unfold consumed. rewrite length_append.
  replace (String.length s + String.length t - String.length t)%nat
    with (String.length s) by lia.
  apply slice_to_append.
Qed.

Lemma startswith_append (s t : string) : PyStr.startswith s (s +:+ t) = true.
Proof.
  induction s as [|c s IH]; [done|]. rewrite append_cons. cbn [PyStr.startswith].
  by rewrite Ascii.eqb_refl, IH.
Qed.

Lemma last_chr_append (before : option ascii) (s t : string) :
  last_chr before (s +:+ t) = last_chr (last_chr before s) t.
Proof.
  revert before. induction s as [|c s IH]; intros before; [done|].
  rewrite append_cons. cbn [last_chr]. apply IH.
Qed.

(** A literal character. *)
Lemma rmatch_Chr (fl : flags) (c : ascii) (st : mstate) (k : mstate -> option mstate) :
  rmatch fl (Chr c) st k
  = match rest st with
    | String a s' => if Ascii.eqb c a then k (advance a s' st) else None
    | EmptyString => None
    end.
Proof. reflexivity. Qed.

Lemma rmatch_Cls (fl : flags) (p : ascii -> bool) (st : mstate)
    (k : mstate -> option mstate) :
  rmatch fl (Cls p) st k = one_char p st k.
Proof. reflexivity. Qed.

Lemma rmatch_Dot (fl : flags) (st : mstate) (k : mstate -> option mstate) :
  rmatch fl Dot st k = one_char (fun a => DOTALL fl || negb (is_newline a)) st k.
Proof. reflexivity. Qed.

(** A literal text: it is read when the input starts with it. *)
Lemma rmatch_Str (fl : flags) (s : string) (st : mstate) (k : mstate -> option mstate) :
  rmatch fl (Str s) st k
  = if PyStr.startswith s (rest st)
    then k {| prev := last_chr (prev st) s;
              rest := PyStr.slice_from (String.length s) (rest st);
              groups := groups st |}
    else None.
Proof.
  revert st. induction s as [|c s IH]; intros st.
  - by destruct st.
  - assert (Hcat : rmatch fl (Str (String c s)) st k
                   = rmatch fl (Chr c) st (fun st' => rmatch fl (Str s) st' k)).
    { destruct s; [|reflexivity]. cbn [Str rmatch]. unfold one_char.
      destruct (rest st); [done|]. by destruct (Ascii.eqb c a). }
    rewrite Hcat, rmatch_Chr. destruct (rest st) as [|a r] eqn:E; [done|].
    cbn [PyStr.startswith]. destruct (Ascii.eqb c a) eqn:Eca; [|done].
    apply Ascii.eqb_eq in Eca. subst a. rewrite IH. by cbn.
Qed.

Lemma shorter_advance (a : ascii) (s' : string) (st : mstate) :
  rest st = String a s' → shorter (advance a s' st) st = true.
Proof.
  intros H. unfold shorter. rewrite H. cbn [rest advance String.length].
  apply Nat.ltb_lt. lia.
Qed.

(** A greedy repetition of a character class reads a whole run of
    characters of the class, up to a character outside of it, when the
    continuation accepts what follows. *)
Lemma star_greedy_run (fl : flags) (p : ascii -> bool)
    (k : mstate -> option mstate) (run tail : string) (res : mstate) :
  ∀ (n : nat) (before : option ascii) (g : list (nat * string)),
    all_chars p run = true →
    starts_outside p tail = true →
    (String.length run ≤ n)%nat →
    k {| prev := last_chr before run; rest := tail; groups := g |} = Some res →
    star_loop Greedy (rmatch fl (Cls p)) k n
      {| prev := before; rest := run +:+ tail; groups := g |} = Some res.
Proof.
  induction run as [|c run IH]; intros n before g Hall Hout Hn Hk.
  - rewrite append_empty_l. cbn [last_chr] in Hk.
    destruct n as [|n]; [exact Hk|]. cbn [star_loop]. rewrite Hk, rmatch_Cls.
    unfold one_char. cbn [rest]. destruct tail as [|a tail]; [done|].
    cbn [starts_outside] in Hout. apply negb_true_iff in Hout. by rewrite Hout.
  - cbn [all_chars] in Hall. apply andb_prop in Hall as [Hc Hall].
    destruct n as [|n]; [simpl in Hn; lia|].
    rewrite append_cons. cbn [star_loop]. rewrite rmatch_Cls.
    unfold one_char. cbn [rest].
    rewrite Hc, shorter_advance by done.
    unfold advance. cbn [groups].
    rewrite (IH n (Some c) g Hall); [done | done | simpl in Hn; lia | exact Hk].
Qed.

(** A lazy repetition of any character stops at the first position, from
    the left, where the continuation succeeds. *)
Lemma star_lazy_first (fl : flags) (k : mstate -> option mstate) (v : string)
    (g : list (nat * string)) (res : mstate) :
  DOTALL fl = true →
  ∀ (u : string) (n : nat) (before : option ascii),
    (String.length u ≤ n)%nat →
    (∀ u1 c u2, u = u1 +:+ String c u2 →
       k {| prev := last_chr before u1; rest := String c u2 +:+ v; groups := g |}
       = None) →
    k {| prev := last_chr before u; rest := v; groups := g |} = Some res →
    star_loop Lazy (rmatch fl Dot) k n
      {| prev := before; rest := u +:+ v; groups := g |} = Some res.
Proof.
  intros Hfl. induction u as [|c u IH]; intros n before Hn Hfail Hk.
  - rewrite append_empty_l. cbn [last_chr] in Hk.
    destruct n as [|n]; [exact Hk|]. cbn [star_loop]. by rewrite Hk.
  - destruct n as [|n]; [simpl in Hn; lia|].
    pose proof (Hfail EmptyString c u eq_refl) as Hhere. cbn [last_chr] in Hhere.
    cbn [star_loop]. rewrite Hhere.
    rewrite append_cons, rmatch_Dot. unfold one_char. cbn [rest].
    rewrite Hfl. cbn [orb]. rewrite shorter_advance by done.
    unfold advance. cbn [groups]. apply IH.
    + simpl in Hn. lia.
    + intros u1 c' u2 Hu. apply (Hfail (String c u1) c' u2).
      by rewrite append_cons, Hu.
    + exact Hk.
Qed.

Lemma rmatch_Cat (fl : flags) (r1 r2 : regex) (st : mstate)
    (k : mstate -> option mstate) :
  rmatch fl (Cat r1 r2) st k = rmatch fl r1 st (fun st' => rmatch fl r2 st' k).
Proof. reflexivity. Qed.

Lemma rmatch_Alt (fl : flags) (r1 r2 : regex) (st : mstate)
    (k : mstate -> option mstate) :
  rmatch fl (Alt r1 r2) st k
  = match rmatch fl r1 st k with
    | Some m => Some m
    | None => rmatch fl r2 st k
    end.
Proof. reflexivity. Qed.

Lemma rmatch_Group (fl : flags) (n : nat) (r : regex) (st : mstate)
    (k : mstate -> option mstate) :
  rmatch fl (Group n r) st k
  = rmatch fl r st (fun st' => k (set_group n (consumed (rest st) (rest st')) st')).
Proof. reflexivity. Qed.

Lemma rmatch_Star (fl : flags) (g : greed) (r : regex) (st : mstate)
    (k : mstate -> option mstate) :
  rmatch fl (Star g r) st k
  = star_loop g (rmatch fl r) k (String.length (rest st)) st.
Proof. reflexivity. Qed.

Lemma rmatch_Eps (fl : flags) (st : mstate) (k : mstate -> option mstate) :
  rmatch fl Eps st k = k st.
Proof. reflexivity. Qed.

Lemma rmatch_Chr_here (fl : flags) (c : ascii) (p : option ascii) (s : string)
    (g : list (nat * string)) (k : mstate -> option mstate) :
  rmatch fl (Chr c) {| prev := p; rest := String c s; groups := g |} k
  = k {| prev := Some c; rest := s; groups := g |}.
Proof. rewrite rmatch_Chr. cbn [rest]. by rewrite Ascii.eqb_refl. Qed.

Lemma consumed_all (s : string) : consumed s EmptyString = s.
Proof. rewrite <- (append_empty_r s) at 1. apply consumed_append. Qed.

Lemma search_from_here (fl : flags) (r : regex) (p : option ascii) (s : string)
    (m : match_obj) :
  match_here fl r p s = Some m → search_from fl r p s = Some m.
Proof. intros H. destruct s; cbn [search_from]; by rewrite H. Qed.

(** A match of the whole text is the only one that [finditer] yields. *)
Lemma finditer_single (fl : flags) (r : regex) (s : string) (m : match_obj) :
  match_here fl r None s = Some m →
  group0 m ≠ EmptyString →
  rest (m_end m) = EmptyString →
  match_here fl r (prev (m_end m)) EmptyString = None →
  finditer fl r s = [m].
Proof.
  intros Hm Hne Hrest Hend. unfold finditer. cbn [finditer_from].
  rewrite (search_from_here _ _ _ _ _ Hm), Hrest.
  destruct (group0 m) as [|c g0]; [done|].
  destruct (String.length s); cbn [finditer_from search_from]; [done|].
  by rewrite Hend.
Qed.

(** *** Where a fence of three backticks can start *)

Lemma contains_suffix (p u x : string) :
  PyStr.contains p (u +:+ x) = false → PyStr.contains p x = false.
Proof.
  induction u as [|c u IH]; [done|]. rewrite append_cons. cbn [PyStr.contains].
  intros [_ H]%orb_false_elim. by apply IH.
Qed.

Lemma contains_false_startswith (p x : string) :
  PyStr.contains p x = false → PyStr.startswith p x = false.
Proof. destruct x; cbn [PyStr.contains]; by intros [H _]%orb_false_elim. Qed.

Lemma no_fence_before_newline (x y : string) :
  PyStr.contains "```" x = false →
  PyStr.startswith "```" (x +:+ String "010" y) = false.
Proof.
  intros H%contains_false_startswith.
  destruct x as [|c1 [|c2 [|c3 x]]]; rewrite ?append_cons, ?append_empty_l.
  - reflexivity.
  - cbn. by destruct (Ascii.eqb "`" c1).
  - cbn. by destruct (Ascii.eqb "`" c1), (Ascii.eqb "`" c2).
  - cbn in H |- *. exact H.
Qed.

Lemma word_not_backtick (c : ascii) : is_word c = true → Ascii.eqb "`" c = false.
Proof.
  destruct (Ascii.eqb "`" c) eqn:E; [|done]. apply Ascii.eqb_eq in E. subst c.
  intros H. vm_compute in H. discriminate.
Qed.

Lemma word_not_newline (c : ascii) : is_word c = true → Ascii.eqb "010" c = false.
Proof.
  destruct (Ascii.eqb "010" c) eqn:E; [|done]. apply Ascii.eqb_eq in E. subst c.
  intros H. vm_compute in H. discriminate.
Qed.

Lemma word_no_fence (lang y : string) :
  all_chars is_word lang = true →
  PyStr.contains "```" y = false →
  PyStr.contains "```" (lang +:+ y) = false.
Proof.
  intros Hw Hy. induction lang as [|c lang IH]; [done|].
  cbn [all_chars] in Hw. apply andb_prop in Hw as [Hc Hw].
  rewrite append_cons. cbn [PyStr.contains PyStr.startswith].
  rewrite (word_not_backtick c Hc). cbn [andb orb]. by apply IH.
Qed.


Lemma closing_fail (fl : flags) (p : option ascii) (c : ascii) (u2 : string)
    (g : list (nat * string)) (k : mstate -> option mstate) :
  PyStr.contains "```" (String c u2) = false →
  rmatch fl closing
    {| prev := p; rest := String c u2 +:+ String "010" "```"; groups := g |} k
  = None.
Proof.
  intros H. unfold closing. rewrite rmatch_Cat, rmatch_Chr, append_cons. cbn [rest].
  destruct (Ascii.eqb "010" c); [|done].
  rewrite rmatch_Str. cbn [rest advance].
  rewrite no_fence_before_newline; [done|].
  by apply (contains_suffix _ (String c EmptyString)).
Qed.

End Matching.

(** ** Code-block detector *)

Section CodeBlocks.
Import Re ChatInterface.


Lemma is_tag_elim (lang : string) :
  is_tag lang = true →
  lang ≠ EmptyString ∧ all_chars is_word lang = true.
Proof.
  unfold is_tag. intros [H1 H2]%andb_prop. split; [|done].
  intros ->. done.
Qed.

(** The pattern with a language tag matches the whole snippet. *)
Lemma match_with_lang (lang code : string) :
  is_tag lang = true →
  PyStr.contains "```" code = false →
  rmatch re_DOTALL pattern_with_lang
    {| prev := None; rest := fenced lang code; groups := [] |} Some
  = Some {| prev := Some "`"%char; rest := EmptyString;
            groups := [(2%nat, code); (1%nat, lang)] |}.
Proof.
  intros [Hne Hw]%is_tag_elim Hc. unfold pattern_with_lang, fenced.
  cbn [cats]. rewrite rmatch_Cat, rmatch_Str. cbn [rest prev groups].
  rewrite startswith_append, slice_from_append. cbn [last_chr].
  rewrite rmatch_Cat. unfold Opt. rewrite rmatch_Alt.
  destruct lang as [|c lang]; [done|].
  cbn [all_chars] in Hw. apply andb_prop in Hw as [Hwc Hw].
  match goal with
  | |- match ?x with _ => _ end = Some ?r =>
      assert (E : x = Some r); [|by rewrite E]
  end.
  rewrite rmatch_Group. unfold Plus. rewrite rmatch_Cat, rmatch_Cls.
  rewrite append_cons. unfold one_char. cbn [rest]. rewrite Hwc.
  rewrite rmatch_Star. unfold advance. cbn [rest groups].
  apply star_greedy_run; [done | done | rewrite !length_append; lia |].
  cbn [rest]. rewrite <- append_cons, consumed_append.
  unfold set_group. cbn [rest prev groups List.filter].
  rewrite rmatch_Cat, rmatch_Chr_here.
  rewrite rmatch_Cat, rmatch_Group, rmatch_Star. cbn [rest].
  apply star_lazy_first; [done | rewrite !length_append; lia | |].
  - intros u1 c' u2 Hu. unfold set_group. cbn [rest prev groups].
    apply (closing_fail re_DOTALL). apply (contains_suffix _ u1). by rewrite <- Hu.
  - rewrite consumed_append. reflexivity.
Qed.

(** The pattern without a language tag matches the whole snippet too. *)
Lemma match_without_lang (lang code : string) :
  is_tag lang = true →
  PyStr.contains "```" code = false →
  rmatch re_DOTALL pattern_without_lang
    {| prev := None; rest := fenced lang code; groups := [] |} Some
  = Some {| prev := Some "`"%char; rest := EmptyString;
            groups := [(1%nat, lang +:+ String "010" code)] |}.
Proof.
  intros [Hne Hw]%is_tag_elim Hc. unfold pattern_without_lang, fenced.
  cbn [cats]. rewrite rmatch_Cat, rmatch_Str. cbn [rest prev groups].
  rewrite startswith_append, slice_from_append. cbn [last_chr].
  rewrite rmatch_Cat. unfold Opt at 1. rewrite rmatch_Alt.
  assert (Hfirst : ∀ k,
            rmatch re_DOTALL (Chr "010")
              {| prev := Some "`"%char;
                 rest := lang +:+ String "010" (code +:+ String "010" "```");
                 groups := [] |} k = None).
  { intros k. destruct lang as [|c lang]; [done|].
    cbn [all_chars] in Hw. apply andb_prop in Hw as [Hwc _].
    rewrite rmatch_Chr, append_cons. cbn [rest]. by rewrite (word_not_newline c Hwc). }
  rewrite Hfirst, rmatch_Eps.
  rewrite rmatch_Cat, rmatch_Group, rmatch_Star. cbn [rest].
  replace (lang +:+ String "010" (code +:+ String "010" "```"))
    with ((lang +:+ String "010" code) +:+ String "010" "```")
    by (by rewrite append_assoc, append_cons).
  assert (Hu : PyStr.contains "```" (lang +:+ String "010" code) = false).
  { apply word_no_fence; [done|]. cbn [PyStr.contains]. by rewrite Hc. }
  apply star_lazy_first; [done | rewrite !length_append; lia | |].
  - intros u1 c u2 Hsplit. unfold set_group. cbn [rest prev groups].
    assert (Hsuf : PyStr.contains "```" (String c u2) = false).
    { apply (contains_suffix _ u1). by rewrite <- Hsplit. }
    rewrite rmatch_Cat. unfold Opt. rewrite rmatch_Alt.
    rewrite <- (rmatch_Cat re_DOTALL (Chr "010") (Str "```")).
    fold closing. rewrite (closing_fail re_DOTALL) by done.
    rewrite rmatch_Eps, rmatch_Str. cbn [rest].
    by rewrite no_fence_before_newline.
  - rewrite consumed_append. reflexivity.
Qed.

(** C4, as stated, fails at the fenced block around the indented line
    [    return x] with the tag [py]: the code of the block is stripped of
    its leading and trailing white space, so it is not the enclosed code
    verbatim. *)
Lemma detect_code_blocks_not_verbatim :
  is_tag "py" = true
  ∧ _detect_code_blocks (fenced "py" "    return x")
    = [{| language := "py"; code := "return x";
          original := fenced "py" "    return x" |}]
  ∧ ChatInterface.code
      {| language := "py"; code := "return x";
         original := fenced "py" "    return x" |} ≠ "    return x".
Proof. vm_compute. repeat split; discriminate. Qed.

(** A run of three backticks inside the enclosed code makes the pattern
    without language tag match a shorter text, which is added as a second
    block. *)
Example detect_code_blocks_inner_fence :
  length (_detect_code_blocks (fenced "py" "a ``` b")) = 2.
Proof. vm_compute. reflexivity. Qed.

(** C4, amended. For every snippet that consists of one fenced block with
    a language tag (a non-empty run of word characters) around a code that
    holds no run of three backticks, [_detect_code_blocks] returns exactly
    one block: its language is the tag, its code is the enclosed code
    stripped of leading and trailing white space (the enclosed code itself
    when it has none), and its original text is the snippet. *)
Theorem detect_code_blocks_single_fence (lang code : string) :
  is_tag lang = true →
  PyStr.contains "```" code = false →
  _detect_code_blocks (fenced lang code)
  = [{| language := lang; code := PyStr.strip code;
        original := fenced lang code |}]
  ∧ (PyStr.strip code = code →
     _detect_code_blocks (fenced lang code)
     = [{| language := lang; code := code; original := fenced lang code |}]).
Proof.
  intros Htag Hc.
  assert (Main : _detect_code_blocks (fenced lang code)
                 = [{| language := lang; code := PyStr.strip code;
                       original := fenced lang code |}]).
  { unfold _detect_code_blocks.
    rewrite (finditer_single re_DOTALL pattern_with_lang (fenced lang code)
               {| group0 := fenced lang code;
                  m_groups := [(2%nat, code); (1%nat, lang)];
                  m_end := {| prev := Some "`"%char; rest := EmptyString;
                              groups := [(2%nat, code); (1%nat, lang)] |} |}).
    2:{ unfold match_here. rewrite match_with_lang by done.
        cbn [rest groups]. by rewrite consumed_all. }
    2:{ done. }
    2:{ reflexivity. }
    2:{ reflexivity. }
    rewrite (finditer_single re_DOTALL pattern_without_lang (fenced lang code)
               {| group0 := fenced lang code;
                  m_groups := [(1%nat, lang +:+ String "010" code)];
                  m_end := {| prev := Some "`"%char; rest := EmptyString;
                              groups := [(1%nat, lang +:+ String "010" code)] |} |}).
    2:{ unfold match_here. rewrite match_without_lang by done.
        cbn [rest groups]. by rewrite consumed_all. }
    2:{ done. }
    2:{ reflexivity. }
    2:{ reflexivity. }
    cbn [fmap list_fmap fold_left existsb original group0 orb].
    rewrite String.eqb_refl. cbn [orb].
    unfold group. cbn. unfold or_text.
    apply is_tag_elim in Htag as [Hne _].
    destruct lang; [done|]. reflexivity. }
  split; [exact Main|]. intros Hs. by rewrite Main, Hs.
Qed.

Lemma detect_code_blocks_single_fence_witness :
  _detect_code_blocks (fenced "python" "    return x")
  = [{| language := "python"; code := "return x";
        original := fenced "python" "    return x" |}].
Proof.
  exact (proj1 (detect_code_blocks_single_fence "python" "    return x"
                  eq_refl eq_refl)).
Defined.

End CodeBlocks.

(** * Further properties of the code *)

(** ** Rule engine: the table, presets and merging *)

Section RuleEngineMore.
Import Models.

Lemma existsb_eqb_elem (r : string) (l : list string) :
  existsb (String.eqb r) l = true ↔ r ∈ l.
Proof.
  rewrite existsb_exists. split.
  - intros (x & Hin & Heq). apply String.eqb_eq in Heq. subst x.
    by apply list_elem_of_In.
  - intros Hin. exists r. split; [by apply list_elem_of_In | apply String.eqb_refl].
Qed.

Lemma forallb_within (l1 l2 : list string) :
  forallb (fun r => existsb (String.eqb r) l2) l1 = true → l1 ⊆ l2.
Proof.
  rewrite forallb_forall. intros H r Hr.
  apply existsb_eqb_elem, H. by apply list_elem_of_In.
Qed.

Lemma rule_table_entries (content_type : string) (e : rule_entry) :
  ANALYSIS_RULES !! content_type = Some e →
  mandatory_within_default e = true.
Proof.
  intros H. apply elem_of_list_to_map_2 in H.
  repeat (apply elem_of_cons in H as [H|H]; [by inversion H|]).
  by apply elem_of_nil in H.
Qed.

Lemma rule_presets_entries (p : string) (pr : preset_entry) :
  RULE_PRESETS !! p = Some pr → preset_within_default pr = true.
Proof.
  intros H. apply elem_of_list_to_map_2 in H.
  repeat (apply elem_of_cons in H as [H|H]; [by inversion H|]).
  by apply elem_of_nil in H.
Qed.

Lemma mandatory_subset_default (content_type : string) :
  rules_of mandatory content_type ⊆ rules_of default content_type.
Proof.
  unfold rules_of. destruct (ANALYSIS_RULES !! content_type) as [e|] eqn:E; [|done].
  apply forallb_within. exact (rule_table_entries _ _ E).
Qed.

(** The rules that the loop over a preset collects for a content type. *)
Lemma preset_rules_elem (content_type : string) (enabled : list (string * list string))
    (acc : gset string) (r : string) :
  r ∈ fold_left (fun acc '(rule_type, rules) =>
                   if String.eqb rule_type content_type
                   then acc ∪ list_to_set rules else acc)
                enabled acc →
  r ∈ acc ∨ ∃ rules, (content_type, rules) ∈ enabled ∧ r ∈ rules.
Proof.
  revert acc. induction enabled as [|[rule_type rules] enabled IH]; intros acc;
    cbn [fold_left]; [by left|].
  intros H. apply IH in H as [H|(rules' & Hin & Hr)].
  - destruct (String.eqb rule_type content_type) eqn:E; [|by left].
    apply String.eqb_eq in E. subst rule_type.
    apply elem_of_union in H as [H|H]; [by left|].
    right. exists rules. split; [apply list_elem_of_here | set_solver].
  - right. exists rules'. split; [by apply elem_of_cons; right | done].
Qed.

(** X1. Without a preset, with the empty preset name or with a name that
    is not a preset, the active rules of a content type are exactly its
    default rules (none for a content type that is not in the table): the
    mandatory rules of every category are among its default rules. *)
Theorem get_active_rules_without_preset (content_type : string)
    (preset : option string) :
  (∀ p, preset = Some p → RULE_PRESETS !! p = None) →
  get_active_rules content_type preset
  = list_to_set (rules_of default content_type).
Proof.
  intros Hp. pose proof (mandatory_subset_default content_type) as Hsub.
  unfold get_active_rules.
  destruct preset as [p|]; [|set_solver].
  rewrite (Hp p eq_refl). destruct (String.eqb p EmptyString); set_solver.
Qed.

Lemma get_active_rules_without_preset_witness :
  get_active_rules "data" (Some "verbose")
  = list_to_set (rules_of default "data").
Proof.
  apply get_active_rules_without_preset. intros p [= <-]. vm_compute. reflexivity.
Defined.

(** X2. For a content type of the rule table the active rules never leave
    its default rules, whatever the preset: a preset selects rules among
    the defaults, it adds none. *)
Theorem get_active_rules_within_defaults (content_type : string) (e : rule_entry)
    (preset : option string) :
  ANALYSIS_RULES !! content_type = Some e →
  get_active_rules content_type preset ⊆ list_to_set (default e).
Proof.
  intros He.
  pose proof (mandatory_subset_default content_type) as Hsub.
  unfold get_active_rules, rules_of in *. rewrite He in *.
  destruct preset as [p|]; [|set_solver].
  destruct (if String.eqb p EmptyString then None else RULE_PRESETS !! p)
    as [pr|] eqn:Epr; [|set_solver].
  assert (Hpr : preset_within_default pr = true).
  { destruct (String.eqb p EmptyString); [done|]. by eapply rule_presets_entries. }
  intros r Hr. apply elem_of_union in Hr as [Hr|Hr]; [set_solver|].
  apply preset_rules_elem in Hr as [Hr|(rules & Hin & Hr)]; [set_solver|].
  unfold preset_within_default in Hpr. rewrite forallb_forall in Hpr.
  apply list_elem_of_In in Hin. specialize (Hpr _ Hin). cbv beta iota in Hpr.
  rewrite He in Hpr. apply forallb_within in Hpr. set_solver.
Qed.

Lemma get_active_rules_within_defaults_witness :
  get_active_rules "json" (Some "data_pipeline")
  ⊆ list_to_set ["complete_processing"; "show_transformations"; "structural_focus";
                 "optimization_suggestions"].
Proof.
  exact (get_active_rules_within_defaults "json" _ (Some "data_pipeline") eq_refl).
Defined.

Lemma merge_rule_sets_elem_of (rule_sets : list string) (r : string) :
  r ∈ merge_rule_sets rule_sets ↔ ∃ c, c ∈ rule_sets ∧ r ∈ rules_of default c.
Proof.
  revert r. induction rule_sets as [|c l IH] using rev_ind; intros r.
  - split; [set_solver|]. intros (c & Hc & _). by apply elem_of_nil in Hc.
  - rewrite merge_rule_sets_app, merge_rule_sets_singleton, elem_of_union, IH.
    unfold contribution. pose proof (mandatory_subset_default c) as Hsub.
    split.
    + intros [(c' & Hc' & Hr)|Hr].
      * exists c'. split; [apply elem_of_app; by left | done].
      * exists c. split; [apply elem_of_app; right; apply list_elem_of_here|].
        set_solver.
    + intros (c' & Hc' & Hr). apply elem_of_app in Hc' as [Hc'|Hc'].
      * left. by exists c'.
      * apply list_elem_of_singleton in Hc'. subst c'. right. set_solver.
Qed.

(** X3. A rule is in the merge of a list of categories exactly when it is
    a default rule of a listed category of the table; so the result does
    not depend on the order or the repetitions of the list, and categories
    that the table does not know add nothing. *)
Theorem merge_rule_sets_elem (rule_sets : list string) :
  (∀ r : string,
     r ∈ merge_rule_sets rule_sets
     ↔ ∃ c, c ∈ rule_sets ∧ r ∈ rules_of default c)
  ∧ (∀ other : list string,
       (∀ c, c ∈ rule_sets ↔ c ∈ other) →
       merge_rule_sets rule_sets = merge_rule_sets other)
  ∧ (∀ c, ANALYSIS_RULES !! c = None →
       merge_rule_sets (rule_sets ++ [c]) = merge_rule_sets rule_sets).
Proof.
  split; [exact (merge_rule_sets_elem_of rule_sets)|]. split.
  - intros other Hsame. apply set_eq. intros r. rewrite !merge_rule_sets_elem_of.
    split; intros (c & Hc & Hr); exists c; (split; [by apply Hsame | done]).
  - intros c Hc. rewrite merge_rule_sets_app, merge_rule_sets_singleton.
    unfold contribution, rules_of. rewrite Hc. set_solver.
Qed.

Lemma merge_rule_sets_elem_witness :
  merge_rule_sets (["code"; "data"] ++ ["config"]) = merge_rule_sets ["code"; "data"].
Proof.
  apply (proj2 (proj2 (merge_rule_sets_elem ["code"; "data"]))). reflexivity.
Defined.

End RuleEngineMore.
Section SuggestMore.
Import Models.

Lemma extensions_of_none (files : list (gmap string string)) :
  extensions_of files = None ↔ ∃ f, f ∈ files ∧ f !! "name" = None.
Proof.
  induction files as [|f files IH]; cbn [extensions_of].
  - split; [done|]. intros (f & Hf & _). by apply elem_of_nil in Hf.
  - destruct (f !! "name") as [name|] eqn:E.
    + destruct (extensions_of files) as [exts|].
      * split; [done|]. intros (f' & Hf' & Hn).
        apply elem_of_cons in Hf' as [->|Hf']; [congruence|].
        destruct IH as [_ IH]. by specialize (IH (ex_intro _ f' (conj Hf' Hn))).
      * split; [|done]. intros _. destruct IH as [IH _].
        destruct (IH eq_refl) as (f' & Hf' & Hn). exists f'.
        split; [by apply elem_of_cons; right | done].
    + split; [|done]. intros _. exists f. split; [apply list_elem_of_here | done].
Qed.

Lemma suggest_rules_none (c : rules_context) :
  suggest_rules c = None
  ↔ ∃ files f, rc_available_files c = Some files ∧ f ∈ files ∧ f !! "name" = None.
Proof.
  unfold suggest_rules. destruct (rc_available_files c) as [files|].
  + destruct (extensions_of files) as [exts|] eqn:E.
    * split; [done|]. intros (files' & f & [= <-] & Hf & Hn).
      assert (extensions_of files = None) by (apply extensions_of_none; by exists f).
      congruence.
    * split; [|done]. intros _. apply extensions_of_none in E as (f & Hf & Hn).
      by exists files, f.
  + split; [done|]. by intros (files & f & ? & _).
Qed.

Lemma suggest_rules_some (c : rules_context) (l : list string) :
  suggest_rules c = Some l →
  NoDup l ∧ l ⊆ rule_categories ∧ (user_input c = None → "conversation" ∉ l).
Proof.
  unfold suggest_rules.
  assert (Hfinal : ∀ l0 : list string,
    l0 = [] ∨ l0 = ["conversation"] ∨ l0 = ["code"] ∨ l0 = ["data"] →
    (l0 = ["conversation"] → user_input c ≠ None) →
    match rc_available_files c with
    | Some files =>
        match extensions_of files with
        | Some extensions =>
            Some (let s1 := if any_in code_extensions extensions && negb (listed "code" l0)
                            then l0 ++ ["code"] else l0 in
                  let s2 := if any_in data_extensions extensions && negb (listed "data" s1)
                            then s1 ++ ["data"] else s1 in
                  if any_in config_extensions extensions then s2 ++ ["config"] else s2)
        | None => None
        end
    | None => Some l0
    end = Some l →
    NoDup l ∧ l ⊆ rule_categories ∧ (user_input c = None → "conversation" ∉ l)).
  { intros l0 Hl0 Hconv.
    assert (Hshape : ∀ l' : list string,
      (∃ a b d, l' = l0 ++ (if a : bool then ["code"] else [])
                     ++ (if b : bool then ["data"] else [])
                     ++ (if d : bool then ["config"] else [])
                ∧ (a = true → l0 ≠ ["code"]) ∧ (b = true → l0 ≠ ["data"])) →
      NoDup l' ∧ l' ⊆ rule_categories ∧ (user_input c = None → "conversation" ∉ l')).
    { intros l' (a & b & d & -> & Ha & Hb).
      destruct Hl0 as [-> | [-> | [-> | ->]]]; destruct a, b, d;
        try (exfalso; first [by apply Ha | by apply Hb]);
        (split; [apply (bool_decide_unpack _); vm_compute; exact I|]);
        (split; [apply (bool_decide_unpack _); vm_compute; exact I|]);
        intros Hu; try (exfalso; by apply Hconv);
        apply (bool_decide_unpack _); vm_compute; exact I. }
    destruct (rc_available_files c) as [files|].
    - destruct (extensions_of files) as [exts|]; [|done].
      intros [= <-]. apply Hshape.
      destruct Hl0 as [-> | [-> | [-> | ->]]];
        destruct (any_in code_extensions exts), (any_in data_extensions exts),
                 (any_in config_extensions exts); cbn;
        first [ by exists true, true, true | by exists true, true, false
              | by exists true, false, true | by exists true, false, false
              | by exists false, true, true | by exists false, true, false
              | by exists false, false, true | by exists false, false, false ].
    - intros [= <-]. apply Hshape. exists false, false, false.
      rewrite app_nil_r. done. }
  destruct (user_input c) as [input|] eqn:Eu.
  + cbv zeta. 
    destruct (String.eqb (determine_content_type input (Some (classifier_context c))) "conversation");
      [apply Hfinal; [tauto|done]|].
    destruct (String.eqb (determine_content_type input (Some (classifier_context c))) "code");
      [apply Hfinal; [tauto|done]|].
    destruct (String.eqb (determine_content_type input (Some (classifier_context c))) "data");
      [apply Hfinal; [tauto|done]|].
    apply Hfinal; [tauto|done].
  + apply Hfinal; [tauto|done].
Qed.

(** X4. [suggest_rules] fails (KeyError) exactly when a listed file has no
    name; otherwise it names each of the four categories conversation,
    code, data and config at most once, and conversation only for a user
    input. *)
Theorem suggest_rules_shape (c : rules_context) :
  (suggest_rules c = None
   ↔ ∃ files f, rc_available_files c = Some files ∧ f ∈ files ∧ f !! "name" = None)
  ∧ (∀ l, suggest_rules c = Some l →
       NoDup l ∧ l ⊆ rule_categories
       ∧ (user_input c = None → "conversation" ∉ l)).
Proof.
  split; [apply suggest_rules_none | apply suggest_rules_some].
Qed.

Lemma suggest_rules_shape_witness :
  NoDup ["conversation"; "code"; "data"; "config"].
Proof.
  refine (proj1 (proj2 (suggest_rules_shape
            {| user_input := Some "ciao";
               rc_file_type := None;
               rc_available_files :=
                 Some [ {[ "name" := "main.PY" ]}; {[ "name" := "settings.yaml" ]} ] |})
            _ _)).
  vm_compute. reflexivity.
Defined.

End SuggestMore.

(** ** Chat interface: the context of a message *)

Section PrepareContext.
Import Models ChatInterface.

Lemma format_file_name (file : gmap string string) (file_content : string) :
  format_file file file_content !! "name"
  = Some (from_option id "unknown" (file !! "name")).
Proof.
  unfold format_file.
  rewrite lookup_insert_ne by done. rewrite lookup_insert_ne by done.
  rewrite lookup_insert_ne by done. apply lookup_insert_eq.
Qed.

Lemma formatted_files_named (files : option (list (gmap string string)))
    (f : gmap string string) :
  f ∈ formatted_files files → f !! "name" ≠ None.
Proof.
  destruct files as [files|]; cbn [formatted_files]; [|by intros ?%elem_of_nil].
  intros Hf. apply list_elem_of_In, in_flat_map in Hf as (file & _ & Hf).
  destruct (file !! "content") as [file_content|]; [|done].
  destruct Hf as [<-|[]]. by rewrite format_file_name.
Qed.

Lemma suggest_rules_files (files : list (gmap string string)) :
  (∀ f, f ∈ files → f !! "name" ≠ None) →
  ∃ l, suggest_rules {| user_input := None; rc_file_type := None;
                        rc_available_files := Some files |} = Some l
       ∧ l ⊆ ["code"; "data"; "config"]
       ∧ (files = [] → l = []).
Proof.
  intros Hnamed.
  destruct (suggest_rules {| user_input := None; rc_file_type := None;
                             rc_available_files := Some files |}) as [l|] eqn:E.
  - exists l. split; [done|]. split.
    + destruct (suggest_rules_some _ _ E) as (_ & Hsub & Hconv).
      specialize (Hconv eq_refl). intros x Hx. specialize (Hsub x Hx).
      unfold rule_categories in Hsub.
      apply elem_of_cons in Hsub as [->|Hsub]; [done | exact Hsub].
    + intros ->. by injection E as <-.
  - apply suggest_rules_none in E as (files' & f & [= <-] & Hf & Hn).
    by destruct (Hnamed f Hf).
Qed.

(** X5. [_prepare_context] never fails: every file that it passes on has
    a name.  The rules that it activates come from the extensions of the
    files with a content only: they are default rules of the categories
    code and data, they are the same for every prompt, and without such a
    file there is none, although the content type is that of the
    prompt. *)
Theorem _prepare_context_rules (prompt : string)
    (files : option (list (gmap string string)))
    (current : option (gmap string string)) :
  ∃ ctx, _prepare_context prompt files current = Some ctx
    ∧ content_type ctx = determine_content_type prompt None
    ∧ active_rules ctx
      ⊆ list_to_set (rules_of default "code") ∪ list_to_set (rules_of default "data")
    ∧ (formatted_files files = [] → active_rules ctx = ∅)
    ∧ (∀ prompt' current',
         active_rules <$> _prepare_context prompt' files current'
         = Some (active_rules ctx)).
Proof.
  unfold _prepare_context.
  destruct (suggest_rules_files (formatted_files files)
              (formatted_files_named files)) as (l & -> & Hsub & Hnil).
  eexists. split; [reflexivity|]. cbn [content_type active_rules].
  split; [reflexivity|]. split; [|split].
  - intros r Hr.
    apply merge_rule_sets_elem_of in Hr as (c & Hc & Hr').
 specialize (Hsub c Hc).
    apply elem_of_cons in Hsub as [->|Hsub]; [set_solver|].
    apply elem_of_cons in Hsub as [->|Hsub]; [set_solver|].
    apply list_elem_of_singleton in Hsub as ->. by apply elem_of_nil in Hr'.
  - intros Hnone. by rewrite (Hnil Hnone).
  - reflexivity.
Qed.

End PrepareContext.
Section PromptUtilities.
Import Models.

Lemma length_slice_to (n : nat) (s : string) :
  String.length (PyStr.slice_to n s) = Nat.min n (String.length s).
Proof.
  revert s. induction n as [|n IH]; intros [|c s]; cbn; try done.
  by rewrite IH.
Qed.

Lemma startswith_slice_to (p s : string) (n : nat) :
  PyStr.startswith p (PyStr.slice_to n s) = true → PyStr.startswith p s = true.
Proof.
  revert s n. induction p as [|a p IH]; intros s n; [done|].
  destruct n as [|n], s as [|b s]; cbn; try done.
  intros [-> H]%andb_true_iff. by rewrite (IH _ _ H).
Qed.

Lemma slice_from_slice_to (i n : nat) (s : string) :
  PyStr.slice_from i (PyStr.slice_to (i + n) s) = PyStr.slice_to n (PyStr.slice_from i s).
Proof.
  revert s. induction i as [|i IH]; intros s; [done|].
  destruct s as [|c s]; cbn; [by destruct n|]. apply IH.
Qed.

(** [rfind] returns a position where the text is found. *)
Lemma rfind_some (sub s : string) (i : nat) :
  PyStr.rfind sub s = Some i →
  i <= String.length s ∧ PyStr.startswith sub (PyStr.slice_from i s) = true.
Proof.
  revert i. induction s as [|c s IH]; intros i; cbn [PyStr.rfind].
  - destruct (PyStr.startswith sub EmptyString) eqn:E; [|done].
    intros [= <-]. by split.
  - destruct (PyStr.rfind sub s) as [j|].
    + intros [= <-]. destruct (IH j eq_refl) as [Hle Hst]. split; [cbn; lia | done].
    + destruct (PyStr.startswith sub (String c s)) eqn:E; [|done].
      intros [= <-]. split; [cbn; lia | done].
Qed.

(** [rfind] answers -1 only when the text does not occur. *)
Lemma rfind_none (sub s : string) :
  PyStr.rfind sub s = None → PyStr.contains sub s = false.
Proof.
  induction s as [|c s IH]; cbn [PyStr.rfind PyStr.contains].
  - destruct (PyStr.startswith sub EmptyString); [done|]. by rewrite orb_false_r.
  - destruct (PyStr.rfind sub s) as [j|]; [done|].
    destruct (PyStr.startswith sub (String c s)); [done|].
    intros _. by rewrite IH.
Qed.

Lemma contains_rfind (sub s : string) :
  PyStr.contains sub s = true → PyStr.rfind sub s ≠ None.
Proof. intros H E. apply rfind_none in E. congruence. Qed.

Lemma rfind_contains (sub s : string) (i : nat) :
  PyStr.rfind sub s = Some i → PyStr.contains sub s = true.
Proof.
  revert i. induction s as [|c s IH]; intros i; cbn [PyStr.rfind PyStr.contains].
  - destruct (PyStr.startswith sub EmptyString); done.
  - destruct (PyStr.rfind sub s) as [j|].
    + intros _. rewrite (IH j eq_refl). apply orb_true_r.
    + destruct (PyStr.startswith sub (String c s)); done.
Qed.

Lemma startswith_cons (a b : ascii) (p s : string) :
  PyStr.startswith (String a p) (String b s) = Ascii.eqb a b && PyStr.startswith p s.
Proof. reflexivity. Qed.

Lemma contains_dot_blank (s : string) :
  PyStr.contains ". " s = true → PyStr.contains " " s = true.
Proof.
  induction s as [|c s IH]; [done|].
  cbn [PyStr.contains]. intros [H|H]%orb_true_iff.
  - rewrite startswith_cons in H. apply andb_true_iff in H as [_ H].
    destruct s as [|d s]; [done|].
    rewrite startswith_cons in H. apply andb_true_iff in H as [Hd _].
    apply Ascii.eqb_eq in Hd. subst d. cbn. by rewrite orb_true_r.
  - rewrite (IH H). apply orb_true_r.
Qed.

Lemma length_truncation_marker : String.length truncation_marker = 31.
Proof. reflexivity. Qed.

(** X6. When the prompt is longer than [max_length], [truncate_prompt]
    keeps a prefix of at most [max_length] characters and appends the
    marker line, so the result has up to [max_length + 31] characters; the
    cut is in front of a newline of the first [max_length] characters
    when there is one, and at [max_length] when these have neither a
    newline nor a blank. *)
Theorem truncate_prompt_cut (prompt : string) (max_length : nat) :
  max_length < String.length prompt →
  ∃ safe_end,
    safe_end <= max_length
    ∧ truncate_prompt prompt max_length
      = PyStr.slice_to safe_end prompt +:+ truncation_marker
    ∧ String.length (truncate_prompt prompt max_length) = safe_end + 31
    ∧ (PyStr.contains (String "010" EmptyString) (PyStr.slice_to max_length prompt) = true →
       PyStr.startswith (String "010" EmptyString) (PyStr.slice_from safe_end prompt) = true)
    ∧ (PyStr.contains (String "010" EmptyString) (PyStr.slice_to max_length prompt) = false →
       PyStr.contains " " (PyStr.slice_to max_length prompt) = false →
       safe_end = max_length).
Proof.
  intros Hlong. unfold truncate_prompt.
  destruct (Nat.leb_spec (String.length prompt) max_length) as [Hle|_]; [lia|].
  cbv zeta. unfold PyStr.rfind_before.
  set (window := PyStr.slice_to max_length prompt).
  assert (Hwin : String.length window = max_length).
  { unfold window. rewrite length_slice_to. lia. }
  assert (Hfound : ∀ sub i, PyStr.rfind sub window = Some i →
            i <= max_length ∧ PyStr.startswith sub (PyStr.slice_from i prompt) = true).
  { intros sub i Hi. apply rfind_some in Hi as [Hle Hst]. split; [lia|].
    unfold window in Hst. replace max_length with (i + (max_length - i)) in Hst by lia.
    rewrite slice_from_slice_to in Hst. by apply startswith_slice_to in Hst. }
  assert (Hlen : ∀ k, k <= max_length →
            String.length (PyStr.slice_to k prompt +:+ truncation_marker) = k + 31).
  { intros k Hk. rewrite length_append, length_slice_to, length_truncation_marker. lia. }
  destruct (PyStr.rfind (String "010" EmptyString) window) as [i|] eqn:E1.
  { destruct (Hfound _ _ E1) as [Hle Hst]. exists i.
    split; [done|]. split; [done|]. split; [by apply Hlen|]. split; [done|].
    intros H. apply rfind_contains in E1. congruence. }
  assert (Hnl : PyStr.contains (String "010" EmptyString) window = false)
    by by apply rfind_none.
  destruct (PyStr.rfind ". " window) as [i|] eqn:E2.
  { destruct (Hfound _ _ E2) as [Hle Hst]. exists i.
    split; [done|]. split; [done|]. split; [by apply Hlen|]. split; [congruence|].
    intros _ Hsp. apply rfind_contains, contains_dot_blank in E2. congruence. }
  destruct (PyStr.rfind " " window) as [i|] eqn:E3.
  { destruct (Hfound _ _ E3) as [Hle Hst]. exists i.
    split; [done|]. split; [done|]. split; [by apply Hlen|]. split; [congruence|].
    intros _ Hsp. apply rfind_contains in E3. congruence. }
  exists max_length.
  split; [done|]. split; [done|]. split; [by apply Hlen|]. split; [congruence | done].
Qed.

Lemma truncate_prompt_cut_witness :
  ∃ safe_end, safe_end <= 3
    ∧ truncate_prompt "abcd" 3 = PyStr.slice_to safe_end "abcd" +:+ truncation_marker
    ∧ String.length (truncate_prompt "abcd" 3) = safe_end + 31
    ∧ (PyStr.contains (String "010" EmptyString) (PyStr.slice_to 3 "abcd") = true →
       PyStr.startswith (String "010" EmptyString) (PyStr.slice_from safe_end "abcd") = true)
    ∧ (PyStr.contains (String "010" EmptyString) (PyStr.slice_to 3 "abcd") = false →
       PyStr.contains " " (PyStr.slice_to 3 "abcd") = false →
       safe_end = 3).
Proof. apply (truncate_prompt_cut "abcd" 3). cbn. lia. Defined.

(** *** [sanitize_prompt] *)

Lemma all_chars_append (p : ascii -> bool) (s t : string) :
  all_chars p (s +:+ t) = all_chars p s && all_chars p t.
Proof.
  induction s as [|c s IH]; [done|].
  rewrite append_cons. cbn [all_chars]. by rewrite IH, andb_assoc.
Qed.








Lemma join_cons (sep p q : string) (ps : list string) :
  PyStr.join sep (p :: q :: ps) = p +:+ sep +:+ PyStr.join sep (q :: ps).
Proof. reflexivity. Qed.











(** *** [format_code_prompt] *)

Lemma all_chars_lstrip (p : ascii -> bool) (s : string) :
  all_chars p s = true → all_chars p (PyStr.lstrip s) = true.
Proof.
  induction s as [|c s IH]; [done|]. cbn [PyStr.lstrip].
  destruct (PyStr.isspace c); [|done]. cbn [all_chars].
  intros [_ H]%andb_true_iff. by apply IH.
Qed.

Lemma all_chars_rstrip (p : ascii -> bool) (s : string) :
  all_chars p s = true → all_chars p (PyStr.rstrip s) = true.
Proof.
  induction s as [|c s IH]; [done|]. cbn [all_chars PyStr.rstrip].
  intros [Hc H]%andb_true_iff. specialize (IH H).
  destruct (PyStr.rstrip s) as [|d r].
  - destruct (PyStr.isspace c); [done|]. cbn. by rewrite Hc.
  - cbn [all_chars] in IH |- *. by rewrite Hc, IH.
Qed.

Lemma all_chars_strip (p : ascii -> bool) (s : string) :
  all_chars p s = true → all_chars p (PyStr.strip s) = true.
Proof. intros H. by apply all_chars_rstrip, all_chars_lstrip. Qed.

Lemma rstrip_idempotent (s : string) : PyStr.rstrip (PyStr.rstrip s) = PyStr.rstrip s.
Proof.
  induction s as [|c s IH]; [done|]. cbn [PyStr.rstrip].
  destruct (PyStr.rstrip s) as [|d r] eqn:E.
  - destruct (PyStr.isspace c) eqn:Ec; [done|]. cbn. by rewrite Ec.
  - change (PyStr.rstrip (String c (String d r)))
      with (match PyStr.rstrip (String d r) with
            | EmptyString => if PyStr.isspace c then EmptyString else String c EmptyString
            | r' => String c r'
            end).
    by rewrite IH.
Qed.

Lemma lstrip_starts_outside (s : string) :
  starts_outside PyStr.isspace (PyStr.lstrip s) = true.
Proof.
  induction s as [|c s IH]; [done|]. cbn [PyStr.lstrip].
  destruct (PyStr.isspace c) eqn:Ec; [done|]. cbn. by rewrite Ec.
Qed.

Lemma lstrip_rstrip (t : string) :
  starts_outside PyStr.isspace t = true →
  PyStr.lstrip (PyStr.rstrip t) = PyStr.rstrip t.
Proof.
  destruct t as [|c t]; [done|]. cbn [starts_outside PyStr.rstrip].
  intros Hc. apply negb_true_iff in Hc.
  destruct (PyStr.rstrip t); rewrite ?Hc; cbn [PyStr.lstrip]; by rewrite ?Hc.
Qed.

Lemma strip_idempotent (s : string) : PyStr.strip (PyStr.strip s) = PyStr.strip s.
Proof.
  unfold PyStr.strip.
  by rewrite (lstrip_rstrip _ (lstrip_starts_outside s)), rstrip_idempotent.
Qed.

Lemma split_chr_cons (sep : ascii) (s : string) :
  ∃ l ls, PyStr.split_chr sep s = l :: ls.
Proof.
  destruct s as [|c s]; [by eexists _, _|]. cbn [PyStr.split_chr].
  destruct (Ascii.eqb c sep); [by eexists _, _|].
  destruct (PyStr.split_chr sep s); by eexists _, _.
Qed.

Lemma split_chr_no_sep (sep : ascii) (s : string) :
  Forall (fun l => all_chars (other_than sep) l = true) (PyStr.split_chr sep s).
Proof.
  induction s as [|c s IH]; [by repeat constructor|]. cbn [PyStr.split_chr].
  destruct (Ascii.eqb c sep) eqn:Ec; [by constructor|].
  destruct (PyStr.split_chr sep s) as [|l ls].
  - repeat constructor. cbn. unfold other_than. by rewrite Ec.
  - inversion IH as [|? ? Hl Hls]; subst. constructor; [|done].
    cbn [all_chars]. unfold other_than at 1. by rewrite Ec, Hl.
Qed.

Lemma split_chr_line (sep : ascii) (l : string) :
  all_chars (other_than sep) l = true → PyStr.split_chr sep l = [l].
Proof.
  induction l as [|c l IH]; [done|]. cbn [all_chars PyStr.split_chr].
  intros [Hc Hl]%andb_true_iff. unfold other_than in Hc.
  apply negb_true_iff in Hc. by rewrite Hc, (IH Hl).
Qed.

Lemma split_chr_append (sep : ascii) (l t : string) :
  all_chars (other_than sep) l = true →
  PyStr.split_chr sep (l +:+ String sep t) = l :: PyStr.split_chr sep t.
Proof.
  induction l as [|c l IH].
  - intros _. rewrite append_empty_l. cbn [PyStr.split_chr].
    by rewrite Ascii.eqb_refl.
  - cbn [all_chars]. intros [Hc Hl]%andb_true_iff. unfold other_than in Hc.
    apply negb_true_iff in Hc. rewrite append_cons. cbn [PyStr.split_chr].
    by rewrite Hc, (IH Hl).
Qed.

(** Splitting at a separator undoes joining lines that do not contain it. *)
Lemma split_chr_join (sep : ascii) (l : string) (ls : list string) :
  Forall (fun l => all_chars (other_than sep) l = true) (l :: ls) →
  PyStr.split_chr sep (PyStr.join (String sep EmptyString) (l :: ls)) = l :: ls.
Proof.
  revert l. induction ls as [|q ls IH]; intros l Hall;
    inversion Hall as [|? ? Hl Hls]; subst.
  - by apply split_chr_line.
  - rewrite join_cons.
    change (l +:+ String sep EmptyString +:+ PyStr.join (String sep EmptyString) (q :: ls))
      with (l +:+ String sep (PyStr.join (String sep EmptyString) (q :: ls))).
    by rewrite split_chr_append, IH.
Qed.

Lemma format_line_one (in_code_block : bool) (formatted_lines : list string)
    (line : string) :
  format_line (in_code_block, formatted_lines) line
  = (fst (format_one in_code_block line),
     formatted_lines ++ [snd (format_one in_code_block line)]).
Proof.
  unfold format_line, format_one.
  destruct (PyStr.startswith "```" (PyStr.strip line)); [done|].
  by destruct in_code_block.
Qed.

Lemma fold_format_line (lines : list string) (in_code_block : bool)
    (formatted_lines : list string) :
  fold_left format_line lines (in_code_block, formatted_lines)
  = (fst (format_lines in_code_block lines),
     formatted_lines ++ snd (format_lines in_code_block lines)).
Proof.
  revert in_code_block formatted_lines.
  induction lines as [|line lines IH]; intros b acc.
  - cbn. by rewrite app_nil_r.
  - cbn [fold_left format_lines]. rewrite format_line_one, IH.
    destruct (format_one b line) as [b1 x]. cbn [fst snd].
    destruct (format_lines b1 lines) as [b2 out]. cbn [fst snd].
    by rewrite <- app_assoc.
Qed.

Lemma format_one_again (in_code_block : bool) (line : string) :
  format_one in_code_block (snd (format_one in_code_block line))
  = format_one in_code_block line.
Proof.
  unfold format_one.
  destruct (PyStr.startswith "```" (PyStr.strip line)) eqn:E; cbn [snd].
  - by rewrite E.
  - destruct in_code_block; cbn [snd]; [by rewrite E|].
    by rewrite strip_idempotent, E.
Qed.

Lemma format_lines_again (lines : list string) (in_code_block : bool) :
  format_lines in_code_block (snd (format_lines in_code_block lines))
  = format_lines in_code_block lines.
Proof.
  revert in_code_block. induction lines as [|line lines IH]; intros b; [done|].
  cbn [format_lines].
  destruct (format_one b line) as [b1 x] eqn:E1.
  destruct (format_lines b1 lines) as [b2 out] eqn:E2. cbn [snd format_lines].
  pose proof (format_one_again b line) as H1. rewrite E1 in H1. cbn [snd] in H1.
  rewrite H1. pose proof (IH b1) as H2. rewrite E2 in H2. cbn [snd] in H2.
  by rewrite H2.
Qed.

Lemma format_lines_length (lines : list string) (in_code_block : bool) :
  length (snd (format_lines in_code_block lines)) = length lines.
Proof.
  revert in_code_block. induction lines as [|line lines IH]; intros b; [done|].
  cbn [format_lines]. specialize (IH (fst (format_one b line))).
  destruct (format_one b line) as [b1 x]. cbn [fst] in IH.
  destruct (format_lines b1 lines) as [b2 out]. cbn [snd length] in *. by rewrite IH.
Qed.

Lemma format_lines_no_sep (p : ascii -> bool) (lines : list string)
    (in_code_block : bool) :
  Forall (fun l => all_chars p l = true) lines →
  Forall (fun l => all_chars p l = true) (snd (format_lines in_code_block lines)).
Proof.
  intros Hall. revert in_code_block.
  induction Hall as [|line lines Hl Hls IH]; intros b; [constructor|].
  cbn [format_lines]. specialize (IH (fst (format_one b line))).
  assert (Hx : all_chars p (snd (format_one b line)) = true).
  { unfold format_one. destruct (PyStr.startswith "```" (PyStr.strip line)); [done|].
    destruct b; [done|]. by apply all_chars_strip. }
  destruct (format_one b line) as [b1 x]. cbn [fst snd] in *.
  destruct (format_lines b1 lines) as [b2 out]. cbn [snd] in *. by constructor.
Qed.

Lemma format_code_prompt_eq (prompt : string) :
  format_code_prompt prompt
  = if contains_code prompt
    then PyStr.join (String "010" EmptyString)
           (snd (format_lines false (PyStr.split_chr "010" prompt)))
    else prompt.
Proof.
  unfold format_code_prompt. destruct (contains_code prompt); [|done].
  cbn [negb]. cbv zeta. by rewrite fold_format_line.
Qed.

Lemma split_chr_formatted (lines : list string) :
  lines ≠ [] →
  Forall (fun l => all_chars (other_than "010") l = true) lines →
  PyStr.split_chr "010"
    (PyStr.join (String "010" EmptyString) (snd (format_lines false lines)))
  = snd (format_lines false lines).
Proof.
  intros Hne Hall.
  pose proof (format_lines_no_sep _ _ false Hall) as Hout.
  pose proof (format_lines_length lines false) as Hlen.
  destruct (snd (format_lines false lines)) as [|l ls].
  - destruct lines; [done | discriminate Hlen].
  - by apply split_chr_join.
Qed.

(** X8. [format_code_prompt] keeps the number of lines of the prompt, and
    formatting a second time changes nothing: a line that opens or closes
    a fence, or lies inside one, is kept as it is, and a stripped line
    strips to itself. *)
Theorem format_code_prompt_idempotent (prompt : string) :
  format_code_prompt (format_code_prompt prompt) = format_code_prompt prompt
  ∧ length (PyStr.split_chr "010" (format_code_prompt prompt))
    = length (PyStr.split_chr "010" prompt).
Proof.
  assert (Hne : PyStr.split_chr "010" prompt ≠ []).
  { destruct (split_chr_cons "010" prompt) as (l & ls & ->). done. }
  pose proof (split_chr_no_sep "010" prompt) as Hall.
  pose proof (split_chr_formatted _ Hne Hall) as Hsplit.
  rewrite (format_code_prompt_eq prompt).
  destruct (contains_code prompt) eqn:Ecode.
  - split.
    + rewrite format_code_prompt_eq.
      destruct (contains_code (PyStr.join _ _)); [|done].
      by rewrite Hsplit, format_lines_again.
    + by rewrite Hsplit, format_lines_length.
  - split; [|done]. rewrite format_code_prompt_eq. by rewrite Ecode.
Qed.

End PromptUtilities.
(** ** Chat interface: memory, previews and code detection *)

Section ChatMore.
Import Re ChatInterface.

Lemma last_drop_lt {A} (n : nat) (l : list A) :
  n < length l → last (drop n l) = last l.
Proof.
  revert n. induction l as [|x l IH]; intros n Hn; [cbn in Hn; lia|].
  destruct n as [|n]; [done|]. cbn [drop]. cbn [length] in Hn.
  rewrite IH by lia. destruct l; [cbn in Hn; lia | done].
Qed.

(** X9. [_update_conversation_memory] with a positive limit (3 when the
    memory has none) keeps the last messages up to the limit, the new one
    last.  With the limit 0 nothing is ever dropped, the slice [l[-0:]]
    being the whole list, and with a negative limit the first messages are
    dropped at every call, the new message too when there are not more
    than that. *)
Theorem _update_conversation_memory_limit {A} (mem : memory A) (message : A) :
  let limit := from_option id 3%Z (max_length mem) in
  let updated := messages (_update_conversation_memory mem message) in
  ((0 < limit)%Z →
     length updated = Nat.min (S (length (messages mem))) (Z.to_nat limit)
     ∧ updated `suffix_of` (messages mem ++ [message])
     ∧ last updated = Some message)
  ∧ (limit = 0%Z → updated = messages mem ++ [message])
  ∧ ((limit < 0)%Z →
     updated = drop (Z.to_nat (- limit)) (messages mem ++ [message])).
Proof.
  cbv zeta. unfold _update_conversation_memory. cbn [messages].
  set (limit := from_option id 3%Z (max_length mem)).
  set (appended := messages mem ++ [message]).
  assert (Hlen : length appended = S (length (messages mem))).
  { unfold appended. rewrite length_app. cbn. lia. }
  split; [|split].
  - intros Hpos. destruct (Z.ltb_spec limit (Z.of_nat (length appended))) as [Hlt|Hge].
    + unfold last_slice. destruct (Z.ltb_spec 0 limit) as [_|?]; [|lia].
      split; [rewrite length_drop; lia|]. split.
      * exists (take (length appended - Z.to_nat limit) appended).
        by rewrite take_drop.
      * rewrite last_drop_lt by lia. apply last_snoc.
    + split; [lia|]. split; [done|]. apply last_snoc.
  - intros ->. destruct (Z.ltb_spec 0 (Z.of_nat (length appended))); [|done].
    unfold last_slice. done.
  - intros Hneg. destruct (Z.ltb_spec limit (Z.of_nat (length appended))) as [_|?]; [|lia].
    unfold last_slice. by destruct (Z.ltb_spec 0 limit) as [?|_]; [lia|].
Qed.

Lemma _update_conversation_memory_limit_witness :
  length (messages (_update_conversation_memory
                      {| messages := [1; 2; 3]; max_length := None |} 4)) = 3.
Proof.
  apply (proj1 (_update_conversation_memory_limit
                  {| messages := [1; 2; 3]; max_length := None |} 4)).
  cbn. lia.
Defined.

Lemma str_of_nat_go_chars (p : ascii -> bool) (fuel n : nat) (acc : string) :
  (∀ d, d < 10 → p (PyStr.digit_chr d) = true) →
  all_chars p acc = true → all_chars p (PyStr.str_of_nat_go fuel n acc) = true.
Proof.
  intros Hd. revert n acc. induction fuel as [|fuel IH]; intros n acc Hacc; [done|].
  cbn [PyStr.str_of_nat_go]. cbv zeta.
  assert (Hacc' : all_chars p (String (PyStr.digit_chr (n mod 10)) acc) = true).
  { cbn [all_chars]. rewrite Hacc, Hd; [done|]. apply Nat.mod_upper_bound. lia. }
  destruct (n / 10); [done|]. by apply IH.
Qed.

Lemma str_of_nat_one_line (n : nat) :
  all_chars (other_than "010") (PyStr.str_of_nat n) = true.
Proof.
  apply str_of_nat_go_chars; [|done]. intros d Hd.
  do 10 (destruct d as [|d]; [reflexivity|]). lia.
Qed.

Lemma join_snoc (sep m l : string) (ls : list string) :
  PyStr.join sep ((l :: ls) ++ [m]) = PyStr.join sep (l :: ls) +:+ sep +:+ m.
Proof.
  revert l. induction ls as [|q ls IH]; intros l; [done|].
  change ((l :: q :: ls) ++ [m]) with (l :: ((q :: ls) ++ [m])).
  change ((q :: ls) ++ [m]) with (q :: (ls ++ [m])) at 1.
  rewrite join_cons. change (q :: (ls ++ [m])) with ((q :: ls) ++ [m]).
  rewrite IH, join_cons. by rewrite !append_assoc.
Qed.

(** X10. When the file has more lines than [max_lines] (at least 1),
    the preview consists of the first [max_lines] lines of the content
    followed by one line that tells how many lines are left out. *)
Theorem _get_file_preview_lines (file : gmap string string) (file_content : string)
    (max_lines : nat) :
  file !! "content" = Some file_content →
  1 <= max_lines < length (PyStr.split_chr "010" file_content) →
  PyStr.split_chr "010" (_get_file_preview file max_lines)
  = take max_lines (PyStr.split_chr "010" file_content)
    ++ ["... [altri "
        +:+ PyStr.str_of_nat (length (PyStr.split_chr "010" file_content) - max_lines)
        +:+ " linee]"].
Proof.
  intros Hfile [Hmin Hmax]. unfold _get_file_preview. rewrite Hfile.
  destruct (String.eqb_spec file_content EmptyString) as [->|_]; [cbn in Hmax; lia|].
  destruct (Nat.leb_spec (length (PyStr.split_chr "010" file_content)) max_lines);
    [lia|].
  pose proof (split_chr_no_sep "010" file_content) as Hall.
  set (lines := PyStr.split_chr "010" file_content) in *.
  set (rest := "... [altri " +:+ PyStr.str_of_nat (length lines - max_lines) +:+ " linee]").
  destruct (take max_lines lines) as [|l ls] eqn:Etake.
  { apply (f_equal length) in Etake. rewrite length_take in Etake. cbn in Etake. lia. }
  change (PyStr.join (String "010" EmptyString) (l :: ls) +:+ String "010" rest)
    with (PyStr.join (String "010" EmptyString) (l :: ls)
          +:+ String "010" EmptyString +:+ rest).
  rewrite <- join_snoc.
  change ((l :: ls) ++ [rest]) with (l :: (ls ++ [rest])).
  apply split_chr_join.
  change (l :: (ls ++ [rest])) with ((l :: ls) ++ [rest]).
  apply Forall_app. split.
  - rewrite <- Etake. by apply Forall_take.
  - repeat constructor. unfold rest.
    by rewrite !all_chars_append, str_of_nat_one_line.
Qed.

Lemma _get_file_preview_lines_witness :
  PyStr.split_chr "010"
    (_get_file_preview {[ "content" := String "a" (String "010" (String "b" (String "010" "c"))) ]} 2)
  = ["a"; "b"; "... [altri 1 linee]"].
Proof.
  apply (_get_file_preview_lines
           {[ "content" := String "a" (String "010" (String "b" (String "010" "c"))) ]}
           (String "a" (String "010" (String "b" (String "010" "c")))) 2);
    [vm_compute; reflexivity | cbn; lia].
Defined.

Lemma add_score_keys (lang : string) (delta : nat) (scores : list (string * nat)) :
  (add_score lang delta scores).*1 = scores.*1.
Proof.
  unfold add_score. induction scores as [|[l v] scores IH]; [done|].
  cbn [fmap list_fmap]. rewrite <- IH. by destruct (String.eqb l lang).
Qed.

Lemma fold_best_elem (l : list (string * nat)) (best : string * nat) :
  let f := fun (best item : string * nat) =>
             if Nat.ltb (snd best) (snd item) then item else best in
  fold_left f l best = best ∨ fold_left f l best ∈ l.
Proof.
  cbv zeta. revert best. induction l as [|x l IH]; intros best; [by left|].
  cbn [fold_left]. destruct (Nat.ltb (snd best) (snd x)).
  - right. destruct (IH x) as [->|H]; [apply list_elem_of_here | by apply elem_of_cons; right].
  - destruct (IH best) as [->|H]; [by left | right; by apply elem_of_cons; right].
Qed.

Lemma argmax_elem (item : string * nat) (scores : list (string * nat)) :
  argmax (item :: scores) ∈ (item :: scores).*1.
Proof.
  unfold argmax. cbn [hd tl]. apply list_elem_of_fmap_2.
  destruct (fold_best_elem scores item) as [->|H];
    [apply list_elem_of_here | by apply elem_of_cons; right].
Qed.

(** X11. [_guess_language] answers with one of six tags, and with
    [text] for a text of whitespace only. *)
Theorem _guess_language_tags (code : string) :
  _guess_language code ∈ ["python"; "javascript"; "html"; "css"; "sql"; "text"]
  ∧ (PyStr.strip code = EmptyString → _guess_language code = "text").
Proof.
  split.
  - unfold _guess_language, guess_language_with. cbv zeta.
    set (lowered := PyStr.lower (PyStr.strip code)).
    set (scores0 := (fun '(lang, indicators_list) => (lang, score_of lowered indicators_list))
                      <$> indicators_with python_indicators).
    set (scores := if _ && _ then _ else scores0).
    assert (Hkeys : scores.*1 = ["python"; "javascript"; "html"; "css"; "sql"]).
    { unfold scores.
      destruct (_ && _); [destruct (Nat.leb _ _)|]; by rewrite ?add_score_keys. }
    assert (Hmax : argmax scores ∈ ["python"; "javascript"; "html"; "css"; "sql"]).
    { rewrite <- Hkeys. destruct scores as [|item scores']; [done|]. apply argmax_elem. }
    assert (Hin : ∀ x : string,
              x ∈ ["python"; "javascript"; "html"; "css"; "sql"] →
              x ∈ ["python"; "javascript"; "html"; "css"; "sql"; "text"]).
    { clear. intros x Hx.
      change (x ∈ ["python"; "javascript"; "html"; "css"; "sql"] ++ ["text"]).
      apply elem_of_app. by left. }
    assert (Hpython : "python" ∈ ["python"; "javascript"; "html"; "css"; "sql"; "text"])
      by apply list_elem_of_here.
    assert (Htext : "text" ∈ ["python"; "javascript"; "html"; "css"; "sql"; "text"])
      by (change ("text" ∈ ["python"; "javascript"; "html"; "css"; "sql"] ++ ["text"]);
          apply elem_of_app; right; apply list_elem_of_here).
    apply Hin in Hmax. clearbody scores. clear Hkeys Hin.
    destruct (_ && _ && _); [done|].
    destruct (Nat.ltb 0 _); [|done].
    destruct (_ && _ && _); done.
  - intros Hblank. unfold _guess_language, guess_language_with. cbv zeta.
    rewrite Hblank. reflexivity.
Qed.

Lemma _guess_language_tags_witness : _guess_language "   " = "text".
Proof. apply (proj2 (_guess_language_tags "   ")). reflexivity. Defined.

(** *** Fence-free messages *)

Lemma match_here_prefix (fl : flags) (p : string) (r : regex) (before : option ascii)
    (s : string) :
  PyStr.startswith p s = false → match_here fl (Cat (Str p) r) before s = None.
Proof.
  intros H. unfold match_here. rewrite rmatch_Cat, rmatch_Str. cbn [rest]. by rewrite H.
Qed.

Lemma search_from_prefix (fl : flags) (p : string) (r : regex) (before : option ascii)
    (s : string) :
  PyStr.contains p s = false → search_from fl (Cat (Str p) r) before s = None.
Proof.
  revert before. induction s as [|c s IH]; intros before Hs.
  - cbn [search_from]. by rewrite match_here_prefix by by apply contains_false_startswith.
  - cbn [search_from]. rewrite match_here_prefix by by apply contains_false_startswith.
    apply IH. cbn [PyStr.contains] in Hs. by apply orb_false_elim in Hs as [_ Hs].
Qed.

Lemma finditer_prefix (fl : flags) (p : string) (r : regex) (s : string) :
  PyStr.contains p s = false → finditer fl (Cat (Str p) r) s = [].
Proof.
  intros H. unfold finditer. cbn [finditer_from]. by rewrite search_from_prefix.
Qed.

Lemma _detect_code_blocks_no_fence_aux (text : string) :
  PyStr.contains "```" text = false → _detect_code_blocks text = [].
Proof.
  intros H. unfold _detect_code_blocks. cbv zeta.
  change pattern_with_lang
    with (Cat (Str "```")
              (cats [Opt (Group 1 (Plus Greedy (Cls is_word))); Chr "010";
                     Group 2 (Star Lazy Dot); Chr "010"; Str "```"])).
  change pattern_without_lang
    with (Cat (Str "```")
              (cats [Opt (Chr "010"); Group 1 (Star Lazy Dot); Opt (Chr "010");
                     Str "```"])).
  by rewrite !finditer_prefix.
Qed.

(** X12. A text without a fence of three backticks has no code block,
    whatever else it contains; in particular single and double backticks
    open nothing. *)
Theorem _detect_code_blocks_no_fence (text : string) :
  PyStr.contains "```" text = false → _detect_code_blocks text = [].
Proof. apply _detect_code_blocks_no_fence_aux. Qed.

Lemma _detect_code_blocks_no_fence_witness :
  _detect_code_blocks "usa `x` e ``y``" = [].
Proof. apply _detect_code_blocks_no_fence. reflexivity. Defined.

Lemma contains_chr_all_chars (sep : ascii) (s : string) :
  PyStr.contains (String sep EmptyString) s = false →
  all_chars (other_than sep) s = true.
Proof.
  induction s as [|c s IH]; [done|]. cbn [PyStr.contains all_chars].
  rewrite startswith_cons. intros [Hc Hs]%orb_false_elim.
  rewrite (IH Hs). unfold other_than. rewrite Ascii.eqb_sym.
  change (PyStr.startswith EmptyString s) with true in Hc.
  rewrite andb_true_r in Hc. by rewrite Hc.
Qed.

(** X13. A message without a fence of three backticks is one block of
    code when [_looks_like_code] accepts it (the test on the number of
    lines in [format_message_with_code] repeats that of
    [_looks_like_code]) and is returned as it is otherwise, not even
    stripped; a message of one line is never taken for code. *)
Theorem format_message_with_code_no_fence (message : string) :
  PyStr.contains "```" message = false →
  format_message_with_code message
  = (if _looks_like_code message
     then {| content := "[Codice " +:+ _guess_language message +:+ "]";
             code_blocks := Some [{| language := _guess_language message;
                                     code := message; original := message |}] |}
     else {| content := message; code_blocks := None |})
  ∧ (PyStr.contains (String "010" EmptyString) message = false →
     format_message_with_code message = {| content := message; code_blocks := None |}).
Proof.
  intros Hfence. unfold format_message_with_code.
  rewrite (_detect_code_blocks_no_fence_aux message Hfence).
  assert (Hlooks : _looks_like_code message = true →
            Nat.ltb 1 (length (PyStr.split_chr "010" message)) = true).
  { unfold _looks_like_code. cbv zeta.
    destruct (Nat.ltb_spec (length (PyStr.split_chr "010" message)) 2); [done|].
    intros _. apply Nat.ltb_lt. lia. }
  split.
  - destruct (_looks_like_code message); [by rewrite Hlooks | by rewrite andb_false_r].
  - intros Hline. apply contains_chr_all_chars, split_chr_line in Hline.
    by rewrite Hline.
Qed.

Lemma format_message_with_code_no_fence_witness :
  format_message_with_code "def f(): return 1"
  = {| content := "def f(): return 1"; code_blocks := None |}.
Proof.
  apply (proj2 (format_message_with_code_no_fence "def f(): return 1" eq_refl)).
  reflexivity.
Defined.

End ChatMore.
(** ** Code analyzer: complexity *)

Section ComplexityMore.
Import CodeAnalyzer.
Local Open Scope Z_scope.

Lemma ast_forall_ind (P : ast → Prop) :
  (∀ cls children, Forall P children → P (Node cls children)) → ∀ t, P t.
Proof.
  intros H. fix IH 1. intros [cls children]. apply H.
  induction children as [|c cs IHcs]; constructor; [apply IH | exact IHcs].
Qed.

Lemma visit_eq (cls : node_class) (children : list ast) (room : nat)
    (v : ComplexityVisitor) :
  visit (Node cls children) room v
  = let generic_visit (room : nat) (v : ComplexityVisitor) :=
      match room with
      | O => None
      | S room' => visit_children children room' v
      end in
    let method (room : nat) (before : ComplexityVisitor)
               (after : ComplexityVisitor -> ComplexityVisitor) :=
      match room with
      | O => None
      | S room' => after <$> generic_visit room' before
      end in
    match room with
    | O => None
    | S room' =>
        match cls with
        | FunctionDef _ _ => method room' (load v) id
        | ClassDef => method room' (load v) id
        | If => method room' (enter 1 1 v) leave
        | For => method room' (enter 1 2 v) leave
        | While => method room' (enter 1 2 v) leave
        | Try handlers => method room' (enter (Z.of_nat handlers + 1) 1 v) leave
        | OtherNode => generic_visit room' v
        end
    end.
Proof.
  assert (Hgo : ∀ room' w,
    (fix go (cs : list ast) (v : ComplexityVisitor) {struct cs} :=
       match cs with
       | [] => Some v
       | c :: cs' =>
           match visit c room' v with
           | Some v' => go cs' v'
           | None => None
           end
       end) children w = visit_children children room' w).
  { intros room'. unfold visit_children.
    induction children as [|c cs IH]; intros w; [done|]. cbn [fold_left mbind option_bind].
    destruct (visit c room' w) as [w'|]; [apply IH|].
    clear. induction cs as [|c' cs IH]; [done|]. exact IH. }
  destruct room as [|[|[|room]]], cls; cbn [visit]; cbv zeta; try done;
    by rewrite ?Hgo.
Qed.

Lemma visit_children_cons (c : ast) (cs : list ast) (room : nat)
    (v : ComplexityVisitor) :
  visit_children (c :: cs) room v
  = match visit c room v with
    | Some v' => visit_children cs room v'
    | None => None
    end.
Proof.
  unfold visit_children. cbn [fold_left mbind option_bind].
  destruct (visit c room v); [done|].
  induction cs as [|c' cs IH]; [done|]. exact IH.
Qed.

Lemma nesting_nonneg (t : ast) : 0 <= nesting t.
Proof.
  induction t as [cls children IH] using ast_forall_ind. cbn [nesting]. cbv zeta.
  assert (0 <= fold_right Z.max 0 (List.map nesting children)).
  { clear IH. induction children; cbn; lia. }
  destruct (is_control cls); lia.
Qed.



(** The walk of a tree returns when the stack has room for its depth, and
    raises otherwise. *)
Lemma visit_spec (t : ast) (room : nat) (v : ComplexityVisitor) :
  current_depth v <= max_depth v →
  visit t room v = if (stack_depth t <=? room)%nat then Some (visited t v) else None.
Proof.
  revert room v. induction t as [cls children IH] using ast_forall_ind.
  intros room v Hv.
  assert (Hgen : ∀ room' w, current_depth w <= max_depth w →
    visit_children children room' w
    = if (fold_right Nat.max 0%nat (List.map stack_depth children) <=? room')%nat
      then Some
        {| current_depth := current_depth w;
           max_depth := Z.max (max_depth w)
                          (current_depth w
                           + fold_right Z.max 0 (List.map nesting children));
           branches :=
             branches w + fold_right Z.add 0 (List.map (total branches_of) children);
           cognitive_load :=
             cognitive_load w
             + fold_right Z.add 0 (List.map (total load_of) children) |}
      else None).
  { intros room'. induction IH as [|c cs Hc Hcs IHcs]; intros w Hw.
    - destruct w. cbn in *. f_equal. f_equal; lia.
    - rewrite visit_children_cons, (Hc room' w Hw).
      cbn [List.map fold_right].
      pose proof (nesting_nonneg c).
      assert (0 <= fold_right Z.max 0 (List.map nesting cs)).
      { clear. induction cs; cbn; [lia|]. pose proof (nesting_nonneg a). lia. }
      destruct (Nat.leb_spec (stack_depth c) room') as [Hfit|Hdeep].
      + rewrite IHcs by (cbn; lia).
        destruct (Nat.leb_spec (fold_right Nat.max 0%nat (List.map stack_depth cs)) room').
        * rewrite (proj2 (Nat.leb_le _ _)) by lia. cbn. f_equal. f_equal; lia.
        * by rewrite (proj2 (Nat.leb_gt _ _)) by lia.
      + by rewrite (proj2 (Nat.leb_gt _ _)) by lia. }
  assert (0 <= fold_right Z.max 0 (List.map nesting children)).
  { clear. induction children; cbn; [lia|]. pose proof (nesting_nonneg a). lia. }
  rewrite visit_eq. cbv zeta. cbn [stack_depth].
  set (deepest := fold_right Nat.max 0%nat (List.map stack_depth children)) in *.
  destruct room as [|[|room]]; [by destruct cls..|].
  destruct cls; cbn [has_method];
    try (destruct room as [|room]; [done|]);
    rewrite Hgen by (cbn; lia);
    change (3 + deepest <=? S (S (S room)))%nat with (deepest <=? room)%nat;
    change (2 + deepest <=? S (S room))%nat with (deepest <=? room)%nat;
    (destruct (deepest <=? room)%nat; [|done]);
    unfold visited, leave; cbn; f_equal; f_equal; lia.
Qed.



Section ComplexityOfCode.

Variable ast_parse : string -> parse_result.
Variable recursion_error : string.

Lemma visit_new_visitor (tree : ast) (room : nat) :
  (stack_depth tree <= room)%nat →
  visit tree room new_visitor
  = Some {| current_depth := 0; max_depth := nesting tree;
            branches := total branches_of tree;
            cognitive_load := total load_of tree |}.
Proof.
  intros Hfit. rewrite (visit_spec tree room new_visitor) by done.
  rewrite (proj2 (Nat.leb_le _ _)) by done.
  pose proof (nesting_nonneg tree). unfold visited. cbn. f_equal. f_equal; lia.
Qed.

Lemma _analyze_complexity_load (room : nat) (code : string) (tree : ast) :
  ast_parse code = Parsed tree →
  (stack_depth tree <= room)%nat →
  ∃ complexity,
    _analyze_complexity ast_parse recursion_error room code = inr complexity
    ∧ complexity !! "cognitive_load" = Some (total load_of tree).
Proof.
  intros Hparse Hfit. unfold _analyze_complexity.
  rewrite Hparse, visit_new_visitor by done. eexists. split; [reflexivity|].
  cbn [cognitive_load]. rewrite !lookup_insert_ne by done. apply lookup_insert_eq.
Qed.


End ComplexityOfCode.

End ComplexityMore.
(** ** Code analyzer: statistics *)

Section CodeStatsMore.
Import CodeAnalyzer.
Local Open Scope nat_scope.

Lemma classify_line_definitions (stripped : string) (in_doc : bool) (s : Stats) :
  imports_count s + classes_count s + functions_count s <= code_lines s →
  imports_count (classify_line stripped in_doc s)
  + classes_count (classify_line stripped in_doc s)
  + functions_count (classify_line stripped in_doc s)
  <= code_lines (classify_line stripped in_doc s).
Proof.
  unfold classify_line.
  repeat match goal with
         | |- context [if ?b then _ else _] => destruct b
         end; cbn; lia.
Qed.

Lemma classify_line_max (stripped : string) (in_doc : bool) (s : Stats) :
  max_line_length (classify_line stripped in_doc s) = max_line_length s.
Proof.
  unfold classify_line.
  repeat match goal with
         | |- context [if ?b then _ else _] => destruct b
         end; reflexivity.
Qed.

Lemma stats_step_definitions (acc : stats_loop) (line : string) :
  definitions (stats acc) <= code_lines (stats acc) →
  definitions (stats (stats_step acc line)) <= code_lines (stats (stats_step acc line)).
Proof.
  unfold definitions, stats_step. cbv zeta. intros H.
  set (st := if Nat.ltb 0 (String.length line) then _ else _).
  assert (Hst : imports_count st + classes_count st + functions_count st <= code_lines st).
  { subst st. by destruct (Nat.ltb 0 (String.length line)). }
  destruct (_ || _).
  - destruct (String.eqb _ EmptyString); cbn [stats]; [done|].
    by apply classify_line_definitions.
  - cbn [stats]. by apply classify_line_definitions.
Qed.

Lemma stats_step_max (acc : stats_loop) (line : string) :
  max_line_length (stats (stats_step acc line))
  = Nat.max (max_line_length (stats acc)) (String.length line).
Proof.
  unfold stats_step. cbv zeta.
  set (st := if Nat.ltb 0 (String.length line) then _ else _).
  assert (Hst : max_line_length st
                = Nat.max (max_line_length (stats acc)) (String.length line)).
  { subst st. destruct (Nat.ltb_spec 0 (String.length line)); cbn; lia. }
  destruct (_ || _).
  - destruct (String.eqb _ EmptyString); cbn [stats]; [done|].
    by rewrite classify_line_max.
  - cbn [stats]. by rewrite classify_line_max.
Qed.

Lemma fold_stats_step_more (lines : list string) (acc : stats_loop) :
  (definitions (stats acc) <= code_lines (stats acc) →
   definitions (stats (fold_left stats_step lines acc))
   <= code_lines (stats (fold_left stats_step lines acc)))
  ∧ max_line_length (stats (fold_left stats_step lines acc))
    = fold_left Nat.max (String.length <$> lines) (max_line_length (stats acc)).
Proof.
  revert acc. induction lines as [|line lines IH]; intros acc; [done|].
  cbn [fold_left fmap list_fmap]. destruct (IH (stats_step acc line)) as [IH1 IH2].
  split.
  - intros H. by apply IH1, stats_step_definitions.
  - by rewrite IH2, stats_step_max.
Qed.

Lemma fold_max_bounds (l : list nat) (m : nat) :
  m <= fold_left Nat.max l m
  ∧ (∀ n, n ∈ l → n <= fold_left Nat.max l m)
  ∧ (∀ bound, m <= bound → (∀ n, n ∈ l → n <= bound) → fold_left Nat.max l m <= bound).
Proof.
  revert m. induction l as [|x l IH]; intros m; cbn [fold_left].
  - split; [done|]. split; [by intros n ?%elem_of_nil | by intros].
  - destruct (IH (Nat.max m x)) as (IH1 & IH2 & IH3). split; [lia|]. split.
    + intros n [->|Hn]%elem_of_cons; [lia | by apply IH2].
    + intros bound Hm Hall. apply IH3.
      * pose proof (Hall x (list_elem_of_here _ _)). lia.
      * intros n Hn. apply Hall. by apply elem_of_cons; right.
Qed.

(** The lines of a text are one more than its newlines. *)
Lemma length_split_chr (sep : ascii) (s : string) :
  length (PyStr.split_chr sep s) = S (PyStr.count (String sep EmptyString) s).
Proof.
  unfold PyStr.count. induction s as [|c s IH]; [done|].
  cbn [PyStr.split_chr PyStr.count_from]. rewrite startswith_cons.
  change (PyStr.startswith EmptyString s) with true. rewrite andb_true_r.
  cbn [String.length Nat.sub]. rewrite (Ascii.eqb_sym sep c).
  destruct (Ascii.eqb c sep); cbn [length]; [by rewrite IH|].
  destruct (PyStr.split_chr sep s); cbn [length] in *; lia.
Qed.

Lemma split_chr_line_length (sep : ascii) (s line : string) :
  line ∈ PyStr.split_chr sep s → String.length line <= String.length s.
Proof.
  revert line. induction s as [|c s IH]; intros line.
  - intros ->%list_elem_of_singleton. done.
  - cbn [PyStr.split_chr].
    destruct (Ascii.eqb c sep).
    + intros [->|H]%elem_of_cons; [cbn; lia|]. specialize (IH _ H). cbn. lia.
    + destruct (PyStr.split_chr sep s) as [|l ls].
      * intros ->%list_elem_of_singleton. cbn. lia.
      * intros [->|H]%elem_of_cons.
        -- pose proof (IH l (list_elem_of_here _ _)). cbn. lia.
        -- assert (Hin : line ∈ l :: ls) by (by apply elem_of_cons; right).
           specialize (IH _ Hin). cbn. lia.
Qed.

(** X16. The statistics count one line more than the text has newlines,
    so at least one and, for a text that ends with a newline, an empty
    line after it.  The lines that open an import, a class or a function
    are counted among the code lines, [max_line_length] is at least the
    length of every line and at most the length of the text. *)
Theorem _get_code_stats_lines (code : string) :
  let s := _get_code_stats code in
  total_lines s = S (PyStr.count (String "010" EmptyString) code)
  ∧ imports_count s + classes_count s + functions_count s <= code_lines s
  ∧ (∀ line, line ∈ PyStr.split_chr "010" code →
       String.length line <= max_line_length s)
  ∧ max_line_length s <= String.length code.
Proof.
  cbv zeta. unfold _get_code_stats. cbv zeta.
  set (lines := PyStr.split_chr "010" code).
  destruct (fold_stats_step_classified lines (initial_stats lines)) as [_ Htotal].
  destruct (fold_stats_step_more lines (initial_stats lines)) as [Hdef Hmax].
  specialize (Hdef ltac:(cbn; lia)). unfold definitions in Hdef.
  change (max_line_length (stats (initial_stats lines))) with 0 in Hmax.
  change (total_lines (stats (initial_stats lines))) with (length lines) in Htotal.
  destruct (fold_max_bounds (String.length <$> lines) 0) as (_ & Hge & Hle).
  set (acc := fold_left stats_step lines (initial_stats lines)) in *.
  assert (Hsame : ∀ s', (s' = stats acc ∨ ∃ q, s' = with_avg_line_length (stats acc) q) →
    total_lines s' = S (PyStr.count (String "010" EmptyString) code)
    ∧ imports_count s' + classes_count s' + functions_count s' <= code_lines s'
    ∧ (∀ line, line ∈ lines → String.length line <= max_line_length s')
    ∧ max_line_length s' <= String.length code).
  { intros s' Hs'.
    assert (E : total_lines s' = total_lines (stats acc)
                ∧ imports_count s' = imports_count (stats acc)
                ∧ classes_count s' = classes_count (stats acc)
                ∧ functions_count s' = functions_count (stats acc)
                ∧ code_lines s' = code_lines (stats acc)
                ∧ max_line_length s' = max_line_length (stats acc)).
    { destruct Hs' as [->|[q ->]]; by repeat split. }
    destruct E as (-> & -> & -> & -> & -> & ->).
    split; [rewrite Htotal; apply length_split_chr|]. split; [done|].
    rewrite Hmax. split.
    - intros line Hline. apply Hge. by apply list_elem_of_fmap_2.
    - apply Hle; [lia|]. intros n (line & -> & Hline)%list_elem_of_fmap.
      by eapply split_chr_line_length. }
  destruct (Nat.ltb 0 _); apply Hsame; [right; by eexists | by left].
Qed.

End CodeStatsMore.
(** ** Code analyzer: security patterns *)

Section SecurityMore.
Import Re CodeAnalyzer.

Lemma search_from_later (fl : flags) (r : regex) (p : option ascii) (before s : string) :
  isSome (search_from fl r (last_chr p before) s) = true →
  isSome (search_from fl r p (before +:+ s)) = true.
Proof.
  revert p. induction before as [|c before IH]; intros p H; [done|].
  rewrite append_cons. cbn [search_from].
  destruct (match_here fl r p (String c (before +:+ s))); [done|].
  by apply IH.
Qed.

(** A keyword, blanks and an equals sign are found wherever they stand. *)
Lemma found_assignment (keyword before blanks after : string) :
  all_chars is_space blanks = true →
  found no_flags (cats [Str keyword; s_star; Chr "="])
        (before +:+ keyword +:+ blanks +:+ String "=" after) = true.
Proof.
  intros Hblanks. unfold found, search.
  change (match ?o with Some _ => true | None => false end) with (isSome o).
  apply search_from_later.
  assert (Hhere : ∀ p, ∃ m,
            match_here no_flags (cats [Str keyword; s_star; Chr "="]) p
              (keyword +:+ blanks +:+ String "=" after) = Some m).
  { intros p. unfold match_here.
    change (cats [Str keyword; s_star; Chr "="])
      with (Cat (Str keyword) (Cat s_star (Chr "="))).
    rewrite rmatch_Cat, rmatch_Str. cbn [rest prev groups].
    rewrite startswith_append, slice_from_append, rmatch_Cat.
    unfold s_star. rewrite rmatch_Star. cbn [rest].
    erewrite star_greedy_run; [by eexists | exact Hblanks | done | |].
    - rewrite length_append. lia.
    - apply rmatch_Chr_here. }
  destruct (Hhere (last_chr None before)) as [m Hm].
  by rewrite (search_from_here _ _ _ _ _ Hm).
Qed.

Lemma matching_messages_elem (code : string) (table : list (regex * string))
    (pattern : regex) (message : string) :
  (pattern, message) ∈ table → found no_flags pattern code = true →
  message ∈ matching_messages code table.
Proof.
  intros Hin Hfound. unfold matching_messages.
  apply (list_elem_of_fmap_2 snd _ (pattern, message)).
  apply list_elem_of_In, filter_In. split; [by apply list_elem_of_In|]. exact Hfound.
Qed.

(** X17. The check for credentials depends on the text only: one of the
    words [password], [api_key], [secret], [token], then whitespace or
    nothing, then an equals sign, anywhere in the text, gives the message
    of that word for a file of any type and for no file at all, whatever
    surrounds it: a comparison with [==] or a comment are reported like an
    assignment. *)
Theorem _analyze_security_credentials (keyword message before blanks after : string)
    (file_info : option (gmap string string)) :
  (keyword, message) ∈ credential_messages →
  all_chars is_space blanks = true →
  message
  ∈ _analyze_security (before +:+ keyword +:+ blanks +:+ String "=" after) file_info.
Proof.
  intros Hin Hblanks. unfold _analyze_security. cbv zeta.
  apply elem_of_app. right.
  apply (matching_messages_elem _ _ (cats [Str keyword; s_star; Chr "="]));
    [|by apply found_assignment].
  unfold credential_messages in Hin.
  repeat (apply elem_of_cons in Hin as [[= -> ->]|Hin];
          [unfold generic_patterns; rewrite !elem_of_cons; auto 10|]).
  by apply elem_of_nil in Hin.
Qed.

Lemma _analyze_security_credentials_witness :
  "Password in chiaro nel codice"
  ∈ _analyze_security ("if " +:+ "password" +:+ " " +:+ String "=" "= given:") None.
Proof.
  apply _analyze_security_credentials; [apply list_elem_of_here | reflexivity].
Defined.

End SecurityMore.
(** ** Code analyzer: the functions of two versions *)

Section FunctionChanges.
Import CodeAnalyzer.

Lemma dict_get_none {A} (k : string) (d : list (string * A)) :
  dict_get k d = None ↔ k ∉ d.*1.
Proof.
  induction d as [|[k' v'] d IH]; cbn [dict_get fmap list_fmap fst].
  - split; [intros _ H; by apply elem_of_nil in H | done].
  - rewrite not_elem_of_cons. destruct (String.eqb_spec k' k) as [->|Hne].
    + split; [done | by intros [? _]].
    + rewrite IH. split; [by intros ? | by intros [_ ?]].
Qed.

Lemma dict_set_names {A} (k k0 : string) (v : A) (d : list (string * A)) :
  k0 ∈ (dict_set k v d).*1 ↔ k0 = k ∨ k0 ∈ d.*1.
Proof.
  induction d as [|[k' v'] d IH]; cbn [dict_set fmap list_fmap fst].
  - rewrite elem_of_cons, elem_of_nil. cbn [fst]. tauto.
  - destruct (String.eqb_spec k' k) as [->|Hne]; cbn [fmap list_fmap fst].
    + rewrite !elem_of_cons. tauto.
    + rewrite !elem_of_cons. cbn [fmap] in IH. rewrite IH. tauto.
Qed.

Lemma function_defs_keys (tree : ast) (name : string) :
  name ∈ (function_defs tree).*1 ↔ defines tree name.
Proof.
  unfold function_defs, defines.
  assert (H : ∀ nodes (d : list (string * ast)),
    name ∈ (fold_left (fun d node =>
                         match cls_of node with
                         | FunctionDef name _ => dict_set name node d
                         | _ => d
                         end) nodes d).*1
    ↔ name ∈ d.*1 ∨ ∃ node nargs, node ∈ nodes ∧ cls_of node = FunctionDef name nargs).
  { induction nodes as [|node nodes IH]; intros d; cbn [fold_left].
    - split; [by left|]. intros [?|(node & nargs & ?%elem_of_nil & _)]; done.
    - rewrite IH. split.
      + intros [Hd|(node' & nargs & Hin & Hcls)].
        * destruct (cls_of node) as [name' nargs'| | | | | |] eqn:E; try by left.
          apply dict_set_names in Hd as [->|Hd]; [|by left].
          right. exists node, nargs'. split; [apply list_elem_of_here | done].
        * right. exists node', nargs. split; [by apply elem_of_cons; right | done].
      + intros [Hd|(node' & nargs & Hin & Hcls)].
        * left. destruct (cls_of node); try done. apply dict_set_names. by right.
        * apply elem_of_cons in Hin as [->|Hin].
          -- left. rewrite Hcls. apply dict_set_names. by left.
          -- right. by exists node', nargs. }
  rewrite H. split; [|by right]. intros [Hnil|?]; [|done].
  by apply elem_of_nil in Hnil.
Qed.

Lemma elem_of_flat_map {A B} (f : A → list B) (l : list A) (x : A) (y : B) :
  x ∈ l → y ∈ f x → y ∈ flat_map f l.
Proof.
  intros Hx Hy. apply list_elem_of_In, in_flat_map. exists x.
  split; by apply list_elem_of_In.
Qed.

(** X19. Between two versions of a tree, a function that the previous
    one defines (at any depth, methods and nested functions included) and
    the current one does not is reported as removed, one that only the
    current one defines as new, and one whose number of arguments differs
    as a changed signature; a renamed function is a removal and an
    addition. *)
Theorem function_changes_reported (previous current : ast) (name : string) :
  (defines previous name → ¬ defines current name →
   "Funzione rimossa: " +:+ name
   ∈ removed_or_changed (function_defs previous) (function_defs current))
  ∧ (defines current name → ¬ defines previous name →
     "Nuova funzione: " +:+ name
     ∈ new_functions (function_defs previous) (function_defs current))
  ∧ (∀ node node',
       (name, node) ∈ function_defs previous →
       dict_get name (function_defs current) = Some node' →
       args_count node ≠ args_count node' →
       "Signature cambiata per " +:+ name +:+ ": da "
       +:+ PyStr.str_of_nat (args_count node) +:+ " a "
       +:+ PyStr.str_of_nat (args_count node') +:+ " argomenti"
       ∈ removed_or_changed (function_defs previous) (function_defs current)).
Proof.
  split; [|split].
  - intros Hprev Hcur. apply function_defs_keys in Hprev.
    rewrite <- function_defs_keys in Hcur. apply dict_get_none in Hcur.
    apply list_elem_of_fmap in Hprev as ([name' node] & -> & Hin).
    unfold removed_or_changed. eapply elem_of_flat_map; [exact Hin|].
    cbn [fst]. cbn [fst] in Hcur. rewrite Hcur. apply list_elem_of_here.
  - intros Hcur Hprev. apply function_defs_keys in Hcur.
    rewrite <- function_defs_keys in Hprev. apply dict_get_none in Hprev.
    apply list_elem_of_fmap in Hcur as ([name' node] & -> & Hin).
    unfold new_functions. eapply elem_of_flat_map; [exact Hin|].
    cbn [fst]. cbn [fst] in Hprev. rewrite Hprev. apply list_elem_of_here.
  - intros node node' Hprev Hcur Hargs.
    unfold removed_or_changed. eapply elem_of_flat_map; [exact Hprev|].
    cbv beta iota. rewrite Hcur. cbv zeta. apply Nat.eqb_neq in Hargs. rewrite Hargs. apply list_elem_of_here.
Qed.

End FunctionChanges.

(** ** Code analyzer: the versions of a file *)

Section VersionsMore.
Import CodeAnalyzer.

Context {FunctionInfo ClassInfo : Type}.
Variable ast_parse : string -> parse_result.
Variable differ_compare : list string -> list string -> string + list string.
Variable repr_set : gset nat -> string.
Variable ASTAnalyzer_visit :
  ast -> option (gset string) -> string + ASTAnalysis FunctionInfo ClassInfo.
Variable frames : nat.
Variable recursion_error : string.

Local Abbreviation analyze :=
  (analyze_code FunctionInfo ClassInfo ast_parse differ_compare repr_set
     ASTAnalyzer_visit frames recursion_error).
Local Abbreviation body :=
  (analyze_code_body FunctionInfo ClassInfo ast_parse differ_compare repr_set
     ASTAnalyzer_visit frames recursion_error).
Local Abbreviation changes_of :=
  (changes_of_diff FunctionInfo ClassInfo ast_parse frames recursion_error).

(** The dictionary of the previous analyses after a call. *)
Lemma analyze_code_cache (code : string) (file_info : option (gmap string string))
    (active_rules : option (gset string))
    (cache : gmap string (Snapshot FunctionInfo ClassInfo)) :
  snd (analyze code file_info active_rules cache)
  = match body code file_info active_rules cache, name_of file_info with
    | inr _, Some name =>
        <[name := {| snap_code := code;
                     snap_analysis := fst (analyze code file_info active_rules cache) |}]>
          cache
    | _, _ => cache
    end.
Proof.
  unfold analyze_code.
  destruct (body code file_info active_rules cache) as [e|returned] eqn:E; [done|].
  destruct (analyze_code_body_complexity _ _ _ _ _ _ _ _ _ _ _ E) as [_ ->].
  by destruct (name_of file_info).
Qed.

(** The version changes of a call that finds a version under the name of
    the file. *)
Lemma analyze_code_version_changes (code name : string)
    (file_info : gmap string string) (active_rules : option (gset string))
    (cache : gmap string (Snapshot FunctionInfo ClassInfo))
    (previous : Snapshot FunctionInfo ClassInfo)
    (complexity : gmap string Z) (diff : list string) :
  file_info !! "name" = Some name →
  cache !! name = Some previous →
  _analyze_complexity ast_parse recursion_error frames code = inr complexity →
  differ_compare (PyStr.splitlines (snap_code previous)) (PyStr.splitlines code)
  = inr diff →
  version_changes (fst (analyze code (Some file_info) active_rules cache))
  = Some (changes_of code previous diff).
Proof.
  intros Hname Hcache Hcomplexity Hdiff.
  unfold analyze_code, analyze_code_body.
  rewrite Hcomplexity, Hname, Hcache. unfold _analyze_changes. by rewrite Hdiff.
Qed.

(** X18. The analyzer remembers, under the name of the file, the text
    and the result of the last analysis that returned from its body: the
    next analysis under that name is compared with them, whatever was
    analysed under other names in between, with or without an exception,
    and whatever the dictionary held before.  An analysis without a file
    name compares nothing and leaves the dictionary as it is. *)
Theorem analyze_code_remembers (code code' other_code name other_name : string)
    (file_info file_info' other_file : gmap string string)
    (rules rules' other_rules : option (gset string))
    (cache : gmap string (Snapshot FunctionInfo ClassInfo))
    (first : AnalysisResult FunctionInfo ClassInfo
             * gmap string (Snapshot FunctionInfo ClassInfo))
    (complexity' : gmap string Z) (diff : list string) :
  file_info !! "name" = Some name →
  file_info' !! "name" = Some name →
  other_file !! "name" = Some other_name →
  other_name ≠ name →
  body code (Some file_info) rules cache = inr first →
  _analyze_complexity ast_parse recursion_error frames code' = inr complexity' →
  differ_compare (PyStr.splitlines code) (PyStr.splitlines code') = inr diff →
  let remembered := {| snap_code := code; snap_analysis := fst first |} in
  version_changes (fst (analyze code' (Some file_info') rules' (snd first)))
  = Some (changes_of code' remembered diff)
  ∧ version_changes
      (fst (analyze code' (Some file_info') rules'
              (snd (analyze other_code (Some other_file) other_rules (snd first)))))
    = Some (changes_of code' remembered diff)
  ∧ (∀ no_name : option (gmap string string),
       name_of no_name = None →
       snd (analyze code' no_name rules' (snd first)) = snd first
       ∧ version_changes (fst (analyze code' no_name rules' (snd first))) = None).
Proof.
  intros Hname Hname' Hother Hne Hfirst Hcomplexity Hdiff remembered.
  assert (Hcache : snd first !! name = Some remembered).
  { destruct (analyze_code_body_complexity _ _ _ _ _ _ _ _ _ _ _ Hfirst) as [_ ->].
    cbn [name_of]. rewrite Hname. apply lookup_insert_eq. }
  split; [|split].
  - by apply (analyze_code_version_changes _ name _ _ _ remembered complexity' diff).
  - apply (analyze_code_version_changes _ name _ _ _ remembered complexity' diff);
      try done.
    rewrite analyze_code_cache. cbn [name_of]. rewrite Hother.
    destruct (body other_code _ _ _); [done|].
    rewrite lookup_insert_ne by done. exact Hcache.
  - intros no_name Hno. split.
    + rewrite analyze_code_cache, Hno.
      by destruct (body code' no_name rules' (snd first)).
    + unfold analyze_code, analyze_code_body.
      destruct (_analyze_complexity _ _ _ _) as [e|c]; [done|].
      destruct no_name as [fi|]; [|done]. cbn [name_of] in Hno. by rewrite Hno.
Qed.

(** *** Complexity and functions between two versions *)


End VersionsMore.

Section VersionsInstances.
Import CodeAnalyzer.


Lemma function_changes_reported_witness :
  "Funzione rimossa: g"
  ∈ removed_or_changed
      (function_defs (Node OtherNode [Node (FunctionDef "f" 1) [];
                                      Node (FunctionDef "g" 0) []]))
      (function_defs (Node OtherNode [Node (FunctionDef "f" 2) []])).
Proof.
  apply (proj1 (function_changes_reported
                  (Node OtherNode [Node (FunctionDef "f" 1) []; Node (FunctionDef "g" 0) []])
                  (Node OtherNode [Node (FunctionDef "f" 2) []]) "g")).
  - exists (Node (FunctionDef "g" 0) []), 0. split; [|done].
    vm_compute. apply list_elem_of_further, list_elem_of_further, list_elem_of_here.
  - intros (node & nargs & Hin & Hcls). vm_compute in Hin.
    repeat (apply elem_of_cons in Hin as [->|Hin]; [discriminate Hcls|]).
    by apply elem_of_nil in Hin.
Defined.

Lemma analyze_code_remembers_witness :
  version_changes
    (fst (analyze_code unit unit sample_parse sample_differ sample_repr sample_visit
            sample_frames sample_recursion_error
            "x = 2" (Some {[ "name" := "a.py" ]}) None
            (snd (analyze_code unit unit sample_parse sample_differ sample_repr
                    sample_visit sample_frames sample_recursion_error
                    "x = 1" (Some {[ "name" := "a.py" ]}) None ∅))))
  = Some (changes_of_diff unit unit sample_parse sample_frames sample_recursion_error
            "x = 2"
            {| snap_code := "x = 1";
               snap_analysis :=
                 fst (analyze_code unit unit sample_parse sample_differ sample_repr
                        sample_visit sample_frames sample_recursion_error
                        "x = 1" (Some {[ "name" := "a.py" ]}) None ∅) |}
            ["- x = 1"; "+ x = 2"]).
Proof.
  destruct (_analyze_complexity_load sample_parse sample_recursion_error sample_frames
              "x = 2" _ eq_refl ltac:(vm_compute; lia)) as (complexity' & Hc' & _).
  apply (analyze_code_remembers sample_parse sample_differ sample_repr sample_visit
           sample_frames sample_recursion_error
           "x = 1" "x = 2" "y = 0" "a.py" "b.py"
           {[ "name" := "a.py" ]} {[ "name" := "a.py" ]} {[ "name" := "b.py" ]}
           None None None ∅ _ complexity' ["- x = 1"; "+ x = 2"]);
    try apply lookup_singleton_eq; try done.
Defined.


End VersionsInstances.
(** ** Code analyzer: style *)

Section StyleMore.
Import Re CodeAnalyzer.

Variable repr_set : gset nat -> string.

Lemma enumerate1_lookup {A} (l : list A) (i : nat) (x : A) :
  l !! i = Some x → (S i, x) ∈ enumerate1 l.
Proof.
  intros Hx. unfold enumerate1. apply (list_elem_of_lookup_2 _ i).
  apply lookup_zip_Some. split; [|done].
  apply lookup_seq. split; [done|]. by eapply lookup_lt_Some.
Qed.

(** X21. Every line longer than 79 characters is reported with its
    number, counted from 1, and its length. *)
Theorem _analyze_style_long_line (code line : string) (i : nat) :
  PyStr.split_chr "010" code !! i = Some line →
  79 < String.length line →
  "Linea " +:+ PyStr.str_of_nat (S i) +:+ " troppo lunga ("
  +:+ PyStr.str_of_nat (String.length line) +:+ " caratteri)"
  ∈ _analyze_style repr_set code.
Proof.
  intros Hline Hlong. unfold _analyze_style. cbv zeta.
  apply elem_of_app. left.
  match goal with
  | |- _ ∈ (if ?b then ?l ++ ?e else ?l) =>
      assert (Hl : ∀ x, x ∈ l → x ∈ (if b then l ++ e else l))
  end.
  { intros x Hx. destruct (_ && _); [apply elem_of_app; by left | done]. }
  apply Hl. apply elem_of_app. right.
  eapply elem_of_flat_map; [by apply enumerate1_lookup|].
  cbv beta iota. apply Nat.ltb_lt in Hlong. rewrite Hlong. apply list_elem_of_here.
Qed.

(** *** Operators *)

Lemma operator_regex_not_here (p : option ascii) (a b : ascii) (t : string) :
  is_operator a = false → Ascii.eqb "=" b = false →
  match_here no_flags operator_regex p (String a (String b t)) = None.
Proof.
  intros Ha Hb. unfold match_here, operator_regex, Opt.
  cbn [cats rmatch]. unfold one_char, advance. cbn [rest groups prev].
  fold (is_operator a). rewrite Ha, Hb. by destruct (negb (one_of "=!<>" a)).
Qed.

Lemma consumed_starts (c : ascii) (s after : string) :
  String.length after <= String.length s →
  PyStr.startswith (String c EmptyString) (consumed (String c s) after) = true.
Proof.
  intros Hle. unfold consumed. cbn [String.length].
  rewrite Nat.sub_succ_l by done. cbn [PyStr.slice_to].
  rewrite startswith_cons. by rewrite Ascii.eqb_refl.
Qed.

Lemma operator_regex_here (p : option ascii) (c : ascii) (post : string) :
  is_operator c = true →
  ∃ m, match_here no_flags operator_regex p (String c post) = Some m
       ∧ PyStr.startswith (String c EmptyString) (group0 m) = true.
Proof.
  intros Hc. unfold match_here, operator_regex, Opt.
  cbn [cats rmatch]. unfold one_char, advance. cbn [rest groups prev].
  fold (is_operator c). rewrite Hc.
  destruct post as [|d [|y post]]; cbn [rest groups prev];
    repeat match goal with
           | |- context [if ?b then _ else _] => destruct b
           end;
    eexists; (split; [reflexivity|]);
    cbn [group0 rest]; apply consumed_starts; cbn; lia.
Qed.

Lemma is_operator_cases (c : ascii) :
  is_operator c = true →
  c = "+"%char ∨ c = "-"%char ∨ c = "*"%char ∨ c = "/"%char ∨ c = "<"%char
  ∨ c = ">"%char.
Proof.
  unfold is_operator, one_of. cbn [PyStr.contains]. rewrite !startswith_cons.
  change (PyStr.startswith EmptyString _) with true.
  change (PyStr.startswith (String c EmptyString) EmptyString) with false.
  rewrite !andb_true_r, !orb_true_iff.
  intros H. repeat destruct H as [H|H]; try discriminate H;
    apply Ascii.eqb_eq in H; subst c; tauto.
Qed.

Lemma plain_not_equals (c : ascii) :
  is_operator c = true ∨ plain c = true → Ascii.eqb "=" c = false.
Proof.
  intros [H|H]; destruct (Ascii.eqb_spec "=" c) as [<-|]; try done.
Qed.

Lemma search_operator (pre : string) (c : ascii) (post : string) (p : option ascii) :
  all_chars plain pre = true → is_operator c = true →
  ∃ m, search_from no_flags operator_regex p (pre +:+ String c post) = Some m
       ∧ PyStr.startswith (String c EmptyString) (group0 m) = true.
Proof.
  intros Hpre Hc. revert p. induction pre as [|a pre IH]; intros p.
  - rewrite append_empty_l. destruct (operator_regex_here p c post Hc) as (m & Hm & Hg).
    exists m. split; [by apply search_from_here | done].
  - cbn [all_chars] in Hpre. apply andb_true_iff in Hpre as [Ha Hpre].
    rewrite append_cons. cbn [search_from].
    assert (Hnext : ∃ b t, pre +:+ String c post = String b t ∧ Ascii.eqb "=" b = false).
    { destruct pre as [|b pre].
      - exists c, post. split; [done|]. apply plain_not_equals. by left.
      - exists b, (pre +:+ String c post). split; [by rewrite append_cons|].
        cbn [all_chars] in Hpre. apply andb_true_iff in Hpre as [Hb _].
        apply plain_not_equals. by right. }
    destruct Hnext as (b & t & E & Hb). rewrite E, operator_regex_not_here; [|..|done].
    + rewrite <- E. by apply IH.
    + unfold plain in Ha. apply negb_true_iff, orb_false_iff in Ha. tauto.
Qed.

(** X22. An operator character ([+], [-], [*], [/], [<] or [>]) in a line,
    with no other and no equals sign before it, is always reported as
    lacking spaces around it, also when it stands between blanks: the text
    that the operator regex matches starts with the character itself, so
    it never starts with a blank. *)
Theorem _analyze_style_operator (code pre post : string) (c : ascii) (i : nat) :
  PyStr.split_chr "010" code !! i = Some (pre +:+ String c post) →
  all_chars plain pre = true →
  is_operator c = true →
  ∃ op, PyStr.startswith (String c EmptyString) op = true
        ∧ "Linea " +:+ PyStr.str_of_nat (S i)
          +:+ ": spazi mancanti attorno all'operatore '" +:+ op +:+ "'"
          ∈ _analyze_style repr_set code.
Proof.
  intros Hline Hpre Hc.
  destruct (search_operator pre c post None Hpre Hc) as (m & Hm & Hg).
  assert (Hop : PyStr.startswith " " (group0 m) = false).
  { destruct (group0 m) as [|d g]; [done|]. rewrite startswith_cons in Hg |- *.
    apply andb_true_iff in Hg as [Hd _]. apply Ascii.eqb_eq in Hd. subst d.
    destruct (Ascii.eqb_spec " " c) as [<-|]; [done|done]. }
  exists (PyStr.strip (group0 m)). split.
  - destruct (group0 m) as [|d g]; [done|]. rewrite startswith_cons in Hg.
    apply andb_true_iff in Hg as [Hd _]. apply Ascii.eqb_eq in Hd. subst d.
    assert (Hsp : PyStr.isspace c = false).
    { destruct (is_operator_cases c Hc) as [->|[->|[->|[->|[->| ->]]]]]; reflexivity. }
    unfold PyStr.strip. cbn [PyStr.lstrip]. rewrite Hsp. cbn [PyStr.rstrip].
    destruct (PyStr.rstrip g); rewrite ?Hsp; by rewrite startswith_cons, Ascii.eqb_refl.
  - unfold _analyze_style. cbv zeta. apply elem_of_app. right.
    eapply elem_of_flat_map; [by apply enumerate1_lookup|]. cbv beta iota.
    eapply (elem_of_flat_map _ _ m).
    + unfold finditer. cbn [finditer_from]. rewrite Hm. apply list_elem_of_here.
    + cbv zeta. rewrite Hop. cbn [andb]. apply list_elem_of_here.
Qed.

End StyleMore.

Section StyleInstances.
Import CodeAnalyzer.

Lemma _analyze_style_long_line_witness :
  "Linea 2 troppo lunga (80 caratteri)"
  ∈ _analyze_style sample_repr
      (String "x" (String "010"
         "aaaaaaaaaaaaaaaaaaaaaaaaaaaaaaaaaaaaaaaaaaaaaaaaaaaaaaaaaaaaaaaaaaaaaaaaaaaaaaaa")).
Proof.
  apply (_analyze_style_long_line sample_repr
           (String "x" (String "010"
              "aaaaaaaaaaaaaaaaaaaaaaaaaaaaaaaaaaaaaaaaaaaaaaaaaaaaaaaaaaaaaaaaaaaaaaaaaaaaaaaa"))
           "aaaaaaaaaaaaaaaaaaaaaaaaaaaaaaaaaaaaaaaaaaaaaaaaaaaaaaaaaaaaaaaaaaaaaaaaaaaaaaaa"
           1).
  - reflexivity.
  - cbn. lia.
Defined.

Lemma _analyze_style_operator_witness :
  ∃ op, PyStr.startswith "+" op = true
        ∧ "Linea 1: spazi mancanti attorno all'operatore '" +:+ op +:+ "'"
          ∈ _analyze_style sample_repr "a + b".
Proof.
  apply (_analyze_style_operator sample_repr "a + b" "a " " b" "+" 0);
    reflexivity.
Defined.

End StyleInstances.
